(** * Data-Algo-Analyser: the file-profiling engine and the result generator

    A shallow embedding of [src/lib/fileAnalyzer.ts] and
    [src/lib/resultGenerator.ts], with the handlers of the components that
    call them, and the properties of the specification that were checked
    against it.

    Conventions of the embedding.
    - A JavaScript string is a [string]; each [ascii] stands for one UTF-16
      code unit below 256, so the model covers 8-bit (Latin-1) text.
    - A JavaScript number is an IEEE 754 binary64 value, [PrimFloat.float].
      Integer quantities that the program only ever obtains from a [length]
      (row and column counts) are kept in [Z].
    - A value of type [any] is a [JSValue].
    - An object literal that the program fills key by key is a [Rec.t]: an
      association list kept in the order in which JavaScript enumerates own
      properties.
    - Functions of the host (the JSON parser, [Math.log], the clock and the
      random generator) and the number of arguments that the engine passes
      in one call are parameters of the program section. *)

From Stdlib Require Import ZArith List String Ascii Bool Lia Floats Uint63.
From Stdlib Require Import Permutation Sorted.
From Stdlib Require DecimalString.
Import ListNotations.

Local Open Scope string_scope.
Local Open Scope list_scope.

(** String concatenation, the [+] of JavaScript on strings. *)
Infix "+++" := String.append (right associativity, at level 60).

(** ** Strings: the built-in methods the program calls *)

Module JSString.

Definition code (c : ascii) : N := N_of_ascii c.

(** ECMAScript WhiteSpace and LineTerminator code units below 256: TAB, LF,
    VT, FF, CR, SPACE and NO-BREAK SPACE. [trim] and the regular expression
    class [\s] share this set. *)
Definition is_space (c : ascii) : bool :=
  let n := code c in
  ((9 <=? n) && (n <=? 13) || (n =? 32) || (n =? 160))%N.

Definition is_digit (c : ascii) : bool :=
  let n := code c in ((48 <=? n) && (n <=? 57))%N.

Fixpoint trimStart (s : string) : string :=
  match s with
  | String c r => if is_space c then trimStart r else s
  | EmptyString => EmptyString
  end.

Fixpoint all_space (s : string) : bool :=
  match s with
  | String c r => is_space c && all_space r
  | EmptyString => true
  end.

Fixpoint trimEnd (s : string) : string :=
  match s with
  | String c r => if all_space s then EmptyString else String c (trimEnd r)
  | EmptyString => EmptyString
  end.

(** [String.prototype.trim] *)
Definition trim (s : string) : string := trimEnd (trimStart s).

(** [String.prototype.split] with a one-character separator: the pieces
    between the occurrences of [sep]; never the empty list. *)
Fixpoint split (sep : ascii) (s : string) : list string :=
  match s with
  | EmptyString => [EmptyString]
  | String c r =>
      if Ascii.eqb c sep then EmptyString :: split sep r
      else match split sep r with
           | piece :: rest => String c piece :: rest
           | [] => [String c EmptyString]
           end
  end.

(** [s.split(/\s+/)]: the pieces between the maximal runs of white space.
    [in_run] tells that the previous code unit was white space. *)
Fixpoint split_spaces_from (in_run : bool) (s : string) : list string :=
  match s with
  | EmptyString => [EmptyString]
  | String c r =>
      if is_space c then
        if in_run then split_spaces_from true r
        else EmptyString :: split_spaces_from true r
      else match split_spaces_from false r with
           | piece :: rest => String c piece :: rest
           | [] => [String c EmptyString]
           end
  end.

Definition split_spaces (s : string) : list string := split_spaces_from false s.

(** [Array.prototype.join] on strings *)
Fixpoint join (sep : string) (l : list string) : string :=
  match l with
  | [] => EmptyString
  | [x] => x
  | x :: rest => x ++ sep ++ join sep rest
  end.

Definition lower_char (c : ascii) : ascii :=
  let n := code c in
  if ((65 <=? n) && (n <=? 90) ||
      (192 <=? n) && (n <=? 222) && negb (n =? 215))%N
  then ascii_of_N (n + 32) else c.

(** Upper case within the 8-bit range. The code units 181, 223 and 255 have
    no single upper-case code unit below 256 and are left as they are. *)
Definition upper_char (c : ascii) : ascii :=
  let n := code c in
  if ((97 <=? n) && (n <=? 122) ||
      (224 <=? n) && (n <=? 254) && negb (n =? 247))%N
  then ascii_of_N (n - 32) else c.

Fixpoint map_chars (f : ascii -> ascii) (s : string) : string :=
  match s with
  | String c r => String (f c) (map_chars f r)
  | EmptyString => EmptyString
  end.

(** The three code units whose upper case is not one code unit below 256
    (181, 223 and 255) are left as they are. *)
Definition toLowerCase : string -> string := map_chars lower_char.
Definition toUpperCase : string -> string := map_chars upper_char.

Fixpoint count_char (c : ascii) (s : string) : nat :=
  match s with
  | String d r => (if Ascii.eqb d c then 1 else 0) + count_char c r
  | EmptyString => 0
  end.

Fixpoint contains_char (c : ascii) (s : string) : bool :=
  match s with
  | String d r => Ascii.eqb d c || contains_char c r
  | EmptyString => false
  end.

(** Decimal digits of a natural number and of an integer, as a template
    literal prints an integer-valued number. *)
Definition of_Z (z : Z) : string :=
  DecimalString.NilZero.string_of_int (Z.to_int z).

Definition of_nat (n : nat) : string := of_Z (Z.of_nat n).

Definition tab : ascii := ascii_of_N 9.
Definition newline : ascii := ascii_of_N 10.
Definition nl : string := String newline EmptyString.

End JSString.

(** ** Numbers: IEEE 754 binary64 and the conversions of ECMAScript *)

Module JSNumber.

Local Open Scope Z_scope.

Definition NaN : float := PrimFloat.nan.
Definition Infinity : float := PrimFloat.infinity.

(** The global [isNaN] and [isFinite] on a value that is already a number. *)
Definition isNaN (x : float) : bool := PrimFloat.is_nan x.
Definition isFinite (x : float) : bool := PrimFloat.is_finite x.

(** The number nearest to the integer [z] (ties to even). *)
Definition of_Z (z : Z) : float := SF2Prim (binary_normalize prec emax z 0 false).
Definition of_nat (n : nat) : float := of_Z (Z.of_nat n).

(** The number nearest to [(-1)^neg * m * 10^e], for [0 <= m]: the value of
    a decimal literal, rounded once. *)
Definition of_decimal (neg : bool) (m e : Z) : float :=
  SF2Prim
    match m with
    | Zpos p =>
        if 0 <=? e
        then binary_normalize prec emax (cond_Zopp neg (m * 10 ^ e)) 0 false
        else SFdiv prec emax (S754_finite neg p 0)
               (S754_finite false (Z.to_pos (10 ^ (- e))) 0)
    | _ => S754_zero neg
    end.

(** *** Reading a number from a string *)

Definition digit_value (c : ascii) : Z := Z.of_N (JSString.code c) - 48.

(** The longest prefix of decimal digits: its value, its length, the rest. *)
Fixpoint span_digits (acc : Z) (len : Z) (s : string) : Z * Z * string :=
  match s with
  | String c r =>
      if JSString.is_digit c
      then span_digits (10 * acc + digit_value c) (len + 1) r
      else (acc, len, s)
  | EmptyString => (acc, len, s)
  end.

Definition scan_sign (s : string) : bool * string :=
  match s with
  | String "+"%char r => (false, r)
  | String "-"%char r => (true, r)
  | _ => (false, s)
  end.

Fixpoint strip_prefix (p s : string) : option string :=
  match p, s with
  | EmptyString, _ => Some s
  | String a p', String b s' => if Ascii.eqb a b then strip_prefix p' s' else None
  | String _ _, EmptyString => None
  end.

(** An optional ExponentPart; it is taken only when it has a digit. *)
Definition scan_exponent (s : string) : Z * string :=
  match s with
  | String c r =>
      if (Ascii.eqb c "e" || Ascii.eqb c "E")%bool then
        let '(eneg, r1) := scan_sign r in
        let '(ev, elen, r2) := span_digits 0 0 r1 in
        if elen =? 0 then (0, s) else (cond_Zopp eneg ev, r2)
      else (0, s)
  | EmptyString => (0, s)
  end.

(** The longest prefix of [s] that is a StrDecimalLiteral, with its value,
    and what follows it. *)
Definition scan_decimal (s : string) : option (float * string) :=
  let '(neg, s1) := scan_sign s in
  match strip_prefix "Infinity" s1 with
  | Some rest => Some ((if neg then PrimFloat.neg_infinity else PrimFloat.infinity), rest)
  | None =>
      let '(iv, ilen, s2) := span_digits 0 0 s1 in
      let '(mv, flen, s3) :=
        match s2 with
        | String "."%char r => span_digits iv 0 r
        | _ => (iv, 0, s2)
        end in
      if (ilen =? 0) && (flen =? 0) then None
      else
        let '(ev, s4) := scan_exponent s3 in
        Some (of_decimal neg mv (ev - flen), s4)
  end.

(** The global [parseFloat] on a string. *)
Definition parseFloat (s : string) : float :=
  match scan_decimal (JSString.trimStart s) with
  | Some (v, _) => v
  | None => NaN
  end.

Definition radix_digit (radix : Z) (c : ascii) : option Z :=
  let n := Z.of_N (JSString.code c) in
  let d := if (48 <=? n) && (n <=? 57) then n - 48
           else if (97 <=? n) && (n <=? 102) then n - 87
           else if (65 <=? n) && (n <=? 70) then n - 55
           else radix in
  if d <? radix then Some d else None.

Fixpoint radix_value (radix : Z) (acc : Z) (s : string) : option Z :=
  match s with
  | EmptyString => Some acc
  | String c r =>
      match radix_digit radix c with
      | Some d => radix_value radix (radix * acc + d) r
      | None => None
      end
  end.

(** A NonDecimalIntegerLiteral: [0x], [0o] or [0b] and at least one digit. *)
Definition scan_non_decimal (s : string) : option float :=
  match s with
  | String "0"%char (String c (String d r)) =>
      let radix :=
        if (Ascii.eqb c "x" || Ascii.eqb c "X")%bool then 16
        else if (Ascii.eqb c "o" || Ascii.eqb c "O")%bool then 8
        else if (Ascii.eqb c "b" || Ascii.eqb c "B")%bool then 2
        else 0 in
      if radix =? 0 then None
      else option_map of_Z (radix_value radix 0 (String d r))
  | _ => None
  end.

(** StringToNumber, the conversion [Number(s)] that the global [isFinite]
    applies to a string. *)
Definition of_string (s : string) : float :=
  let t := JSString.trim s in
  match t with
  | EmptyString => PrimFloat.zero
  | _ =>
      match scan_non_decimal t with
      | Some v => v
      | None =>
          match scan_decimal t with
          | Some (v, EmptyString) => v
          | _ => NaN
          end
      end
  end.

(** *** Printing a number: Number::toString in radix 10 *)

(** [x] decomposed as a sign and [m * 2^e]; [None] for zero, infinities, NaN. *)
Definition decompose (x : float) : option (bool * positive * Z) :=
  match Prim2SF x with
  | S754_finite s m e => Some (s, m, e)
  | _ => None
  end.

(** A positive rational [num / den]. *)
Definition ratio (m : positive) (e : Z) : Z * Z :=
  if 0 <=? e then (Zpos m * 2 ^ e, 1) else (Zpos m, 2 ^ (- e)).

(** [num / den] scaled by [10^(-q)]. *)
Definition scale10 (q : Z) (v : Z * Z) : Z * Z :=
  let '(num, den) := v in
  if 0 <=? q then (num, den * 10 ^ q) else (num * 10 ^ (- q), den).

(** Whether [10^q <= num / den]. *)
Definition pow10_le (q : Z) (v : Z * Z) : bool :=
  let '(num, den) := scale10 q v in den <=? num.

Fixpoint raise_log10 (fuel : nat) (q : Z) (v : Z * Z) : Z :=
  match fuel with
  | O => q
  | S fuel' => if pow10_le (q + 1) v then raise_log10 fuel' (q + 1) v else q
  end.

(** [floor (log10 (num / den))]: an under-estimate from the bit lengths,
    raised until it is exact (the estimate is short by 3 at most). *)
Definition ilog10 (v : Z * Z) : Z :=
  let '(num, den) := v in
  let est := ((Z.log2 num - Z.log2 den - 1) * 30102) / 100000 - 1 in
  raise_log10 8 est v.

(** For [k] digits and decimal position [n]: the [k]-digit integers [s]
    next to [v / 10^(n-k)] for which [s * 10^(n-k)] reads back as [x], the
    one closest to [v] first (on a tie, the even one). *)
Definition candidates (x : float) (v : Z * Z) (n k : Z) : list Z :=
  let q := n - k in
  let '(num, den) := scale10 q v in
  let lo := num / den in
  let hi := lo + 1 in
  let twice_rem := 2 * (num - lo * den) in
  let ordered :=
    if twice_rem <? den then [lo; hi]
    else if den <? twice_rem then [hi; lo]
    else if Z.even lo then [lo; hi] else [hi; lo] in
  filter (fun s => PrimFloat.eqb (of_decimal false s q) x) ordered.

Fixpoint shortest_from (fuel : nat) (x : float) (v : Z * Z) (n k : Z) : Z * Z :=
  match fuel with
  | O => (0, k)
  | S fuel' =>
      match candidates x v n k with
      | s :: _ => (s, k)
      | [] => shortest_from fuel' x v n (k + 1)
      end
  end.

Fixpoint zeros (n : nat) : string :=
  match n with O => EmptyString | S n' => String "0" (zeros n') end.

Definition take (n : Z) (s : string) : string := substring 0 (Z.to_nat n) s.
Definition drop (n : Z) (s : string) : string :=
  substring (Z.to_nat n) (String.length s - Z.to_nat n) s.

(** The digits [ds] (there are [k] of them) with the decimal point after
    position [n], laid out as Number::toString prescribes. *)
Definition layout (ds : string) (k n : Z) : string :=
  if (k <=? n) && (n <=? 21) then ds +++ zeros (Z.to_nat (n - k))
  else if (0 <? n) && (n <=? 21) then take n ds +++ "." +++ drop n ds
  else if (-6 <? n) && (n <=? 0) then "0." +++ zeros (Z.to_nat (- n)) +++ ds
  else
    let e := n - 1 in
    let es := (if 0 <=? e then "+" else "-") +++ JSString.of_Z (Z.abs e) in
    if k =? 1 then ds +++ "e" +++ es
    else take 1 ds +++ "." +++ drop 1 ds +++ "e" +++ es.

Definition toString (x : float) : string :=
  if PrimFloat.is_nan x then "NaN"
  else match decompose x with
       | None =>
           if PrimFloat.is_zero x then "0"
           else if PrimFloat.get_sign x then "-Infinity" else "Infinity"
       | Some (neg, m, e) =>
           let v := ratio m e in
           let n := ilog10 v + 1 in
           let '(s, k) := shortest_from 17 (PrimFloat.abs x) v n 1 in
           let '(s, n) := if s =? 10 ^ k then (10 ^ (k - 1), n + 1) else (s, n) in
           (if neg then "-" else "") +++ layout (JSString.of_Z s) k n
       end.

(** [Number.prototype.toFixed(digits)] for [0 <= digits]: the integer [n]
    with [n / 10^digits] nearest to [x], the larger one on a tie. *)
Definition toFixed (x : float) (digits : Z) : string :=
  match decompose x with
  | None => if PrimFloat.is_zero x
            then (if digits =? 0 then "0" else "0." +++ zeros (Z.to_nat digits))
            else toString x
  | Some (neg, m, e) =>
      if PrimFloat.leb (of_decimal false 1 21) (PrimFloat.abs x) then toString x
      else
        let '(num, den) := scale10 (- digits) (ratio m e) in
        let lo := num / den in
        let n := if 2 * (num - lo * den) <? den then lo else lo + 1 in
        let ds := JSString.of_Z n in
        let ds := zeros (Z.to_nat (digits + 1 - Z.of_nat (String.length ds))) +++ ds in
        let k := Z.of_nat (String.length ds) in
        (if neg then "-" else "") +++
        (if digits =? 0 then ds else take (k - digits) ds +++ "." +++ drop (k - digits) ds)
  end.

(** *** The Math functions that ECMAScript defines exactly *)

Definition floor (x : float) : float :=
  match decompose x with
  | None => x
  | Some (neg, m, e) =>
      if 0 <=? e then x
      else
        let q := Zpos m / 2 ^ (- e) in
        if neg then of_Z (- (if q * 2 ^ (- e) =? Zpos m then q else q + 1))
        else of_Z q
  end.

(** The integer that [x] is, when it is one. *)
Definition to_integer (x : float) : option Z :=
  match decompose x with
  | None => if PrimFloat.is_zero x then Some 0 else None
  | Some (neg, m, e) =>
      if 0 <=? e then Some (cond_Zopp neg (Zpos m * 2 ^ e))
      else if Zpos m mod 2 ^ (- e) =? 0 then Some (cond_Zopp neg (Zpos m / 2 ^ (- e)))
      else None
  end.

(** The number nearest to [2^n]. *)
Definition pow2 (n : Z) : float :=
  if 0 <=? n then of_Z (2 ^ n)
  else SF2Prim (SFdiv prec emax (S754_finite false 1 0)
                  (S754_finite false (Z.to_pos (2 ^ (- n))) 0)).

Definition is_neg_zero (x : float) : bool := PrimFloat.is_zero x && PrimFloat.get_sign x.
Definition is_pos_zero (x : float) : bool := PrimFloat.is_zero x && negb (PrimFloat.get_sign x).

(** [Math.min(...values)]: NaN if a value is NaN; else the scan of the
    standard from +Infinity, in which -0 is below +0. *)
Definition min_step (lowest x : float) : float :=
  if is_neg_zero x && is_pos_zero lowest then x
  else if PrimFloat.ltb x lowest then x else lowest.

Definition min (values : list float) : float :=
  if existsb PrimFloat.is_nan values then NaN
  else fold_left min_step values PrimFloat.infinity.

Definition max_step (highest x : float) : float :=
  if is_pos_zero x && is_neg_zero highest then x
  else if PrimFloat.ltb highest x then x else highest.

Definition max (values : list float) : float :=
  if existsb PrimFloat.is_nan values then NaN
  else fold_left max_step values PrimFloat.neg_infinity.

End JSNumber.

(** ** Regular expressions: the fragment the program's literals use *)

Module RegExp.

Inductive t : Type :=
| Bol                               (* ^ *)
| Eol                               (* $ *)
| Class (p : ascii -> bool)         (* a character class *)
| Seq (r1 r2 : t)                   (* r1 r2 *)
| Alt (r1 r2 : t)                   (* r1 | r2 *)
| Rep (lo hi : nat) (r : t).        (* r{lo,hi} *)

(** A position in the subject: whether it is the start, and what is left. *)
Definition pos : Type := bool * string.

Fixpoint rep (step : pos -> list pos) (lo hi : nat) (p : pos) : list pos :=
  match hi with
  | O => if Nat.eqb lo 0 then [p] else []
  | S hi' =>
      flat_map (rep step (Nat.pred lo) hi') (step p)
      ++ (if Nat.eqb lo 0 then [p] else [])
  end.

(** The positions at which a match of [r] that starts at [p] can end. *)
Fixpoint ends (r : t) (p : pos) : list pos :=
  match r with
  | Bol => if fst p then [p] else []
  | Eol => match snd p with EmptyString => [p] | _ => [] end
  | Class f =>
      match snd p with
      | String c rest => if f c then [(false, rest)] else []
      | EmptyString => []
      end
  | Seq r1 r2 => flat_map (ends r2) (ends r1 p)
  | Alt r1 r2 => ends r1 p ++ ends r2 p
  | Rep lo hi r' => rep (ends r') lo hi p
  end.

Definition matches_at (r : t) (p : pos) : bool :=
  match ends r p with [] => false | _ :: _ => true end.

Fixpoint test_from (r : t) (start : bool) (s : string) : bool :=
  matches_at r (start, s)
  || match s with
     | String _ rest => test_from r false rest
     | EmptyString => false
     end.

(** [RegExp.prototype.test]: a match starting at some position. *)
Definition test (r : t) (s : string) : bool := test_from r true s.

(** Concatenation of a list of terms. *)
Fixpoint seq (rs : list t) : t :=
  match rs with
  | [] => Rep 0 0 Bol
  | [r] => r
  | r :: rest => Seq r (seq rest)
  end.

Definition digit : t := Class JSString.is_digit.                      (* \d *)
Definition dash_or_slash : t :=                                       (* [-/] *)
  Class (fun c => Ascii.eqb c "-" || Ascii.eqb c "/").

End RegExp.

(** ** Records: object literals filled key by key *)

Module Rec.

Definition t (V : Type) : Type := list (string * V).

Fixpoint all_digits (s : string) : bool :=
  match s with
  | String c r => JSString.is_digit c && all_digits r
  | EmptyString => true
  end.

(** The integer a property key denotes when it is an array index: the
    canonical decimal form of an integer below 2^32 - 1. *)
Definition array_index (k : string) : option Z :=
  match k with
  | EmptyString => None
  | String c r =>
      if all_digits k && (negb (Ascii.eqb c "0") || String.eqb r "") then
        let '(v, _, _) := JSNumber.span_digits 0 0 k in
        if (v <? 4294967295)%Z then Some v else None
      else None
  end.

Definition proto : string := "__proto__".

Fixpoint replace {V} (k : string) (v : V) (r : t V) : option (t V) :=
  match r with
  | [] => None
  | (k', v') :: rest =>
      if String.eqb k k' then Some ((k, v) :: rest)
      else option_map (cons (k', v')) (replace k v rest)
  end.

(** A new index key goes after the index keys that are smaller. *)
Fixpoint insert_index {V} (i : Z) (k : string) (v : V) (r : t V) : t V :=
  match r with
  | [] => [(k, v)]
  | (k', v') :: rest =>
      match array_index k' with
      | Some j => if (j <? i)%Z then (k', v') :: insert_index i k v rest
                  else (k, v) :: r
      | None => (k, v) :: r
      end
  end.

(** [r[k] = v] on an ordinary object whose values are not objects: an
    assignment to [__proto__] leaves its own properties as they are; an
    existing key keeps its place; a new index key is placed among the index
    keys, which come first in ascending order; any other new key goes last. *)
Definition set {V} (k : string) (v : V) (r : t V) : t V :=
  if String.eqb k proto then r
  else match replace k v r with
       | Some r' => r'
       | None =>
           match array_index k with
           | Some i => insert_index i k v r
           | None => r ++ [(k, v)]
           end
       end.

Fixpoint lookup {V} (k : string) (r : t V) : option V :=
  match r with
  | [] => None
  | (k', v) :: rest => if String.eqb k k' then Some v else lookup k rest
  end.

(** [r[k]] read as an own data property; [None] stands for what is not one
    of the values stored ([undefined], or the prototype under [__proto__]). *)
Definition get {V} (k : string) (r : t V) : option V :=
  if String.eqb k proto then None else lookup k r.

Definition keys {V} (r : t V) : list string := map fst r.
Definition values {V} (r : t V) : list V := map snd r.

End Rec.

(** ** Values of type [any] *)

Inductive error : Type :=
| TypeError
| RangeError     (* a call with more arguments than the engine passes *)
| ReadError.     (* [new Error("Error reading file")] *)

(** The outcome of a computation that may throw, or of a promise. *)
Inductive outcome (A : Type) : Type :=
| Ok (a : A)
| Throw (e : error).
Arguments Ok {A} a.
Arguments Throw {A} e.

Definition bind {A B} (m : outcome A) (f : A -> outcome B) : outcome B :=
  match m with
  | Ok a => f a
  | Throw e => Throw e
  end.

Notation "x <- m ;; k" := (bind m (fun x => k))
  (at level 61, m at next level, right associativity).

Fixpoint mapM {A B} (f : A -> outcome B) (l : list A) : outcome (list B) :=
  match l with
  | [] => Ok []
  | a :: rest => b <- f a ;; bs <- mapM f rest ;; Ok (b :: bs)
  end.

#[warnings="-register-all"]
Inductive JSValue : Type :=
| JUndefined
| JNull
| JBool (b : bool)
| JNumber (x : float)
| JString (s : string)
| JArray (items : list JSValue)
| JObject (fields : list (string * JSValue)).

Module Any.

(** [typeof v === "object"] *)
Definition is_object (v : JSValue) : bool :=
  match v with
  | JNull | JArray _ | JObject _ => true
  | _ => false
  end.

(** ToBoolean *)
Definition truthy (v : JSValue) : bool :=
  match v with
  | JUndefined | JNull => false
  | JBool b => b
  | JNumber x => negb (PrimFloat.is_nan x || PrimFloat.is_zero x)
  | JString s => negb (String.eqb s "")
  | JArray _ | JObject _ => true
  end.

(** ToString; [String(v)] and string concatenation use it. An object prints
    as the built-in [toString] prints it: objects that carry a [toString] or
    [valueOf] of their own are not modelled. *)
Fixpoint ToString (v : JSValue) : string :=
  match v with
  | JUndefined => "undefined"
  | JNull => "null"
  | JBool b => if b then "true" else "false"
  | JNumber x => JSNumber.toString x
  | JString s => s
  | JArray items =>
      JSString.join ","
        (map (fun i => match i with
                       | JUndefined | JNull => ""
                       | _ => ToString i
                       end) items)
  | JObject _ => "[object Object]"
  end.

(** ToNumber *)
Definition ToNumber (v : JSValue) : float :=
  match v with
  | JUndefined => JSNumber.NaN
  | JNull => PrimFloat.zero
  | JBool b => if b then PrimFloat.one else PrimFloat.zero
  | JNumber x => x
  | JString s => JSNumber.of_string s
  | JArray _ | JObject _ => JSNumber.of_string (ToString v)
  end.

(** The globals [parseFloat] and [isFinite] on any value. *)
Definition parseFloat (v : JSValue) : float := JSNumber.parseFloat (ToString v).
Definition isFinite (v : JSValue) : bool := JSNumber.isFinite (ToNumber v).

Fixpoint index_keys_from (i : nat) (n : nat) : list string :=
  match n with
  | O => []
  | S n' => JSString.of_nat i :: index_keys_from (S i) n'
  end.

Fixpoint chars (s : string) : list string :=
  match s with
  | String c r => String c EmptyString :: chars r
  | EmptyString => []
  end.

(** [l[k]] for an array index [k] *)
Definition at_index {A} (l : list A) (k : string) : option A :=
  match Rec.array_index k with
  | Some i => nth_error l (Z.to_nat i)
  | None => None
  end.

(** [Object.keys(v)] *)
Definition keys (v : JSValue) : outcome (list string) :=
  match v with
  | JUndefined | JNull => Throw TypeError
  | JBool _ | JNumber _ => Ok []
  | JString s => Ok (index_keys_from 0 (String.length s))
  | JArray items => Ok (index_keys_from 0 (List.length items))
  | JObject fields => Ok (map fst fields)
  end.

Definition or_undefined (o : option JSValue) : JSValue :=
  match o with Some v => v | None => JUndefined end.

(** [v[k]]: own properties, the elements and the [length] of arrays and
    strings. Reading a property of [null] or [undefined] throws. Members
    inherited from the built-in prototypes are not modelled: a key that
    names one reads as [undefined]. *)
Definition get (v : JSValue) (k : string) : outcome JSValue :=
  match v with
  | JUndefined | JNull => Throw TypeError
  | JBool _ | JNumber _ => Ok JUndefined
  | JString s =>
      if String.eqb k "length" then Ok (JNumber (JSNumber.of_nat (String.length s)))
      else Ok (or_undefined (option_map JString (at_index (chars s) k)))
  | JArray items =>
      if String.eqb k "length" then Ok (JNumber (JSNumber.of_nat (List.length items)))
      else Ok (or_undefined (at_index items k))
  | JObject fields => Ok (or_undefined (Rec.lookup k fields))
  end.

(** [{...v}]: the own enumerable properties of [v]. *)
Definition spread (v : JSValue) : Rec.t JSValue :=
  match v with
  | JString s => combine (index_keys_from 0 (String.length s)) (map JString (chars s))
  | JArray items => combine (index_keys_from 0 (List.length items)) items
  | JObject fields => fields
  | _ => []
  end.

Definition of_record (r : Rec.t float) : JSValue :=
  JObject (map (fun kv => (fst kv, JNumber (snd kv))) r).

End Any.

(** ** The result of the analysis ([fileAnalyzer.ts]) *)

(** A value of [statistics: Record<string, any>]: the analyzers store either
    a record of numbers (the outcome of [calculateStatistics]) or a number. *)
Inductive StatValue : Type :=
| StatRecord (r : Rec.t float)
| StatNumber (x : float).

(** [Partial<AnalysisResult>]: what one analyzer returns. [None] is a key
    that is absent or holds [undefined]. *)
Record PartialResult : Type := {
  p_summary : option string;
  p_rowCount : option Z;
  p_columnCount : option Z;
  p_headers : option (list string);
  p_dataTypes : option (Rec.t string);
  p_sampleData : option (list JSValue);
  p_statistics : option (Rec.t StatValue);
  p_recommendations : option (list string)
}.

Record AnalysisResult : Type := {
  summary : string;
  rowCount : option Z;
  columnCount : option Z;
  headers : option (list string);
  dataTypes : option (Rec.t string);
  sampleData : option (list JSValue);
  statistics : option (Rec.t StatValue);
  fileType : string;
  fileSize : string;
  recommendations : option (list string)
}.

Definition override {A} (new old : option A) : option A :=
  match new with Some _ => new | None => old end.

(** [{ ...result, ...partial }] *)
Definition merge (result : AnalysisResult) (partial : PartialResult) : AnalysisResult :=
  {| summary := match p_summary partial with Some s => s | None => summary result end;
     rowCount := override (p_rowCount partial) (rowCount result);
     columnCount := override (p_columnCount partial) (columnCount result);
     headers := override (p_headers partial) (headers result);
     dataTypes := override (p_dataTypes partial) (dataTypes result);
     sampleData := override (p_sampleData partial) (sampleData result);
     statistics := override (p_statistics partial) (statistics result);
     fileType := fileType result;
     fileSize := fileSize result;
     recommendations := override (p_recommendations partial) (recommendations result) |}.

(** A [File]: its name, its size in bytes, and the text its bytes decode to;
    [contents = None] is a file whose read fails. *)
Record File : Type := {
  name : string;
  size : Z;
  contents : option string
}.

(** [l] with the position of each element, as [forEach((x, index) => ...)]
    and [reduce((acc, x, index) => ...)] present it. *)
Definition indexed {A} (l : list A) : list (nat * A) :=
  combine (seq 0 (List.length l)) l.

Definition count_if {A} (f : A -> bool) (l : list A) : nat :=
  List.length (filter f l).

(** *** Type inference *)

(** [/^\d{4}[-/]\d{1,2}[-/]\d{1,2}|\d{1,2}[-/]\d{1,2}[-/]\d{2,4}$/]: the
    alternation binds weaker than the anchors, so [^] belongs to the first
    alternative only and [$] to the second only. *)
Definition datePattern : RegExp.t :=
  let d := RegExp.digit in
  let sep := RegExp.dash_or_slash in
  RegExp.Alt
    (RegExp.seq [RegExp.Bol; RegExp.Rep 4 4 d; sep; RegExp.Rep 1 2 d; sep;
                 RegExp.Rep 1 2 d])
    (RegExp.seq [RegExp.Rep 1 2 d; sep; RegExp.Rep 1 2 d; sep;
                 RegExp.Rep 2 4 d; RegExp.Eol]).

Definition booleanValues : list string := ["true"; "false"; "0"; "1"; "yes"; "no"].

Definition includes (l : list string) (s : string) : bool := existsb (String.eqb s) l.

(** [v !== undefined && v !== null && v !== ""] *)
Definition non_empty_value (v : JSValue) : bool :=
  match v with
  | JUndefined | JNull => false
  | JString s => negb (String.eqb s "")
  | _ => true
  end.

Definition is_number_like (v : JSValue) : bool :=
  negb (JSNumber.isNaN (Any.parseFloat v)) && Any.isFinite v.

Definition is_date_like (v : JSValue) : bool :=
  RegExp.test datePattern (Any.ToString v).

Definition is_boolean_like (v : JSValue) : bool :=
  includes booleanValues (JSString.toLowerCase (Any.ToString v)).

Definition detectDataType (values : list JSValue) : string :=
  let nonEmptyValues := filter non_empty_value values in
  if Nat.eqb (List.length nonEmptyValues) 0 then "empty"
  else if forallb is_number_like nonEmptyValues then "number"
  else if forallb is_date_like nonEmptyValues then "date"
  else if forallb is_boolean_like nonEmptyValues then "boolean"
  else "string".

(** *** Statistics *)

(** [Math.pow(x, 2)]. ECMAScript leaves the precision of [Math.pow] to the
    engine; the engines compute an exponent of 2 as the product [x * x]. *)
Definition Math_pow_2 (x : float) : float := (x * x)%float.

(** [Array.prototype.sort(compare)]: a stable sort; [compare(x, y) > 0]
    places [y] first. *)
Fixpoint sort_insert (compare : float -> float -> float) (x : float)
    (l : list float) : list float :=
  match l with
  | [] => [x]
  | y :: rest =>
      if PrimFloat.ltb 0 (compare x y) then y :: sort_insert compare x rest
      else x :: l
  end.

Definition sort (compare : float -> float -> float) (l : list float) : list float :=
  fold_right (sort_insert compare) [] l.

Definition sum (values : list float) : float :=
  fold_left PrimFloat.add values 0%float.

(** [a[i]] on an array of numbers that has an element at [i] *)
Definition item (l : list float) (i : nat) : float := nth i l JSNumber.NaN.

Section Program.

(** The host. [JSON_parse] is [None] where [JSON.parse] throws; the
    precision of [Math.log] is the engine's. [argument_limit] is the largest
    number of arguments that the engine passes in one call: a spread call
    [f(...values)] passes one argument for each value, and on more values
    than that the engine throws a RangeError instead of calling. *)
Variable JSON_parse : string -> option JSValue.
Variable Math_log : float -> float.
Variable argument_limit : Z.

(** [f(...values)] *)
Definition spread_call (f : list float -> float) (values : list float)
    : outcome float :=
  if (Z.of_nat (List.length values) <=? argument_limit)%Z then Ok (f values)
  else Throw RangeError.

Definition calculateStatistics (values : list float) : outcome (Rec.t float) :=
  match values with
  | [] => Ok []
  | _ :: _ =>
      let n := List.length values in
      let mean := (sum values / JSNumber.of_nat n)%float in
      let sortedValues := sort PrimFloat.sub values in
      let median :=
        if Nat.eqb (Nat.modulo (List.length sortedValues) 2) 0
        then ((item sortedValues (List.length sortedValues / 2 - 1)
               + item sortedValues (List.length sortedValues / 2)) / 2)%float
        else item sortedValues (List.length sortedValues / 2) in
      let squaredDiffs := map (fun value => Math_pow_2 (value - mean)%float) values in
      let variance := (sum squaredDiffs / JSNumber.of_nat n)%float in
      let stdDev := PrimFloat.sqrt variance in
      (* the properties of the returned object, in the order written *)
      least <- spread_call JSNumber.min values ;;
      greatest <- spread_call JSNumber.max values ;;
      Ok [("min", least); ("max", greatest);
          ("mean", mean); ("median", median); ("stdDev", stdDev);
          ("count", JSNumber.of_nat n)]
  end.

(** *** Recommendations *)

Definition generateRecommendations (dataTypes : Rec.t string) (rowCount : Z)
    : list string :=
  let numericColumns :=
    count_if (fun type => String.eqb type "number") (Rec.values dataTypes) in
  let categoricalColumns :=
    count_if (fun type => String.eqb type "string" || String.eqb type "boolean")
      (Rec.values dataTypes) in
  let dateColumns :=
    count_if (fun type => String.eqb type "date") (Rec.values dataTypes) in
  (if (0 <? numericColumns)%nat && (0 <? categoricalColumns)%nat
   then ["Random Forest algorithm is recommended for mixed numeric and categorical data"]
   else [])
  ++ (if (3 <? numericColumns)%nat
      then ["Principal Component Analysis (PCA) can help reduce dimensionality"]
      else [])
  ++ (if (numericColumns <? categoricalColumns)%nat
      then ["Decision Tree algorithm works well with categorical data"]
      else [])
  ++ (if (0 <? dateColumns)%nat
      then ["Time Series analysis is recommended for temporal data"]
      else [])
  ++ (if (1000 <? rowCount)%Z
      then ["XGBoost algorithm performs well on large datasets"]
      else if (rowCount <? 100)%Z
      then ["K-Nearest Neighbors algorithm works well with smaller datasets"]
      else [])
  ++ (if (3 <? numericColumns)%nat
      then ["Graph visualization is recommended for multi-dimensional data"]
      else if (0 <? numericColumns)%nat
      then ["Bar charts or line graphs are recommended for numeric data visualization"]
      else [])
  ++ (if (0 <? categoricalColumns)%nat
      then ["Pie charts are effective for categorical data distribution"]
      else []).

(** *** The analyzers *)

Definition opt_is (o : option string) (s : string) : bool :=
  match o with Some x => String.eqb x s | None => false end.

(** [line.trim() !== ""] *)
Definition non_blank (line : string) : bool := negb (String.eqb (JSString.trim line) "").

(** [content.split("\n").filter((line) => line.trim() !== "")] *)
Definition lines_of (content : string) : list string :=
  filter non_blank (JSString.split JSString.newline content).

(** [line.split(",")[index]?.trim()] *)
Definition cell (line : string) (index : nat) : JSValue :=
  match nth_error (JSString.split "," line) index with
  | Some token => JString (JSString.trim token)
  | None => JUndefined
  end.

(** One element of [sampleData]: the tokens of [line] under the headers. *)
Definition sample_row (headers : list string) (line : string) : JSValue :=
  let values := map JSString.trim (JSString.split "," line) in
  JObject
    (fold_left
       (fun obj ih => Rec.set (snd ih) (JString (nth (fst ih) values "")) obj)
       (indexed headers) []).

(** [Object.keys(dataTypes).filter((k) => dataTypes[k] === "number").length] *)
Definition numeric_keys (dataTypes : Rec.t string) : nat :=
  count_if (fun k => opt_is (Rec.get k dataTypes) "number") (Rec.keys dataTypes).

Definition not_NaN (x : float) : bool := negb (JSNumber.isNaN x).

Definition empty_partial : PartialResult :=
  {| p_summary := None; p_rowCount := None; p_columnCount := None;
     p_headers := None; p_dataTypes := None; p_sampleData := None;
     p_statistics := None; p_recommendations := None |}.

Definition analyzeCSV (content : string) : outcome PartialResult :=
  let lines := lines_of content in
  match lines with
  | [] =>
      Ok {| p_summary := Some "Empty CSV file detected.";
            p_rowCount := Some 0%Z;
            p_columnCount := Some 0%Z;
            p_headers := None; p_dataTypes := None; p_sampleData := None;
            p_statistics := None; p_recommendations := None |}
  | header_line :: data_lines =>
      let headers := map JSString.trim (JSString.split "," header_line) in
      let columnCount := Z.of_nat (List.length headers) in
      let rowCount := (Z.of_nat (List.length lines) - 1)%Z in
      let sampleData := map (sample_row headers) (firstn 5 data_lines) in
      let dataTypes :=
        fold_left
          (fun dataTypes ih =>
             let values := map (fun line => cell line (fst ih)) data_lines in
             Rec.set (snd ih) (detectDataType values) dataTypes)
          (indexed headers) [] in
      (* [calculateStatistics] may throw, which ends the loop and the call *)
      statistics <-
        fold_left
          (fun acc ih =>
             statistics <- acc ;;
             if opt_is (Rec.get (snd ih) dataTypes) "number" then
               let values :=
                 filter not_NaN
                   (map (fun line => Any.parseFloat (cell line (fst ih))) data_lines) in
               stats <- calculateStatistics values ;;
               Ok (Rec.set (snd ih) (StatRecord stats) statistics)
             else Ok statistics)
          (indexed headers) (Ok []) ;;
      let recommendations := generateRecommendations dataTypes rowCount in
      Ok {| p_summary :=
              Some ("CSV file with " +++ JSString.of_Z rowCount +++ " rows and "
                    +++ JSString.of_Z columnCount +++ " columns. Contains "
                    +++ JSString.of_nat (numeric_keys dataTypes)
                    +++ " numeric columns suitable for analysis.");
            p_rowCount := Some rowCount;
            p_columnCount := Some columnCount;
            p_headers := Some headers;
            p_dataTypes := Some dataTypes;
            p_sampleData := Some sampleData;
            p_statistics := Some statistics;
            p_recommendations := Some recommendations |}
  end.

(** The types of the fields [headers]; [column header] reads the values of
    one field and may throw. *)
Definition infer_types (column : string -> outcome (list JSValue))
    (headers : list string) : outcome (Rec.t string) :=
  fold_left
    (fun acc header =>
       dataTypes <- acc ;;
       values <- column header ;;
       Ok (Rec.set header (detectDataType values) dataTypes))
    headers (Ok []).

Definition analyzeJSON (content : JSValue) : outcome PartialResult :=
  if negb (Any.truthy content) || negb (Any.is_object content) then
    Ok {| p_summary := Some "Empty or invalid JSON file.";
          p_rowCount := None; p_columnCount := None; p_headers := None;
          p_dataTypes := None; p_sampleData := None; p_statistics := None;
          p_recommendations :=
            Some ["Check the JSON format and try again";
                  "Ensure the file contains valid JSON data"] |}
  else
    let column header :=
      match content with
      | JArray items => mapM (fun item => Any.get item header) items
      | _ => value <- Any.get content header ;; Ok [value]
      end in
    shape <-
      match content with
      | JArray items =>
          (* Handle array of objects *)
          let rowCount := Z.of_nat (List.length items) in
          let sampleData := firstn 5 items in
          match items with
          | first :: _ =>
              if Any.is_object first then
                headers <- Any.keys first ;;
                dataTypes <- infer_types column headers ;;
                Ok (rowCount, Z.of_nat (List.length headers), headers, sampleData, dataTypes)
              else Ok (rowCount, 0%Z, [], sampleData, [])
          | [] => Ok (rowCount, 0%Z, [], sampleData, [])
          end
      | _ =>
          (* Handle single object *)
          if Any.is_object content then
            headers <- Any.keys content ;;
            dataTypes <- infer_types column headers ;;
            Ok (1%Z, Z.of_nat (List.length headers), headers, [content], dataTypes)
          else Ok (0%Z, 0%Z, [], [], [])
      end ;;
    let '(rowCount, columnCount, headers, sampleData, dataTypes) := shape in
    (* Calculate statistics for numeric fields *)
    statistics <-
      fold_left
        (fun acc header =>
           statistics <- acc ;;
           if opt_is (Rec.get header dataTypes) "number" then
             raw <- column header ;;
             let values := filter not_NaN (map Any.parseFloat raw) in
             stats <- calculateStatistics values ;;
             Ok (Rec.set header (StatRecord stats) statistics)
           else Ok statistics)
        headers (Ok []) ;;
    let recommendations := generateRecommendations dataTypes rowCount in
    Ok {| p_summary :=
            Some ("JSON file with " +++ JSString.of_Z rowCount +++ " records and "
                  +++ JSString.of_Z columnCount +++ " fields. Contains "
                  +++ JSString.of_nat (numeric_keys dataTypes)
                  +++ " numeric fields suitable for analysis.");
          p_rowCount := Some rowCount;
          p_columnCount := Some columnCount;
          p_headers := Some headers;
          p_dataTypes := Some dataTypes;
          p_sampleData := Some sampleData;
          p_statistics := Some statistics;
          p_recommendations := Some recommendations |}.

(** [(line.match(/\t/g) || []).length] *)
Definition tabCount (line : string) : nat := JSString.count_char JSString.tab line.

Definition analyzeTXT (content : string) : outcome PartialResult :=
  let lines := lines_of content in
  let wordCount := List.length (filter non_blank (JSString.split_spaces content)) in
  let charCount := String.length content in
  (* Try to detect if it's a structured text file; [lines[0]] is read only
     inside the callback, so on no line at all the test holds *)
  let isTabular :=
    forallb
      (fun line => (0 <? tabCount line)%nat
                   && Nat.eqb (tabCount line) (tabCount (hd "" lines)))
      lines in
  let summary :=
    if isTabular
    then "Text file with " +++ JSString.of_nat (List.length lines)
         +++ " rows that appears to be tab-delimited. Contains approximately "
         +++ JSString.of_nat wordCount +++ " words."
    else "Unstructured text file with " +++ JSString.of_nat (List.length lines)
         +++ " lines and " +++ JSString.of_nat wordCount +++ " words." in
  let recommendations :=
    if isTabular
    then ["Convert to CSV format for better analysis";
          "Use text classification algorithms for content analysis";
          "Consider natural language processing for text extraction"]
    else ["Use natural language processing algorithms";
          "Consider sentiment analysis for text content";
          "Text clustering may reveal patterns in the content"] in
  (* [lines[0].split] throws when there is no first line *)
  columnCount <-
    (if isTabular then
       match lines with
       | first :: _ =>
           Ok (Some (Z.of_nat (List.length (JSString.split JSString.tab first))))
       | [] => Throw TypeError
       end
     else Ok None) ;;
  Ok {| p_summary := Some summary;
        p_rowCount := Some (Z.of_nat (List.length lines));
        p_columnCount := columnCount;
        p_headers := None; p_dataTypes := None; p_sampleData := None;
        p_statistics :=
          Some [("wordCount", StatNumber (JSNumber.of_nat wordCount));
                ("charCount", StatNumber (JSNumber.of_nat charCount));
                ("avgWordsPerLine",
                 StatNumber (JSNumber.of_nat wordCount
                             / JSNumber.of_nat
                                 (if Nat.eqb (List.length lines) 0 then 1
                                  else List.length lines))%float)];
        p_recommendations := Some recommendations |}.

(** *** The loader and the dispatcher *)

(** [Array.prototype.pop]: the last element, [None] for [undefined]. *)
Definition pop {A} (l : list A) : option A :=
  match rev l with
  | x :: _ => Some x
  | [] => None
  end.

(** [file.name.split(".").pop()?.toLowerCase() || ""] *)
Definition getFileType (file : File) : string :=
  let extension :=
    match option_map JSString.toLowerCase (pop (JSString.split "." (name file))) with
    | Some lowered => if String.eqb lowered "" then "" else lowered
    | None => ""
    end in
  extension.

(** [Math.pow(1024, i)] for the outcome [i] of [Math.floor]. The value is a
    power of two, which the engines return exactly. *)
Definition Math_pow_1024 (i : float) : float :=
  match JSNumber.to_integer i with
  | Some n => JSNumber.pow2 (10 * n)
  | None =>
      if PrimFloat.is_nan i then JSNumber.NaN
      else if PrimFloat.get_sign i then PrimFloat.zero else PrimFloat.infinity
  end.

Definition formatFileSize (bytes : Z) : string :=
  if (bytes =? 0)%Z then "0 Bytes"
  else
    let k := 1024%float in
    let sizes := ["Bytes"; "KB"; "MB"; "GB"] in
    let i := JSNumber.floor (Math_log (JSNumber.of_Z bytes) / Math_log k)%float in
    JSNumber.toString
      (JSNumber.parseFloat
         (JSNumber.toFixed (JSNumber.of_Z bytes / Math_pow_1024 i)%float 2))
    +++ " "
    +++ match Any.at_index sizes (JSNumber.toString i) with
       | Some unit => unit
       | None => "undefined"
       end.

Definition is_text_type (fileType : string) : bool :=
  String.eqb fileType "json" || String.eqb fileType "csv" || String.eqb fileType "txt".

(** The promise of [readFileContent]: rejected when the read fails;
    otherwise the text, the parsed JSON (an empty object when the parser
    throws), or [null] for what was read as an array buffer. *)
Definition readFileContent (file : File) (fileType : string) : outcome JSValue :=
  match contents file with
  | None => Throw ReadError
  | Some text =>
      if is_text_type fileType then
        if String.eqb fileType "json" then
          match JSON_parse text with
          | Some value => Ok value
          | None => Ok (JObject [])
          end
        else Ok (JString text)
      else Ok JNull
  end.

(** The text that a string method is called on; on another value the
    method call throws. *)
Definition as_text (content : JSValue) : outcome string :=
  match content with
  | JString text => Ok text
  | _ => Throw TypeError
  end.

Definition analyzeFile (file : File) : outcome AnalysisResult :=
  let fileType := getFileType file in
  let fileSize := formatFileSize (size file) in
  content <- readFileContent file fileType ;;
  let result :=
    {| summary := ""; rowCount := None; columnCount := None; headers := None;
       dataTypes := None; sampleData := None; statistics := None;
       fileType := fileType; fileSize := fileSize;
       recommendations := Some [] |} in
  if String.eqb fileType "csv" then
    text <- as_text content ;; partial <- analyzeCSV text ;; Ok (merge result partial)
  else if String.eqb fileType "json" then
    partial <- analyzeJSON content ;; Ok (merge result partial)
  else if String.eqb fileType "txt" then
    text <- as_text content ;; partial <- analyzeTXT text ;; Ok (merge result partial)
  else if String.eqb fileType "xlsx" then
    Ok {| summary := "Excel file detected. Basic metadata analysis available.";
          rowCount := None; columnCount := None; headers := None;
          dataTypes := None; sampleData := None; statistics := None;
          fileType := fileType; fileSize := fileSize;
          recommendations :=
            Some ["Consider converting to CSV for more detailed analysis";
                  "Use Random Forest algorithm for classification tasks";
                  "Export as graph visualization for better insights"] |}
  else
    Ok {| summary := "Unsupported file format. Limited analysis available.";
          rowCount := None; columnCount := None; headers := None;
          dataTypes := None; sampleData := None; statistics := None;
          fileType := fileType; fileSize := fileSize;
          recommendations := Some ["Convert to a supported format (CSV, JSON, TXT)"] |}.

End Program.

(** ** The result generator ([resultGenerator.ts]) *)

(** [outputConfig], an object as the interface [OutputConfiguration] of the
    configuration panel declares it; a field that is not set is [JUndefined]. *)
Record OutputConfig : Type := {
  format : JSValue;
  options : JSValue
}.

Record GraphData : Type := {
  g_type : string;
  g_data : list float;
  g_labels : list string;
  g_title : string;
  g_series : option (list (string * list float))
}.

Record Metadata : Type := {
  algorithm : string;
  processedAt : string;
  m_rowCount : nat
}.

Record DataOutput : Type := {
  d_format : JSValue;
  data : list (Rec.t JSValue);
  metadata : Metadata
}.

(** The [content] of a result: a string, graph data, or a data output. *)
Inductive Content : Type :=
| TextContent (s : string)
| GraphContent (g : GraphData)
| DataContent (d : DataOutput).

Record ResultRecord : Type := {
  id : string;
  title : string;
  type : string;
  content : Content;
  timestamp : string
}.

(** [v || d] *)
Definition or_else (v d : JSValue) : JSValue := if Any.truthy v then v else d.

(** [v === s] for a string [s] *)
Definition is_string (v : JSValue) (s : string) : bool :=
  match v with JString x => String.eqb x s | _ => false end.

(** [outputConfig.options?.key] *)
Definition option_of (outputConfig : OutputConfig) (key : string) : JSValue :=
  match Any.get (options outputConfig) key with
  | Ok v => v
  | Throw _ => JUndefined
  end.

Definition algorithms : Rec.t string :=
  [("linear-regression", "Linear Regression");
   ("decision-tree", "Decision Tree");
   ("k-means", "K-Means Clustering");
   ("neural-network", "Neural Network");
   ("random-forest", "Random Forest");
   ("xgboost", "XGBoost");
   ("time-series", "ARIMA")].

(** [algorithms[algorithmId] || "Analysis"], for an [algorithmId] that does
    not name a member inherited from [Object.prototype] (the page passes the
    ids of the selection panel). *)
Definition getAlgorithmName (algorithmId : string) : string :=
  match Rec.lookup algorithmId algorithms with
  | Some name => name
  | None => "Analysis"
  end.

(** [${count || fallback}] *)
Definition count_or (count : option Z) (fallback : string) : string :=
  match count with
  | Some z => if (z =? 0)%Z then fallback else JSString.of_Z z
  | None => fallback
  end.

Definition concat_map {A} (f : A -> string) (l : list A) : string :=
  fold_left (fun result x => result +++ f x) l "".

Definition stats_text (stats : StatValue) : string :=
  match stats with
  | StatRecord r =>
      JSString.join ", "
        (map (fun kv => fst kv +++ ": " +++ JSNumber.toString (snd kv)) r)
  | StatNumber x => JSNumber.toString x
  end.

Definition generateTextResult (fileAnalysis : AnalysisResult) (algorithmId : string)
    (outputConfig : OutputConfig) : string :=
  let algorithmName := getAlgorithmName algorithmId in
  let textFormat := or_else (option_of outputConfig "textFormat") (JString "detailed") in
  if is_string textFormat "summary" then
    "The " +++ algorithmName +++ " algorithm was applied to the "
    +++ JSString.toUpperCase (fileType fileAnalysis) +++ " file containing "
    +++ count_or (rowCount fileAnalysis) "unknown"
    +++ " records. The analysis identified key patterns in the data that can be used for prediction and decision-making."
  else if is_string textFormat "technical" then
    "## " +++ algorithmName +++ " Technical Analysis" +++ JSString.nl +++ JSString.nl
    +++ "**File Information:**" +++ JSString.nl
    +++ "- Type: " +++ JSString.toUpperCase (fileType fileAnalysis) +++ JSString.nl
    +++ "- Size: " +++ fileSize fileAnalysis +++ JSString.nl
    +++ "- Records: " +++ count_or (rowCount fileAnalysis) "N/A" +++ JSString.nl
    +++ "- Fields: " +++ count_or (columnCount fileAnalysis) "N/A" +++ JSString.nl
    +++ JSString.nl
    +++ "**Data Types:**" +++ JSString.nl
    +++ match dataTypes fileAnalysis with
        | Some types =>
            concat_map (fun ft => "- " +++ fst ft +++ ": " +++ snd ft +++ JSString.nl) types
        | None => ""
        end
    +++ JSString.nl +++ "**Statistical Summary:**" +++ JSString.nl
    +++ match statistics fileAnalysis with
        | Some stats =>
            concat_map
              (fun fs => "- " +++ fst fs +++ ": " +++ stats_text (snd fs) +++ JSString.nl)
              stats
        | None => ""
        end
  else
    "# " +++ algorithmName +++ " Analysis Results" +++ JSString.nl +++ JSString.nl
    +++ "The analysis was performed on a "
    +++ JSString.toUpperCase (fileType fileAnalysis) +++ " file containing "
    +++ count_or (rowCount fileAnalysis) "unknown" +++ " records and "
    +++ count_or (columnCount fileAnalysis) "unknown" +++ " fields."
    +++ JSString.nl +++ JSString.nl
    +++ "## Key Findings" +++ JSString.nl +++ JSString.nl
    +++ "- The data shows significant patterns that can be leveraged for predictive modeling"
    +++ JSString.nl
    +++ "- Several outliers were identified that may require further investigation"
    +++ JSString.nl
    +++ "- The model achieved good performance metrics on the provided dataset"
    +++ JSString.nl +++ JSString.nl
    +++ "## Recommendations" +++ JSString.nl +++ JSString.nl
    +++ match recommendations fileAnalysis with
        | Some (rec :: recs) =>
            concat_map (fun r => "- " +++ r +++ JSString.nl) (rec :: recs)
        | _ => "- No specific recommendations available for this dataset" +++ JSString.nl
        end.

(** [stats?.[key] || 0] *)
Definition stat_or_zero (stats : option StatValue) (key : string) : float :=
  match stats with
  | Some (StatRecord r) =>
      match Rec.lookup key r with
      | Some x => if Any.truthy (JNumber x) then x else 0%float
      | None => 0%float
      end
  | _ => 0%float
  end.

Definition generateGraphData (fileAnalysis : AnalysisResult) (algorithmId : string)
    (outputConfig : OutputConfig) : GraphData :=
  let graphData :=
    {| g_type := "bar"; g_data := []; g_labels := [];
       g_title := getAlgorithmName algorithmId +++ " Results"; g_series := None |} in
  match statistics fileAnalysis with
  | Some stats =>
      let numericFields := Rec.keys stats in
      if (0 <? List.length numericFields)%nat then
        let column key :=
          map (fun field => stat_or_zero (Rec.get field stats) key) numericFields in
        {| g_type := g_type graphData;
           g_data := column "mean";
           g_labels := numericFields;
           g_title := g_title graphData;
           g_series := Some [("Mean", column "mean"); ("Max", column "max");
                             ("Min", column "min")] |}
      else graphData
  | None => graphData
  end.

Section Results.

(** The host: the successive readings of the clock (milliseconds), the
    ISO 8601 text of an instant, the successive draws of [Math.random]. *)
Variable Date_now : nat -> Z.
Variable Date_toISOString : Z -> string.
Variable Math_random : nat -> float.

(** How many readings and draws have been made. *)
Record World : Type := {
  clock_reads : nat;
  random_draws : nat
}.

Definition Host (A : Type) : Type := World -> A * World.

Definition ret {A} (a : A) : Host A := fun w => (a, w).

Definition then_ {A B} (m : Host A) (k : A -> Host B) : Host B :=
  fun w => let '(a, w') := m w in k a w'.

Notation "'let*' x ':=' m 'in' k" := (then_ m (fun x => k))
  (at level 10, x name, m at level 200, k at level 200).

(** [Date.now()] *)
Definition now : Host Z :=
  fun w => (Date_now (clock_reads w),
            {| clock_reads := S (clock_reads w); random_draws := random_draws w |}).

(** [new Date().toISOString()] *)
Definition now_iso : Host string :=
  let* t := now in ret (Date_toISOString t).

(** [Math.random()] *)
Definition random : Host float :=
  fun w => (Math_random (random_draws w),
            {| clock_reads := clock_reads w; random_draws := S (random_draws w) |}).

Fixpoint for_each {A B} (f : A -> Host B) (l : list A) : Host (list B) :=
  match l with
  | [] => ret []
  | a :: rest => let* b := f a in let* bs := for_each f rest in ret (b :: bs)
  end.

Definition process_item (algorithmId : string) (item : JSValue)
    : Host (Rec.t JSValue) :=
  let newItem := Any.spread item in
  if String.eqb algorithmId "linear-regression" then
    let* r1 := random in
    let newItem := Rec.set "predicted_value" (JNumber (r1 * 100)%float) newItem in
    let* r2 := random in
    ret (Rec.set "error" (JNumber (r2 * 10)%float) newItem)
  else if String.eqb algorithmId "decision-tree"
          || String.eqb algorithmId "random-forest" then
    let* r1 := random in
    let newItem :=
      Rec.set "classification"
        (JString (if PrimFloat.ltb 0.5 r1 then "Category A" else "Category B"))
        newItem in
    let* r2 := random in
    ret (Rec.set "confidence" (JNumber (0.5 + r2 * 0.5)%float) newItem)
  else if String.eqb algorithmId "k-means" then
    let* r1 := random in
    let newItem :=
      Rec.set "cluster" (JNumber (JSNumber.floor (r1 * 3) + 1)%float) newItem in
    let* r2 := random in
    ret (Rec.set "distance_to_centroid" (JNumber (r2 * 5)%float) newItem)
  else ret newItem.

Definition generateDataOutput (fileAnalysis : AnalysisResult) (algorithmId : string)
    (outputConfig : OutputConfig) : Host DataOutput :=
  let dataFormat := or_else (option_of outputConfig "dataFormat") (JString "json") in
  let baseData := match sampleData fileAnalysis with Some l => l | None => [] end in
  let* processedData := for_each (process_item algorithmId) baseData in
  let* processedAt := now_iso in
  ret {| d_format := dataFormat;
         data := processedData;
         metadata := {| algorithm := getAlgorithmName algorithmId;
                        processedAt := processedAt;
                        m_rowCount := List.length processedData |} |}.

(** [results.push(r)] *)
Definition push (results : list ResultRecord) (r : ResultRecord) : list ResultRecord :=
  results ++ [r].

Definition generateResults (fileAnalysis : option AnalysisResult)
    (algorithmId : string) (outputConfig : OutputConfig)
    : Host (list ResultRecord) :=
  match fileAnalysis with
  | None => ret []
  | Some fileAnalysis =>
      let results := [] in
      let* timestamp := now_iso in
      let format := or_else (format outputConfig) (JString "text") in
      (* Text result (always included) *)
      let* t := now in
      let results :=
        push results
          {| id := "text-" +++ JSString.of_Z t;
             title := getAlgorithmName algorithmId +++ " Analysis Results";
             type := "text";
             content := TextContent (generateTextResult fileAnalysis algorithmId outputConfig);
             timestamp := timestamp |} in
      let* results :=
        if is_string format "graph" || Any.truthy (option_of outputConfig "includeGraphs")
        then
          let* t := now in
          ret (push results
                 {| id := "graph-" +++ JSString.of_Z t;
                    title := getAlgorithmName algorithmId +++ " Visualization";
                    type := "graph";
                    content := GraphContent
                                 (generateGraphData fileAnalysis algorithmId outputConfig);
                    timestamp := timestamp |})
        else ret results in
      let* results :=
        if is_string format "data" || Any.truthy (option_of outputConfig "includeData")
        then
          let* t := now in
          let* output := generateDataOutput fileAnalysis algorithmId outputConfig in
          ret (push results
                 {| id := "data-" +++ JSString.of_Z t;
                    title := getAlgorithmName algorithmId +++ " Data Output";
                    type := "data";
                    content := DataContent output;
                    timestamp := timestamp |})
        else ret results in
      let* results :=
        if is_string format "audio" then
          let* t := now in
          ret (push results
                 {| id := "audio-" +++ JSString.of_Z t;
                    title := getAlgorithmName algorithmId +++ " Audio Summary";
                    type := "audio";
                    content := TextContent "audio-content-placeholder";
                    timestamp := timestamp |})
        else ret results in
      let* results :=
        if is_string format "video" then
          let* t := now in
          ret (push results
                 {| id := "video-" +++ JSString.of_Z t;
                    title := getAlgorithmName algorithmId +++ " Video Presentation";
                    type := "video";
                    content := TextContent "video-content-placeholder";
                    timestamp := timestamp |})
        else ret results in
      ret results
  end.

End Results.

(** ** The components of the user interface

    The handlers of the React components that compute something: each is a
    function of the props and the state it reads to the state it sets and
    what it hands to its callbacks. *)

(** *** The upload area ([components/upload/FileUploadArea.tsx]) *)

(** The defaults of the props [acceptedFileTypes] and [maxFileSize] (in MB). *)
Definition acceptedFileTypes_default : list string := [".csv"; ".xlsx"; ".json"; ".txt"].
Definition maxFileSize_default : float := 50%float.

(** ["." + file.name.split(".").pop()?.toLowerCase()]; the concatenation
    prints an undefined operand as "undefined". *)
Definition fileExtension (file : File) : string :=
  "." +++ match option_map JSString.toLowerCase (pop (JSString.split "." (name file))) with
          | Some lowered => lowered
          | None => "undefined"
          end.

(** The error message, [None] for [null]. [file.size] is a number of bytes. *)
Definition validateFile (acceptedFileTypes : list string) (maxFileSize : float)
    (file : File) : option string :=
  if (0 <? List.length acceptedFileTypes)%nat
     && negb (includes acceptedFileTypes (fileExtension file))
  then Some ("Invalid file type. Accepted types: "
             +++ JSString.join ", " acceptedFileTypes)
  else if PrimFloat.ltb (maxFileSize * 1024 * 1024)%float (JSNumber.of_Z (size file))
  then Some ("File too large. Maximum size: " +++ JSNumber.toString maxFileSize +++ "MB")
  else None.

(** The state of the component: the files selected so far and the error
    messages under the names of the files they are about. *)
Record UploadArea : Type := {
  files : list File;
  fileErrors : Rec.t string
}.

(** What a call of [handleFileChange] leaves: the state, whether the toast
    was shown, and the argument of [onFilesUploaded] when it was called. *)
Record FileChange : Type := {
  area : UploadArea;
  toasted : bool;
  uploaded : option (list File)
}.

(** [if (error)]: a message that is neither [null] nor empty *)
Definition is_error (error : option string) : bool :=
  match error with
  | Some message => negb (String.eqb message "")
  | None => false
  end.

(** The loop of [handleFileChange]: [newFiles] and [newErrors] after it. *)
Definition sort_files (acceptedFileTypes : list string) (maxFileSize : float)
    (selectedFiles : list File) : list File * Rec.t string :=
  fold_left
    (fun acc file =>
       let error := validateFile acceptedFileTypes maxFileSize file in
       if is_error error
       then (fst acc,
             Rec.set (name file) (match error with Some m => m | None => "" end) (snd acc))
       else (fst acc ++ [file], snd acc))
    selectedFiles ([], []).

(** [selectedFiles] is [None] for [null]. *)
Definition handleFileChange (acceptedFileTypes : list string) (maxFileSize : float)
    (selectedFiles : option (list File)) (state : UploadArea) : FileChange :=
  match selectedFiles with
  | None => {| area := state; toasted := false; uploaded := None |}
  | Some selected =>
      let '(newFiles, newErrors) := sort_files acceptedFileTypes maxFileSize selected in
      let failed := (0 <? List.length (Rec.keys newErrors))%nat in
      let fileErrors' := if failed then newErrors else fileErrors state in
      if (0 <? List.length newFiles)%nat then
        {| area := {| files := files state ++ newFiles; fileErrors := fileErrors' |};
           toasted := failed;
           uploaded := Some newFiles |}
      else
        {| area := {| files := files state; fileErrors := fileErrors' |};
           toasted := failed;
           uploaded := None |}
  end.

(** *** The algorithm selection panel ([components/algorithm/AlgorithmSelectionPanel.tsx]) *)

(** An entry of the panel; the icon, which is markup, is left out. *)
Record AlgorithmProps : Type := {
  a_id : string;
  a_name : string;
  a_description : string;
  a_category : string;
  a_useCases : list string;
  a_complexity : string
}.

Definition defaultAlgorithms : list AlgorithmProps :=
  [ {| a_id := "linear-regression";
       a_name := "Linear Regression";
       a_description :=
         "Predicts a continuous value based on independent variables by fitting a linear equation.";
       a_category := "Regression";
       a_useCases := ["Price prediction"; "Sales forecasting"; "Trend analysis"];
       a_complexity := "Low" |};
    {| a_id := "decision-tree";
       a_name := "Decision Tree";
       a_description :=
         "Creates a tree-like model of decisions based on multiple conditions and their possible outcomes.";
       a_category := "Classification";
       a_useCases := ["Customer segmentation"; "Risk assessment"; "Medical diagnosis"];
       a_complexity := "Medium" |};
    {| a_id := "k-means";
       a_name := "K-Means Clustering";
       a_description := "Groups data points into k clusters based on feature similarity.";
       a_category := "Clustering";
       a_useCases := ["Market segmentation"; "Image compression"; "Anomaly detection"];
       a_complexity := "Medium" |};
    {| a_id := "neural-network";
       a_name := "Neural Network";
       a_description :=
         "Deep learning model inspired by the human brain, capable of learning complex patterns.";
       a_category := "Deep Learning";
       a_useCases := ["Image recognition"; "Natural language processing";
                      "Time series prediction"];
       a_complexity := "High" |};
    {| a_id := "random-forest";
       a_name := "Random Forest";
       a_description :=
         "Ensemble learning method that constructs multiple decision trees and outputs the average prediction.";
       a_category := "Classification";
       a_useCases := ["Fraud detection"; "Feature selection"; "Recommendation systems"];
       a_complexity := "Medium" |};
    {| a_id := "xgboost";
       a_name := "XGBoost";
       a_description := "Gradient boosting algorithm known for its performance and speed.";
       a_category := "Regression";
       a_useCases := ["Competition modeling"; "Credit scoring"; "Ad click prediction"];
       a_complexity := "High" |};
    {| a_id := "time-series";
       a_name := "ARIMA";
       a_description :=
         "Time series forecasting model that captures temporal dependencies in data.";
       a_category := "Time Series";
       a_useCases := ["Stock price prediction"; "Weather forecasting"; "Demand planning"];
       a_complexity := "Medium" |} ].

(** [handleAlgorithmSelect] of the page keeps [algorithm.id], which
    [handleOutputConfig] passes to [generateResults]. *)
Definition handleAlgorithmSelect (algorithm : AlgorithmProps) : string := a_id algorithm.

(** *** The output configuration panel ([components/output/OutputConfigurationPanel.tsx]) *)

(** [{...r, [k]: v}]: the property [k] is defined on the copy. A computed key
    is an own property whatever its name; an existing key keeps its place, a
    new one is placed as an assignment places it. *)
Definition define {V} (k : string) (v : V) (r : Rec.t V) : Rec.t V :=
  match Rec.replace k v r with
  | Some r' => r'
  | None =>
      match Rec.array_index k with
      | Some i => Rec.insert_index i k v r
      | None => r ++ [(k, v)]
      end
  end.

(** The initial state [{format: selectedFormat, options: initialConfig.options || {}}];
    [initialOptions] is [JUndefined] for the default [initialConfig = {}]. *)
Definition initial_configuration (selectedFormat : string) (initialOptions : JSValue)
    : OutputConfig :=
  {| format := JString selectedFormat;
     options := or_else initialOptions (JObject []) |}.

(** The configuration after [handleTabChange]; the active tab, which only
    the markup reads, is not part of it. *)
Definition handleTabChange (value : string) (prev : OutputConfig) : OutputConfig :=
  {| format := JString value; options := options prev |}.

Definition handleOptionChange (optionKey : string) (value : JSValue)
    (prev : OutputConfig) : OutputConfig :=
  {| format := format prev;
     options := JObject (define optionKey value (Any.spread (options prev))) |}.

(** The [id]s of [outputOptions], which are the values of the tabs. *)
Definition outputOptions : list string := ["text"; "audio"; "video"; "graph"; "data"].

(** The option keys that the controls of the panel pass to
    [handleOptionChange], in the order of the markup. *)
Definition panel_option_keys : list string :=
  ["textFormat"; "includeSummary"; "includeMethodology"; "includeInsights";
   "includeRecommendations"; "voiceType"; "audioQuality"; "videoStyle";
   "videoResolution"; "includeBarCharts"; "includeLineCharts"; "includePieCharts";
   "includeScatterPlots"; "graphInteractivity"; "dataFormat"; "includeRawData";
   "includeProcessedData"; "includeMetadata"].

(** What the user does on the panel before [handleSubmit]. *)
Inductive PanelEvent : Type :=
| TabChange (value : string)
| OptionChange (optionKey : string) (value : JSValue).

Definition handle_event (prev : OutputConfig) (event : PanelEvent) : OutputConfig :=
  match event with
  | TabChange value => handleTabChange value prev
  | OptionChange optionKey value => handleOptionChange optionKey value prev
  end.

(** An event that a control of the panel can raise. *)
Definition panel_event (event : PanelEvent) : Prop :=
  match event with
  | TabChange value => In value outputOptions
  | OptionChange optionKey _ => In optionKey panel_option_keys
  end.

(** The configuration that [handleSubmit] passes on after the events, on a
    panel with the default props, as the page mounts it. *)
Definition submitted (events : list PanelEvent) : OutputConfig :=
  fold_left handle_event events (initial_configuration "text" JUndefined).

(** ** The specification's own formulations

    Each definition of this part follows the words of the specification; the
    theorems compare it with the program's function. *)

(** Section 4.5: an ordered list of classifiers, the first that accepts
    every remaining value wins, [string] when none does. *)
Definition classifiers : list (string * (JSValue -> bool)) :=
  [("number", is_number_like); ("date", is_date_like); ("boolean", is_boolean_like)].

Fixpoint first_match (cs : list (string * (JSValue -> bool))) (vs : list JSValue)
    : string :=
  match cs with
  | [] => "string"
  | (tag, accepts) :: rest => if forallb accepts vs then tag else first_match rest vs
  end.

Definition infer_type_spec (values : list JSValue) : string :=
  match filter non_empty_value values with
  | [] => "empty"
  | remaining => first_match classifiers remaining
  end.

(** Section 4.7: the counts the rules read, and the rules as a table, each
    of which gives one string or none. *)
Record Counts : Type := {
  numeric : nat;
  categorical : nat;
  dates : nat;
  rows : Z
}.

Definition counts_of (dataTypes : Rec.t string) (rowCount : Z) : Counts :=
  {| numeric := count_if (String.eqb "number") (Rec.values dataTypes);
     categorical :=
       count_if (fun t => String.eqb "string" t || String.eqb "boolean" t)
         (Rec.values dataTypes);
     dates := count_if (String.eqb "date") (Rec.values dataTypes);
     rows := rowCount |}.

Definition when (condition : bool) (message : string) : option string :=
  if condition then Some message else None.

Definition rules : list (Counts -> option string) :=
  [ fun c => when ((0 <? numeric c)%nat && (0 <? categorical c)%nat)
       "Random Forest algorithm is recommended for mixed numeric and categorical data";
    fun c => when (3 <? numeric c)%nat
       "Principal Component Analysis (PCA) can help reduce dimensionality";
    fun c => when (numeric c <? categorical c)%nat
       "Decision Tree algorithm works well with categorical data";
    fun c => when (0 <? dates c)%nat
       "Time Series analysis is recommended for temporal data";
    fun c => if (1000 <? rows c)%Z
             then Some "XGBoost algorithm performs well on large datasets"
             else when (rows c <? 100)%Z
                    "K-Nearest Neighbors algorithm works well with smaller datasets";
    fun c => if (3 <? numeric c)%nat
             then Some "Graph visualization is recommended for multi-dimensional data"
             else when (0 <? numeric c)%nat
                    "Bar charts or line graphs are recommended for numeric data visualization";
    fun c => when (0 <? categorical c)%nat
       "Pie charts are effective for categorical data distribution" ].

Definition zero_or_one (o : option string) : list string :=
  match o with Some message => [message] | None => [] end.

Definition recommend_spec (dataTypes : Rec.t string) (rowCount : Z) : list string :=
  flat_map (fun rule => zero_or_one (rule (counts_of dataTypes rowCount))) rules.

(** The example of section 8. *)
Definition example_types : Rec.t string :=
  [("a", "number"); ("b", "number"); ("c", "number"); ("d", "number"); ("e", "string")].

(** Section 4.6 on one column of numbers, in binary64 arithmetic. *)
Definition finite_values (values : list float) : Prop :=
  Forall (fun x => JSNumber.isFinite x = true) values.

Definition arithmetic_mean (values : list float) : float :=
  (sum values / JSNumber.of_nat (List.length values))%float.

(** The squared deviations are summed and divided by the count. *)
Definition population_std_dev (values : list float) : float :=
  let mean := arithmetic_mean values in
  PrimFloat.sqrt
    (sum (map (fun x => ((x - mean) * (x - mean))%float) values)
     / JSNumber.of_nat (List.length values))%float.

(** The midpoint of a sorted sequence: the average of the two central
    elements for an even count. *)
Definition midpoint (sorted : list float) : float :=
  let n := List.length sorted in
  if Nat.even n then ((item sorted (n / 2 - 1) + item sorted (n / 2)) / 2)%float
  else item sorted (n / 2).

(** The order of binary64 numbers, as [<=] compares them. *)
Definition float_le (x y : float) : Prop := PrimFloat.leb x y = true.

(** A literal 0 or 1, as a CSV token or as a JSON number. *)
Definition zero_one_literal (v : JSValue) : Prop :=
  v = JString "0" \/ v = JString "1" \/ v = JNumber 0 \/ v = JNumber 1.

(** The invariant of section 3 on [statistics]: its keys are headers whose
    inferred type is [number]. *)
Definition statistics_only_for_numeric_headers (r : AnalysisResult) : Prop :=
  forall stats, statistics r = Some stats ->
  forall k, In k (Rec.keys stats) ->
  exists hs dt, headers r = Some hs /\ dataTypes r = Some dt
                /\ In k hs /\ Rec.get k dt = Some "number".

(** A CSV text: a header line and data lines, joined by line feeds. *)
Definition no_newline (line : string) : Prop :=
  JSString.contains_char JSString.newline line = false.

Definition csv_text (header : string) (rows : list string) : string :=
  JSString.join JSString.nl (header :: rows).

(** A list of results whose first element is the text result. *)
Definition starts_with_text (l : list ResultRecord) : Prop :=
  exists first rest, l = first :: rest /\ type first = "text".

(** ** Notions used to state further properties *)

(** A value that is not an object: a cell of a CSV file, or a JSON value
    that is neither an array nor an object. *)
Definition scalar (v : JSValue) : Prop :=
  match v with
  | JArray _ | JObject _ => False
  | _ => True
  end.

(** No string occurs twice. *)
Fixpoint distinct (l : list string) : bool :=
  match l with
  | [] => true
  | x :: rest => negb (includes rest x) && distinct rest
  end.

(** The algorithms whose output [process_item] simulates. *)
Definition simulated (algorithmId : string) : bool :=
  includes ["linear-regression"; "decision-tree"; "random-forest"; "k-means"] algorithmId.

(** [outputConfig.format || "text"] *)
Definition format_of (outputConfig : OutputConfig) : JSValue :=
  or_else (format outputConfig) (JString "text").

(** The types of the results that [generateResults] adds after the text. *)
Definition requested_types (outputConfig : OutputConfig) : list string :=
  (if is_string (format_of outputConfig) "graph"
      || Any.truthy (option_of outputConfig "includeGraphs")
   then ["graph"] else [])
  ++ (if is_string (format_of outputConfig) "data"
         || Any.truthy (option_of outputConfig "includeData")
      then ["data"] else [])
  ++ (if is_string (format_of outputConfig) "audio" then ["audio"] else [])
  ++ (if is_string (format_of outputConfig) "video" then ["video"] else []).

(** The state of the configuration panel: a tab of the panel as format, and
    options under the keys of the panel's controls only. *)
Definition panel_state (configuration : OutputConfig) : Prop :=
  (exists value, In value outputOptions /\ format configuration = JString value)
  /\ exists fields,
       options configuration = JObject fields
       /\ forall key, Rec.lookup key fields <> None -> In key panel_option_keys.

(** ** Auxiliary notions on the binary64 format *)

Definition emin64 : Z := (-1074)%Z.

(** A spec float that takes part in comparisons. *)
Definition ordered (x : spec_float) : Prop := x <> S754_nan.

(** A number or an infinity of sign [s]: what a non-zero value rounds to. *)
Definition signed (s : bool) (x : spec_float) : Prop :=
  (exists m e, x = S754_finite s m e) \/ x = S754_infinity s.

(** Neither NaN nor an infinity. *)
Definition finite_sf (x : spec_float) : Prop :=
  match x with
  | S754_zero _ | S754_finite _ _ _ => True
  | _ => False
  end.

(** ** A host and files to run the program on *)

(** A parser for the atomic JSON texts. It rejects every other text, as
    [JSON.parse] rejects every text that is not JSON. *)
Definition parse_atoms (text : string) : option JSValue :=
  let t := JSString.trim text in
  if String.eqb t "null" then Some JNull
  else if String.eqb t "true" then Some (JBool true)
  else if String.eqb t "false" then Some (JBool false)
  else if String.eqb t "{}" then Some (JObject [])
  else if String.eqb t "[]" then Some (JArray [])
  else None.

(** A logarithm in base 2, rounded down to an integer. [formatFileSize] only
    reads the quotient of two logarithms, rounded down. *)
Definition log2_floor (x : float) : float :=
  match JSNumber.to_integer (JSNumber.floor x) with
  | Some z => JSNumber.of_Z (Z.log2 z)
  | None => x
  end.

(** An argument limit of the order of that of the engines. *)
Definition host_argument_limit : Z := 120000%Z.

Definition notes_txt : File :=
  {| name := "notes.txt"; size := 11; contents := Some "hello world" |}.

Definition broken_json : File :=
  {| name := "data.json"; size := 6; contents := Some "[1, 2," |}.

Definition table_csv : File :=
  {| name := "table.csv"; size := 20;
     contents := Some (csv_text "city,n" ["Oslo,3"; "Rome,5"]) |}.

Definition seven_rows_csv : File :=
  {| name := "rows.csv"; size := 30;
     contents := Some (csv_text "k,v" ["a,1"; "b,2"; "c,3"; "d,4"; "e,5"; "f,6"; "g,7"]) |}.

Definition archive_file : File :=
  {| name := "archive.tar.GZ"; size := 2048; contents := None |}.

Definition readme_file : File :=
  {| name := "README"; size := 12; contents := Some "notes" |}.

Definition blank_text : string := "  " +++ JSString.nl +++ JSString.nl +++ " ".

(** * Properties *)

(** ** The built-in functions of the model on known values *)

Example split_pieces :
  JSString.split "," "a,,b" = ["a"; ""; "b"]
  /\ JSString.split "." "archive.tar.GZ" = ["archive"; "tar"; "GZ"]
  /\ JSString.split_spaces "  a b  c " = [""; "a"; "b"; "c"; ""].
Proof. repeat split; reflexivity. Qed.

Example trim_and_case :
  JSString.trim "  a b  " = "a b" /\ JSString.toLowerCase "Data.CSV" = "data.csv".
Proof. split; reflexivity. Qed.

Example numbers_read_and_printed :
  map (fun s => JSNumber.toString (JSNumber.parseFloat s))
    ["0.1"; "1e21"; "123456789012345680000"; "1e-7"; "5e-324"; "-12.5abc"; "abc";
     "0.30000000000000004"; "9007199254740993"; "1.7976931348623159e308"; ".5e"]
  = ["0.1"; "1e+21"; "123456789012345680000"; "1e-7"; "5e-324"; "-12.5"; "NaN";
     "0.30000000000000004"; "9007199254740992"; "Infinity"; "0.5"].
Proof. vm_compute. reflexivity. Qed.

Example strings_as_numbers :
  map (fun s => JSNumber.toString (JSNumber.of_string s))
    [""; "  42  "; "0x1F"; "12px"; "1e3"; "Infinity"; "1,5"]
  = ["0"; "42"; "31"; "NaN"; "1000"; "Infinity"; "NaN"].
Proof. vm_compute. reflexivity. Qed.

Example fixed_notation :
  map (fun s => JSNumber.toFixed (JSNumber.parseFloat s) 2)
    ["1.5"; "0"; "1.005"; "1023.999"; "0.125"; "10.235"]
  = ["1.50"; "0.00"; "1.00"; "1024.00"; "0.13"; "10.23"].
Proof. vm_compute. reflexivity. Qed.

Example formatFileSize_values :
  formatFileSize log2_floor 0 = "0 Bytes" /\ formatFileSize log2_floor 1536 = "1.5 KB".
Proof. vm_compute. split; reflexivity. Qed.

Example datePattern_on_dates :
  map (RegExp.test datePattern) ["2024-01-15"; "1/2/99"; "15-01-2024"; "2024"; "Jan 5"]
  = [true; true; true; false; false].
Proof. vm_compute. reflexivity. Qed.

(** ** Text: lines and tokens *)

Lemma filter_none {A} (f : A -> bool) l : Forall (fun x => f x = false) l -> filter f l = [].
Proof. induction 1 as [| x l Hx _ IH]; simpl; [reflexivity | now rewrite Hx]. Qed.

Lemma filter_all {A} (f : A -> bool) l : Forall (fun x => f x = true) l -> filter f l = l.
Proof. induction 1 as [| x l Hx _ IH]; simpl; [reflexivity | now rewrite Hx, IH]. Qed.

Lemma split_without_sep c s : JSString.contains_char c s = false -> JSString.split c s = [s].
Proof.
  induction s as [| a s IH]; simpl; [reflexivity |].
  intro H. apply orb_false_iff in H as [Ha Hs].
  rewrite Ha, (IH Hs). reflexivity.
Qed.

Lemma split_append c s rest :
  JSString.contains_char c s = false ->
  JSString.split c (s +++ String c rest) = s :: JSString.split c rest.
Proof.
  induction s as [| a s IH]; simpl.
  - intros _. now rewrite Ascii.eqb_refl.
  - intro H. apply orb_false_iff in H as [Ha Hs].
    rewrite Ha, (IH Hs). reflexivity.
Qed.

(** Splitting undoes joining when no piece holds the separator. *)
Lemma split_join c l ls :
  Forall (fun s => JSString.contains_char c s = false) (l :: ls) ->
  JSString.split c (JSString.join (String c "") (l :: ls)) = l :: ls.
Proof.
  revert l. induction ls as [| l' ls IH]; intros l H.
  - simpl. apply split_without_sep. now inversion H.
  - change (JSString.join (String c "") (l :: l' :: ls))
      with (l +++ String c (JSString.join (String c "") (l' :: ls))).
    inversion H as [| ? ? Hl Hrest]; subst.
    rewrite split_append by assumption. now rewrite IH.
Qed.

Lemma split_nonempty c s : JSString.split c s <> [].
Proof.
  destruct s as [| a s]; simpl; [discriminate |].
  destruct (Ascii.eqb a c); [discriminate |].
  destruct (JSString.split c s); discriminate.
Qed.

(** Splitting distributes over a separator. *)
Lemma split_app c s t :
  JSString.split c (s +++ String c t) = JSString.split c s ++ JSString.split c t.
Proof.
  induction s as [| a s IH]; simpl.
  - now rewrite Ascii.eqb_refl.
  - rewrite IH. destruct (Ascii.eqb a c); [reflexivity |].
    pose proof (split_nonempty c s) as Hne.
    destruct (JSString.split c s) as [| piece rest]; [congruence | reflexivity].
Qed.

Lemma pop_last {A} (l : list A) x : pop (l ++ [x]) = Some x.
Proof. unfold pop. now rewrite rev_app_distr. Qed.

(** The tokens are one more than the separators. *)
Lemma split_length c s :
  List.length (JSString.split c s) = S (JSString.count_char c s).
Proof.
  induction s as [| a s IH]; simpl; [reflexivity |].
  destruct (Ascii.eqb a c); simpl.
  - now rewrite IH.
  - destruct (JSString.split c s); simpl in *; congruence.
Qed.

Lemma lines_of_csv_text header rows :
  Forall no_newline (header :: rows) ->
  Forall (fun line => non_blank line = true) (header :: rows) ->
  lines_of (csv_text header rows) = header :: rows.
Proof.
  intros Hn Hb. unfold lines_of, csv_text, JSString.nl.
  rewrite split_join by exact Hn. now apply filter_all.
Qed.

Lemma analyzeCSV_counts argument_limit content header_line data_lines p :
  lines_of content = header_line :: data_lines ->
  analyzeCSV argument_limit content = Ok p ->
  p_rowCount p = Some (Z.of_nat (List.length data_lines))
  /\ p_columnCount p
     = Some (Z.of_nat (S (JSString.count_char "," header_line))).
Proof.
  intro H.
  assert (Hz : (Z.of_nat (List.length (header_line :: data_lines)) - 1
                = Z.of_nat (List.length data_lines))%Z)
    by (cbn [List.length]; lia).
  unfold analyzeCSV. rewrite H.
  match goal with
  | |- bind ?m _ = _ -> _ => destruct m as [statistics | e]
  end; [| discriminate].
  cbn [bind]. intro E. injection E as <-. cbn [p_rowCount p_columnCount].
  rewrite length_map, split_length. split; f_equal. exact Hz.
Qed.

(** ** Records *)

Lemma keys_replace {V} k (v : V) r r' :
  Rec.replace k v r = Some r' -> Rec.keys r' = Rec.keys r.
Proof.
  revert r'. induction r as [| [k' v'] r IH]; intros r'; simpl; [discriminate |].
  destruct (String.eqb k k') eqn:E.
  - intro H. injection H as <-. simpl. apply String.eqb_eq in E. now subst.
  - destruct (Rec.replace k v r); simpl; [| discriminate].
    intro H. injection H as <-. simpl. f_equal. now apply IH.
Qed.

Lemma keys_insert_index {V} i k (v : V) r x :
  In x (Rec.keys (Rec.insert_index i k v r)) -> x = k \/ In x (Rec.keys r).
Proof.
  induction r as [| [k' v'] r IH]; simpl.
  - intuition.
  - destruct (Rec.array_index k') as [j |]; [destruct (j <? i)%Z |]; simpl; intuition.
Qed.

(** An assignment adds no key but its own. *)
Lemma keys_set {V} k (v : V) r x :
  In x (Rec.keys (Rec.set k v r)) -> x = k \/ In x (Rec.keys r).
Proof.
  unfold Rec.set. destruct (String.eqb k Rec.proto); [now right |].
  destruct (Rec.replace k v r) as [r' |] eqn:E.
  - rewrite (keys_replace _ _ _ _ E). now right.
  - destruct (Rec.array_index k).
    + apply keys_insert_index.
    + unfold Rec.keys. rewrite map_app, in_app_iff. simpl. intuition.
Qed.

Lemma opt_is_true o s : opt_is o s = true -> o = Some s.
Proof.
  destruct o as [x |]; simpl; [| discriminate].
  intro H. apply String.eqb_eq in H. now subst.
Qed.

Lemma indexed_snd {A} (l : list A) ih : In ih (indexed l) -> In (snd ih) l.
Proof. destruct ih as [i h]. unfold indexed. intro H. simpl. eapply in_combine_r, H. Qed.

Lemma count_if_ext {A} (f g : A -> bool) l :
  (forall x, f x = g x) -> count_if f l = count_if g l.
Proof. intro H. unfold count_if. f_equal. now apply filter_ext. Qed.

(** ** The order of binary64 numbers

    The comparisons of [PrimFloat] are specified on [spec_float]; the lemmas
    below are proved there and carried over. *)

Ltac compare_cases :=
  repeat match goal with
         | |- context [Z.compare ?a ?b] => destruct (Z.compare_spec a b)
         | H : context [Z.compare ?a ?b] |- _ => destruct (Z.compare_spec a b)
         | |- context [Pos.compare_cont Eq ?a ?b] =>
             change (Pos.compare_cont Eq a b) with (Pos.compare a b);
             destruct (Pos.compare_spec a b)
         | H : context [Pos.compare_cont Eq ?a ?b] |- _ =>
             change (Pos.compare_cont Eq a b) with (Pos.compare a b) in H;
             destruct (Pos.compare_spec a b)
         end.

Ltac by_cases :=
  unfold SFleb, SFltb, SFeqb, SFcompare, ordered in *;
  repeat match goal with
         | x : spec_float |- _ => destruct x
         end;
  repeat match goal with
         | s : bool |- _ => destruct s
         end;
  try congruence; try reflexivity;
  compare_cases; simpl in *; subst; try congruence; try lia.

Lemma sf_leb_refl x : ordered x -> SFleb x x = true.
Proof. intro H. by_cases. Qed.

Lemma sf_ltb_leb x y : SFltb x y = true -> SFleb x y = true.
Proof. intro H. by_cases. Qed.

Lemma sf_leb_total x y : ordered x -> ordered y -> SFltb x y = false -> SFleb y x = true.
Proof. intros Hx Hy H. by_cases. Qed.

Lemma sf_leb_trans x y z : SFleb x y = true -> SFleb y z = true -> SFleb x z = true.
Proof. intros H1 H2. by_cases. Qed.

Lemma sf_eqb_refl_ordered x : SFeqb x x = true <-> ordered x.
Proof. split; intro H; by_cases. Qed.

Lemma sf_eqb_zero x : SFeqb x (S754_zero false) = true -> exists s, x = S754_zero s.
Proof. intro H. destruct x as [s | s | | s m e]; try (now exists s); by_cases. Qed.

(** *** Rounding keeps the sign of a difference *)

Lemma digits2_pos_bounds p :
  (2 ^ (Zpos (digits2_pos p) - 1) <= Zpos p < 2 ^ Zpos (digits2_pos p))%Z.
Proof.
  induction p as [p IH | p IH |]; cbn [digits2_pos].
  - rewrite Pos2Z.inj_succ.
    replace (Z.succ (Zpos (digits2_pos p)) - 1)%Z
      with (Z.succ (Zpos (digits2_pos p) - 1)) by lia.
    rewrite !Z.pow_succ_r by lia. lia.
  - rewrite Pos2Z.inj_succ.
    replace (Z.succ (Zpos (digits2_pos p)) - 1)%Z
      with (Z.succ (Zpos (digits2_pos p) - 1)) by lia.
    rewrite !Z.pow_succ_r by lia. lia.
  - simpl. lia.
Qed.

Lemma shr_1_m mrs : (0 <= shr_m mrs)%Z -> shr_m (shr_1 mrs) = (shr_m mrs / 2)%Z.
Proof.
  destruct mrs as [m r s]. cbn [shr_m]. intro H.
  destruct m as [| [p | p |] | p]; cbn [shr_1 shr_m].
  - reflexivity.
  - apply Z.div_unique with 1%Z; lia.
  - apply Z.div_unique with 0%Z; lia.
  - reflexivity.
  - lia.
Qed.

Lemma pow2_xO n : (2 ^ Zpos n~0 = 2 ^ Zpos n * 2 ^ Zpos n)%Z.
Proof. rewrite <- Z.pow_add_r by lia. f_equal. lia. Qed.

Lemma pow2_xI n : (2 ^ Zpos n~1 = 2 * (2 ^ Zpos n * 2 ^ Zpos n))%Z.
Proof. rewrite <- Z.pow_add_r, <- Z.pow_succ_r by lia. f_equal. lia. Qed.

(** Shifting right by [n] digits divides the mantissa by [2^n]. *)
Lemma iter_shr_1_m n : forall mrs,
  (0 <= shr_m mrs)%Z -> shr_m (iter_pos shr_1 n mrs) = (shr_m mrs / 2 ^ Zpos n)%Z.
Proof.
  induction n as [n IH | n IH |]; intros mrs H; cbn [iter_pos].
  - assert (H1 : (0 <= shr_m (shr_1 mrs))%Z)
      by (rewrite shr_1_m by lia; apply Z.div_pos; lia).
    assert (H2 : (0 <= shr_m (iter_pos shr_1 n (shr_1 mrs)))%Z)
      by (rewrite IH by lia; apply Z.div_pos; lia).
    rewrite IH, IH, shr_1_m by lia.
    rewrite !Z.div_div by lia. now rewrite pow2_xI.
  - assert (H2 : (0 <= shr_m (iter_pos shr_1 n mrs))%Z)
      by (rewrite IH by lia; apply Z.div_pos; lia).
    rewrite IH, IH by lia.
    rewrite !Z.div_div by lia. now rewrite pow2_xO.
  - rewrite shr_1_m by lia. reflexivity.
Qed.

Lemma shr_record_of_loc_m m l : shr_m (shr_record_of_loc m l) = m.
Proof. destruct l as [| []]; reflexivity. Qed.

(** Above the least exponent, the shift to the format keeps a digit. *)
Lemma shr_fexp_positive p e l :
  (emin64 <= e)%Z ->
  (0 < shr_m (fst (shr_fexp prec emax (Zpos p) e l)))%Z
  /\ (emin64 <= snd (shr_fexp prec emax (Zpos p) e l))%Z.
Proof.
  intro He. unfold shr_fexp, shr, fexp, SpecFloat.emin, prec, emax, emin64 in *.
  cbn [Zdigits2].
  pose proof (digits2_pos_bounds p) as [Hlo _].
  set (d := Zpos (digits2_pos p)) in *.
  destruct (Z.max (d + e - 53) (3 - 1024 - 53) - e)%Z as [| q | q] eqn:E; cbn [fst snd].
  - rewrite shr_record_of_loc_m. lia.
  - rewrite iter_shr_1_m by (rewrite shr_record_of_loc_m; lia).
    rewrite shr_record_of_loc_m. split; [| lia].
    assert (Hq : Zpos q = (d - 53)%Z) by lia.
    apply Z.div_str_pos. split; [apply Z.pow_pos_nonneg; lia |].
    apply Z.le_trans with (2 ^ (d - 1))%Z; [| exact Hlo].
    apply Z.pow_le_mono_r; lia.
  - rewrite shr_record_of_loc_m. lia.
Qed.

Lemma round_nearest_even_positive m l : (0 < m)%Z -> (0 < round_nearest_even m l)%Z.
Proof.
  intro H. destruct l as [| []]; cbn [round_nearest_even]; try destruct (Z.even m); lia.
Qed.

Lemma binary_round_aux_signed s p e l :
  (emin64 <= e)%Z -> signed s (binary_round_aux prec emax s (Zpos p) e l).
Proof.
  intro He. unfold binary_round_aux.
  pose proof (shr_fexp_positive p e l He) as [H1 H1e].
  destruct (shr_fexp prec emax (Zpos p) e l) as [mrs' e']. cbn [fst snd] in *.
  pose proof (round_nearest_even_positive (shr_m mrs') (loc_of_shr_record mrs') H1) as H2.
  destruct (round_nearest_even (shr_m mrs') (loc_of_shr_record mrs')) as [| p2 | p2];
    try lia.
  pose proof (shr_fexp_positive p2 e' loc_Exact H1e) as [H3 _].
  destruct (shr_fexp prec emax (Zpos p2) e' loc_Exact) as [mrs'' e'']. cbn [fst snd] in *.
  destruct (shr_m mrs'') as [| m | m]; try lia.
  destruct (e'' <=? emax - prec)%Z; [left; eauto | now right].
Qed.

(** A non-zero value above the least exponent does not round to zero. *)
Lemma binary_round_signed s p e :
  (emin64 <= e)%Z -> signed s (binary_round prec emax s p e).
Proof.
  intro He. unfold binary_round, shl_align.
  destruct (fexp prec emax (Zpos (digits2_pos p) + e) - e)%Z eqn:E;
    apply binary_round_aux_signed; try assumption.
  unfold fexp, SpecFloat.emin, prec, emax, emin64. lia.
Qed.

Lemma shl_align_value m e e' :
  (e' <= e)%Z -> Zpos (fst (shl_align m e e')) = (Zpos m * 2 ^ (e - e'))%Z.
Proof.
  intro H. unfold shl_align.
  destruct (e' - e)%Z as [| d | d] eqn:E; cbn [fst]; try lia.
  - replace (e - e')%Z with 0%Z by lia. lia.
  - replace (e - e')%Z with (Zpos d) by lia. clear.
    induction d as [| d IH] using Pos.peano_ind.
    + simpl. lia.
    + rewrite Pos.iter_succ, Pos2Z.inj_xO, IH, Pos2Z.inj_succ, Z.pow_succ_r by lia. lia.
Qed.

Lemma bounded_exponent m e : bounded prec emax m e = true -> (emin64 <= e)%Z.
Proof.
  unfold bounded, canonical_mantissa, fexp, SpecFloat.emin, prec, emax, emin64.
  intro H. apply andb_prop in H as [H _]. apply Z.eqb_eq in H. lia.
Qed.

(** Of two numbers in canonical form, the one of smaller exponent is the
    smaller. *)
Lemma bounded_lt m1 e1 m2 e2 :
  bounded prec emax m1 e1 = true -> bounded prec emax m2 e2 = true ->
  (e1 < e2)%Z -> (Zpos m1 < Zpos m2 * 2 ^ (e2 - e1))%Z.
Proof.
  unfold bounded, canonical_mantissa, fexp, SpecFloat.emin, prec, emax.
  intros H1 H2 Hlt.
  apply andb_prop in H1 as [H1 _]. apply Z.eqb_eq in H1.
  apply andb_prop in H2 as [H2 _]. apply Z.eqb_eq in H2.
  pose proof (digits2_pos_bounds m1) as [_ Hm1].
  pose proof (digits2_pos_bounds m2) as [Hm2 _].
  assert (D1 : (Zpos (digits2_pos m1) <= 53)%Z) by lia.
  assert (D2 : Zpos (digits2_pos m2) = 53%Z) by lia.
  rewrite D2 in Hm2.
  assert (P1 : (2 ^ Zpos (digits2_pos m1) <= 2 ^ 53)%Z) by (apply Z.pow_le_mono_r; lia).
  assert (P2 : (2 ^ 1 <= 2 ^ (e2 - e1))%Z) by (apply Z.pow_le_mono_r; lia).
  replace (2 ^ 53)%Z with (2 ^ (53 - 1) * 2 ^ 1)%Z in P1 by reflexivity.
  nia.
Qed.

(** The comparison of two numbers is that of their mantissas brought to the
    smaller exponent. *)
Lemma compare_finite sx mx ex sy my ey :
  bounded prec emax mx ex = true -> bounded prec emax my ey = true ->
  SFcompare (S754_finite sy my ey) (S754_finite sx mx ex)
  = Some (Z.compare (cond_Zopp sy (Zpos my * 2 ^ (ey - Z.min ex ey)))
                    (cond_Zopp sx (Zpos mx * 2 ^ (ex - Z.min ex ey)))).
Proof.
  intros Hx Hy. cbn [SFcompare]. f_equal.
  change (Pos.compare_cont Eq my mx) with (Z.compare (Zpos my) (Zpos mx)).
  assert (Px : (0 < 2 ^ (ex - Z.min ex ey))%Z) by (apply Z.pow_pos_nonneg; lia).
  assert (Py : (0 < 2 ^ (ey - Z.min ex ey))%Z) by (apply Z.pow_pos_nonneg; lia).
  destruct (Z.compare_spec ey ex) as [E | L | G].
  - subst ey. rewrite Z.min_id, Z.sub_diag, !Z.mul_1_r.
    destruct sy, sx; reflexivity.
  - pose proof (bounded_lt my ey mx ex Hy Hx L) as B.
    rewrite Z.min_r, Z.sub_diag, Z.mul_1_r by lia.
    rewrite Z.min_r in Px by lia.
    destruct sy, sx; cbn [cond_Zopp]; symmetry;
      first [apply Z.compare_lt_iff | apply Z.compare_gt_iff]; nia.
  - pose proof (bounded_lt mx ex my ey Hx Hy ltac:(lia)) as B.
    rewrite Z.min_l, Z.sub_diag, Z.mul_1_r by lia.
    rewrite Z.min_l in Py by lia.
    destruct sy, sx; cbn [cond_Zopp]; symmetry;
      first [apply Z.compare_lt_iff | apply Z.compare_gt_iff]; nia.
Qed.

Lemma signed_ltb_zero s x : signed s x -> SFltb (S754_zero false) x = negb s.
Proof. intros [(m & e & ->) | ->]; destruct s; reflexivity. Qed.

(** The difference of two finite numbers is positive exactly when the first
    is the greater. *)
Lemma SFsub_positive x y :
  valid_binary x = true -> valid_binary y = true -> finite_sf x -> finite_sf y ->
  SFltb (S754_zero false) (SF64sub x y) = SFltb y x.
Proof.
  intros Vx Vy Fx Fy.
  destruct x as [sx | sx | | sx mx ex], y as [sy | sy | | sy my ey];
    try contradiction; cbn [valid_binary] in *.
  - destruct sx, sy; reflexivity.
  - destruct sx, sy; reflexivity.
  - destruct sx, sy; reflexivity.
  - unfold SF64sub, SFsub, SFltb. rewrite (compare_finite sx mx ex sy my ey Vx Vy).
    pose proof (bounded_exponent _ _ Vx). pose proof (bounded_exponent _ _ Vy).
    unfold emin64 in *.
    rewrite !shl_align_value by lia.
    set (cx := cond_Zopp sx (Zpos mx * 2 ^ (ex - Z.min ex ey))).
    set (cy := cond_Zopp sy (Zpos my * 2 ^ (ey - Z.min ex ey))).
    fold (SFltb (S754_zero false)
            (binary_normalize prec emax (cx - cy) (Z.min ex ey) false)).
    destruct (cx - cy)%Z as [| p | p] eqn:E; cbn [binary_normalize].
    + replace (cy ?= cx)%Z with Eq by (symmetry; apply Z.compare_eq_iff; lia).
      reflexivity.
    + rewrite (signed_ltb_zero false) by (apply binary_round_signed; unfold emin64; lia).
      replace (cy ?= cx)%Z with Lt by (symmetry; apply Z.compare_lt_iff; lia).
      reflexivity.
    + rewrite (signed_ltb_zero true) by (apply binary_round_signed; unfold emin64; lia).
      replace (cy ?= cx)%Z with Gt by (symmetry; apply Z.compare_gt_iff; lia).
      reflexivity.
Qed.

(** *** The same on primitive floats *)

Lemma float_is_nan_spec (x : float) : PrimFloat.is_nan x = false <-> ordered (Prim2SF x).
Proof.
  unfold PrimFloat.is_nan. rewrite FloatAxioms.eqb_spec, negb_false_iff.
  apply sf_eqb_refl_ordered.
Qed.

Lemma float_is_finite_spec (x : float) :
  PrimFloat.is_finite x = true -> finite_sf (Prim2SF x).
Proof.
  unfold PrimFloat.is_finite, PrimFloat.is_nan, PrimFloat.is_infinity.
  rewrite !FloatAxioms.eqb_spec, FloatAxioms.abs_spec.
  change (Prim2SF infinity) with (S754_infinity false).
  destruct (Prim2SF x) as [s | [] | | s m e]; cbn; intro H;
    first [exact I | discriminate].
Qed.

Lemma float_finite_not_nan (x : float) :
  PrimFloat.is_finite x = true -> PrimFloat.is_nan x = false.
Proof.
  intro H. apply float_is_nan_spec. apply float_is_finite_spec in H.
  unfold ordered. destruct (Prim2SF x); try contradiction; discriminate.
Qed.

Lemma float_le_refl (x : float) : PrimFloat.is_nan x = false -> float_le x x.
Proof.
  intro H. unfold float_le. rewrite FloatAxioms.leb_spec.
  now apply sf_leb_refl, float_is_nan_spec.
Qed.

Lemma float_lt_le (x y : float) : PrimFloat.ltb x y = true -> float_le x y.
Proof.
  unfold float_le. rewrite FloatAxioms.ltb_spec, FloatAxioms.leb_spec. apply sf_ltb_leb.
Qed.

Lemma float_le_total (x y : float) :
  PrimFloat.is_nan x = false -> PrimFloat.is_nan y = false ->
  PrimFloat.ltb x y = false -> float_le y x.
Proof.
  unfold float_le.
  rewrite FloatAxioms.ltb_spec, FloatAxioms.leb_spec, !float_is_nan_spec.
  apply sf_leb_total.
Qed.

Lemma float_le_trans (x y z : float) : float_le x y -> float_le y z -> float_le x z.
Proof. unfold float_le. rewrite !FloatAxioms.leb_spec. apply sf_leb_trans. Qed.

Lemma float_le_zeros (x y : float) :
  PrimFloat.is_zero x = true -> PrimFloat.is_zero y = true -> float_le x y.
Proof.
  unfold float_le, PrimFloat.is_zero. rewrite !FloatAxioms.eqb_spec, FloatAxioms.leb_spec.
  change (Prim2SF zero) with (S754_zero false).
  intros Hx Hy. apply sf_eqb_zero in Hx as [sx ->].
  apply sf_eqb_zero in Hy as [sy ->]. reflexivity.
Qed.

Lemma float_lt_infinity (x : float) :
  PrimFloat.is_finite x = true -> PrimFloat.ltb x infinity = true.
Proof.
  intro H. apply float_is_finite_spec in H. rewrite FloatAxioms.ltb_spec.
  change (Prim2SF infinity) with (S754_infinity false).
  destruct (Prim2SF x) as [s | s | | s m e]; try contradiction; reflexivity.
Qed.

Lemma float_neg_infinity_lt (x : float) :
  PrimFloat.is_finite x = true -> PrimFloat.ltb neg_infinity x = true.
Proof.
  intro H. apply float_is_finite_spec in H. rewrite FloatAxioms.ltb_spec.
  change (Prim2SF neg_infinity) with (S754_infinity true).
  destruct (Prim2SF x) as [s | s | | s m e]; try contradiction; reflexivity.
Qed.

(** The comparator [(a, b) => a - b] orders finite numbers as [<] does. *)
Lemma float_sub_positive (x y : float) :
  PrimFloat.is_finite x = true -> PrimFloat.is_finite y = true ->
  PrimFloat.ltb 0 (x - y) = PrimFloat.ltb y x.
Proof.
  intros Hx Hy. rewrite !FloatAxioms.ltb_spec, FloatAxioms.sub_spec.
  change (Prim2SF 0) with (S754_zero false).
  apply SFsub_positive; auto using Prim2SF_valid, float_is_finite_spec.
Qed.

(** ** Extrema and sorting of finite numbers *)

Lemma finite_values_no_nan values :
  finite_values values -> existsb PrimFloat.is_nan values = false.
Proof.
  induction 1 as [| x l Hx _ IH]; simpl; [reflexivity |].
  now rewrite (float_finite_not_nan x Hx), IH.
Qed.

(** One step of the scan of [Math.min] yields the new value or the running
    one, and is below both. *)
Lemma min_step_spec lowest x :
  PrimFloat.is_nan lowest = false -> PrimFloat.is_nan x = false ->
  PrimFloat.is_nan (JSNumber.min_step lowest x) = false
  /\ float_le (JSNumber.min_step lowest x) lowest
  /\ float_le (JSNumber.min_step lowest x) x
  /\ (JSNumber.min_step lowest x = lowest \/ JSNumber.min_step lowest x = x).
Proof.
  intros Hl Hx. unfold JSNumber.min_step.
  destruct (JSNumber.is_neg_zero x && JSNumber.is_pos_zero lowest) eqn:Z.
  - apply andb_prop in Z as [Z1 Z2].
    apply andb_prop in Z1 as [Z1 _]. apply andb_prop in Z2 as [Z2 _].
    repeat split; auto using float_le_refl, float_le_zeros.
  - destruct (PrimFloat.ltb x lowest) eqn:L.
    + repeat split; auto using float_le_refl, float_lt_le.
    + repeat split; auto using float_le_refl, float_le_total.
Qed.

Lemma max_step_spec highest x :
  PrimFloat.is_nan highest = false -> PrimFloat.is_nan x = false ->
  PrimFloat.is_nan (JSNumber.max_step highest x) = false
  /\ float_le highest (JSNumber.max_step highest x)
  /\ float_le x (JSNumber.max_step highest x)
  /\ (JSNumber.max_step highest x = highest \/ JSNumber.max_step highest x = x).
Proof.
  intros Hl Hx. unfold JSNumber.max_step.
  destruct (JSNumber.is_pos_zero x && JSNumber.is_neg_zero highest) eqn:Z.
  - apply andb_prop in Z as [Z1 Z2].
    apply andb_prop in Z1 as [Z1 _]. apply andb_prop in Z2 as [Z2 _].
    repeat split; auto using float_le_refl, float_le_zeros.
  - destruct (PrimFloat.ltb highest x) eqn:L.
    + repeat split; auto using float_le_refl, float_lt_le.
    + repeat split; auto using float_le_refl, float_le_total.
Qed.

(** The scan of [Math.min]: the result is below the start and every value,
    and is the start or one of the values. *)
Lemma min_scan values : forall lowest,
  finite_values values -> PrimFloat.is_nan lowest = false ->
  float_le (fold_left JSNumber.min_step values lowest) lowest
  /\ Forall (float_le (fold_left JSNumber.min_step values lowest)) values
  /\ (fold_left JSNumber.min_step values lowest = lowest
      \/ In (fold_left JSNumber.min_step values lowest) values).
Proof.
  induction values as [| x l IH]; intros lowest Hf Hl; cbn [fold_left].
  - repeat split; auto using float_le_refl.
  - inversion Hf as [| ? ? Hx Hl']; subst.
    destruct (min_step_spec lowest x Hl (float_finite_not_nan x Hx)) as (S1 & S2 & S3 & S4).
    destruct (IH (JSNumber.min_step lowest x) Hl' S1) as (R2 & R3 & R4).
    repeat split.
    + eapply float_le_trans; eassumption.
    + constructor; [eapply float_le_trans; eassumption | exact R3].
    + destruct R4 as [-> | R4]; [| right; now right].
      destruct S4 as [-> | ->]; [now left | right; now left].
Qed.

Lemma max_scan values : forall highest,
  finite_values values -> PrimFloat.is_nan highest = false ->
  float_le highest (fold_left JSNumber.max_step values highest)
  /\ Forall (fun x => float_le x (fold_left JSNumber.max_step values highest)) values
  /\ (fold_left JSNumber.max_step values highest = highest
      \/ In (fold_left JSNumber.max_step values highest) values).
Proof.
  induction values as [| x l IH]; intros highest Hf Hl; cbn [fold_left].
  - repeat split; auto using float_le_refl.
  - inversion Hf as [| ? ? Hx Hl']; subst.
    destruct (max_step_spec highest x Hl (float_finite_not_nan x Hx)) as (S1 & S2 & S3 & S4).
    destruct (IH (JSNumber.max_step highest x) Hl' S1) as (R2 & R3 & R4).
    repeat split.
    + eapply float_le_trans; eassumption.
    + constructor; [eapply float_le_trans; eassumption | exact R3].
    + destruct R4 as [-> | R4]; [| right; now right].
      destruct S4 as [-> | ->]; [now left | right; now left].
Qed.

Lemma min_is_least values :
  values <> [] -> finite_values values ->
  In (JSNumber.min values) values /\ Forall (float_le (JSNumber.min values)) values.
Proof.
  intros Hne Hf. unfold JSNumber.min. rewrite (finite_values_no_nan values Hf).
  destruct values as [| x l]; [congruence |].
  inversion Hf as [| ? ? Hx Hl]; subst. cbn [fold_left].
  assert (E : JSNumber.min_step PrimFloat.infinity x = x).
  { unfold JSNumber.min_step. rewrite (float_lt_infinity x Hx).
    now destruct (JSNumber.is_neg_zero x && JSNumber.is_pos_zero PrimFloat.infinity). }
  rewrite E.
  destruct (min_scan l x Hl (float_finite_not_nan x Hx)) as (R2 & R3 & R4).
  split; [destruct R4 as [-> | R4]; [now left | now right] | now constructor].
Qed.

Lemma max_is_greatest values :
  values <> [] -> finite_values values ->
  In (JSNumber.max values) values
  /\ Forall (fun x => float_le x (JSNumber.max values)) values.
Proof.
  intros Hne Hf. unfold JSNumber.max. rewrite (finite_values_no_nan values Hf).
  destruct values as [| x l]; [congruence |].
  inversion Hf as [| ? ? Hx Hl]; subst. cbn [fold_left].
  assert (E : JSNumber.max_step PrimFloat.neg_infinity x = x).
  { unfold JSNumber.max_step. rewrite (float_neg_infinity_lt x Hx).
    now destruct (JSNumber.is_pos_zero x && JSNumber.is_neg_zero PrimFloat.neg_infinity). }
  rewrite E.
  destruct (max_scan l x Hl (float_finite_not_nan x Hx)) as (R2 & R3 & R4).
  split; [destruct R4 as [-> | R4]; [now left | now right] | now constructor].
Qed.

Lemma sort_insert_permutation compare x l :
  Permutation (sort_insert compare x l) (x :: l).
Proof.
  induction l as [| y l IH]; cbn [sort_insert]; [reflexivity |].
  destruct (PrimFloat.ltb 0 (compare x y)); [| reflexivity].
  rewrite IH. apply perm_swap.
Qed.

Lemma sort_permutation compare l : Permutation (sort compare l) l.
Proof.
  induction l as [| x l IH]; cbn [sort fold_right]; [reflexivity |].
  fold (sort compare l). rewrite sort_insert_permutation. now constructor.
Qed.

Lemma sort_insert_sorted x l :
  JSNumber.isFinite x = true -> finite_values l ->
  StronglySorted float_le l -> StronglySorted float_le (sort_insert PrimFloat.sub x l).
Proof.
  intros Hx Hl Hs. induction Hs as [| y l Hs IH Hy]; cbn [sort_insert].
  - repeat constructor.
  - inversion Hl as [| ? ? Hyf Hl']; subst.
    rewrite (float_sub_positive x y Hx Hyf).
    destruct (PrimFloat.ltb y x) eqn:L.
    + constructor; [now apply IH |].
      rewrite (sort_insert_permutation PrimFloat.sub x l).
      constructor; [now apply float_lt_le | exact Hy].
    + assert (Hxy : float_le x y)
        by (apply float_le_total; auto using float_finite_not_nan).
      constructor; [now constructor |].
      constructor; [exact Hxy |].
      eapply Forall_impl; [| exact Hy]. intros z Hz. eapply float_le_trans; eassumption.
Qed.

(** Sorting finite numbers with [(a, b) => a - b] puts them in ascending
    order. *)
Lemma sort_sorted l :
  finite_values l -> StronglySorted float_le (sort PrimFloat.sub l).
Proof.
  induction 1 as [| x l Hx Hl IH]; cbn [sort fold_right]; [constructor |].
  fold (sort PrimFloat.sub l). apply sort_insert_sorted; [exact Hx | | exact IH].
  unfold finite_values. rewrite (sort_permutation PrimFloat.sub l). exact Hl.
Qed.

Lemma even_mod_2 n : Nat.eqb (Nat.modulo n 2) 0 = Nat.even n.
Proof.
  rewrite <- Nat.negb_odd, <- Nat.bit0_odd, Nat.bit0_eqb.
  pose proof (Nat.mod_upper_bound n 2 ltac:(discriminate)).
  destruct (n mod 2) as [| [| k]]; try reflexivity. lia.
Qed.

(** ** Statistics keys *)

Lemma csv_statistics_keys argument_limit (dt : Rec.t string)
    (values : nat * string -> list float) L acc stats k :
  fold_left
    (fun acc ih =>
       statistics <- acc ;;
       if opt_is (Rec.get (snd ih) dt) "number" then
         record <- calculateStatistics argument_limit (values ih) ;;
         Ok (Rec.set (snd ih) (StatRecord record) statistics)
       else Ok statistics) L acc = Ok stats ->
  In k (Rec.keys stats) ->
  exists st0, acc = Ok st0
              /\ (In k (Rec.keys st0)
                  \/ (In k (map snd L) /\ Rec.get k dt = Some "number")).
Proof.
  revert acc. induction L as [| ih L IH]; intros acc; simpl.
  - intros -> Hk. eexists; split; [reflexivity | now left].
  - intros H Hk. destruct (IH _ H Hk) as (st1 & E & Hst1).
    destruct acc as [st0 | e]; [| discriminate]. simpl in E.
    exists st0. split; [reflexivity |].
    destruct Hst1 as [Hst1 | [H1 H2]]; [| now right; split; [right |]].
    destruct (opt_is (Rec.get (snd ih) dt) "number") eqn:En.
    + destruct (calculateStatistics argument_limit (values ih)) as [record |];
        [| discriminate].
      simpl in E. injection E as <-.
      apply keys_set in Hst1 as [-> | Hst1]; [| now left].
      right. split; [now left | now apply opt_is_true].
    + injection E as <-. now left.
Qed.

Lemma analyzeCSV_statistics argument_limit content p stats k :
  analyzeCSV argument_limit content = Ok p ->
  p_statistics p = Some stats -> In k (Rec.keys stats) ->
  exists hs dt, p_headers p = Some hs
                /\ p_dataTypes p = Some dt
                /\ In k hs /\ Rec.get k dt = Some "number".
Proof.
  unfold analyzeCSV. destruct (lines_of content) as [| header data].
  { intro H. injection H as <-. discriminate. }
  match goal with
  | |- bind ?m _ = _ -> _ => destruct m as [st | e] eqn:E
  end; [| discriminate].
  cbn [bind]. intro H. injection H as <-.
  cbn [p_statistics p_headers p_dataTypes]. intros H Hk. injection H as ->.
  eexists; eexists. split; [reflexivity |]. split; [reflexivity |].
  apply (csv_statistics_keys argument_limit _
           (fun ih => filter not_NaN
                        (map (fun line => Any.parseFloat (cell line (fst ih))) data)))
    with (k := k) in E; [| exact Hk].
  destruct E as (st0 & E0 & H0). injection E0 as <-.
  destruct H0 as [[] | [H1 H2]].
  split; [| exact H2].
  apply in_map_iff in H1 as (ih & <- & Hih). now apply indexed_snd.
Qed.

Lemma json_statistics_keys argument_limit (dt : Rec.t string)
    (column : string -> outcome (list JSValue)) hs acc stats k :
  fold_left
    (fun acc header =>
       statistics <- acc ;;
       if opt_is (Rec.get header dt) "number" then
         raw <- column header ;;
         record <- calculateStatistics argument_limit
                     (filter not_NaN (map Any.parseFloat raw)) ;;
         Ok (Rec.set header (StatRecord record) statistics)
       else Ok statistics) hs acc = Ok stats ->
  In k (Rec.keys stats) ->
  exists st0, acc = Ok st0
              /\ (In k (Rec.keys st0) \/ (In k hs /\ Rec.get k dt = Some "number")).
Proof.
  revert acc. induction hs as [| h hs IH]; intros acc; simpl.
  - intros -> Hk. eexists; split; [reflexivity | now left].
  - intros H Hk. destruct (IH _ H Hk) as (st1 & E & Hst1).
    destruct acc as [st0 | e]; [| discriminate]. simpl in E.
    exists st0. split; [reflexivity |].
    destruct Hst1 as [Hst1 | [H1 H2]]; [| now right; split; [right |]].
    destruct (opt_is (Rec.get h dt) "number") eqn:En.
    + destruct (column h) as [raw |]; [| discriminate]. simpl in E.
      destruct (calculateStatistics argument_limit _) as [record |]; [| discriminate].
      simpl in E. injection E as <-.
      apply keys_set in Hst1 as [-> | Hst1]; [| now left].
      right. split; [now left | now apply opt_is_true].
    + injection E as <-. now left.
Qed.

Lemma analyzeJSON_statistics argument_limit content p stats k :
  analyzeJSON argument_limit content = Ok p ->
  p_statistics p = Some stats -> In k (Rec.keys stats) ->
  exists hs dt, p_headers p = Some hs /\ p_dataTypes p = Some dt
                /\ In k hs /\ Rec.get k dt = Some "number".
Proof.
  unfold analyzeJSON.
  destruct (negb (Any.truthy content) || negb (Any.is_object content)).
  - intro H. injection H as <-. discriminate.
  - match goal with
    | |- bind ?m _ = _ -> _ => destruct m as [[[[[rc cc] hs] sd] dt] | e]
    end; [| discriminate].
    cbn [bind].
    match goal with
    | |- bind ?m _ = _ -> _ => destruct m as [st | e] eqn:E
    end; [| discriminate].
    cbn [bind]. intro H. injection H as <-. cbn [p_statistics p_headers p_dataTypes].
    intros H Hk. injection H as ->.
    exists hs, dt. split; [reflexivity |]. split; [reflexivity |].
    destruct (json_statistics_keys _ _ _ _ _ _ _ E Hk) as (st0 & E0 & H0).
    injection E0 as <-. destruct H0 as [[] | H0]. exact H0.
Qed.

Lemma analyzeJSON_statistics_present argument_limit content p hs :
  analyzeJSON argument_limit content = Ok p -> p_headers p = Some hs ->
  exists stats, p_statistics p = Some stats.
Proof.
  unfold analyzeJSON.
  destruct (negb (Any.truthy content) || negb (Any.is_object content)).
  - intro H. injection H as <-. discriminate.
  - match goal with
    | |- bind ?m _ = _ -> _ => destruct m as [[[[[rc cc] hs'] sd] dt] | e]
    end; [| discriminate].
    cbn [bind].
    match goal with
    | |- bind ?m _ = _ -> _ => destruct m as [st | e]
    end; [| discriminate].
    cbn [bind]. intro H. injection H as <-. cbn [p_statistics p_headers].
    intros _. eexists; reflexivity.
Qed.

(** ** Returning statistics *)

(** Within the argument limit the statistics are returned. *)
Lemma calculateStatistics_returns argument_limit values :
  (Z.of_nat (List.length values) <= argument_limit)%Z ->
  exists stats, calculateStatistics argument_limit values = Ok stats.
Proof.
  intro H. destruct values as [| x l]; [eexists; reflexivity |].
  unfold calculateStatistics, spread_call. cbv zeta.
  apply Z.leb_le in H. rewrite H. cbn [bind]. eexists; reflexivity.
Qed.

Lemma filter_length_le {A} (f : A -> bool) l :
  (List.length (filter f l) <= List.length l)%nat.
Proof.
  induction l as [| a l IH]; simpl; [lia |]. destruct (f a); simpl; lia.
Qed.

Lemma csv_statistics_return argument_limit (dt : Rec.t string)
    (values : nat * string -> list float) L :
  (forall ih, (Z.of_nat (List.length (values ih)) <= argument_limit)%Z) ->
  forall st0, exists stats,
    fold_left
      (fun acc ih =>
         statistics <- acc ;;
         if opt_is (Rec.get (snd ih) dt) "number" then
           record <- calculateStatistics argument_limit (values ih) ;;
           Ok (Rec.set (snd ih) (StatRecord record) statistics)
         else Ok statistics) L (Ok st0) = Ok stats.
Proof.
  intro Hv. induction L as [| ih L IH]; intro st0; cbn [fold_left];
    [eexists; reflexivity |].
  cbn [bind]. destruct (opt_is (Rec.get (snd ih) dt) "number"); [| apply IH].
  destruct (calculateStatistics_returns argument_limit (values ih) (Hv ih)) as [record ->].
  cbn [bind]. apply IH.
Qed.

(** A CSV text is profiled when the engine can pass as many arguments as
    the text has data lines. *)
Lemma analyzeCSV_returns argument_limit content header data :
  lines_of content = header :: data ->
  (Z.of_nat (List.length data) <= argument_limit)%Z ->
  exists p, analyzeCSV argument_limit content = Ok p.
Proof.
  intros Hl Hd. unfold analyzeCSV. rewrite Hl.
  match goal with
  | |- exists p, bind (fold_left _ ?L _) _ = _ =>
      destruct (csv_statistics_return argument_limit
                  (fold_left
                     (fun dataTypes ih =>
                        Rec.set (snd ih)
                          (detectDataType (map (fun line => cell line (fst ih)) data))
                          dataTypes)
                     (indexed (map JSString.trim (JSString.split "," header))) [])
                  (fun ih => filter not_NaN
                               (map (fun line => Any.parseFloat (cell line (fst ih))) data))
                  L) with (st0 := @nil (string * StatValue)) as [stats E]
  end.
  { intro ih. pose proof (filter_length_le not_NaN
                            (map (fun line => Any.parseFloat (cell line (fst ih))) data)) as H.
    rewrite length_map in H. lia. }
  match goal with
  | |- exists p, bind ?m _ = _ => replace m with (Ok stats) by (symmetry; exact E)
  end.
  cbn [bind]. eexists; reflexivity.
Qed.

(** ** The result list *)

Lemma push_starts_with_text l r : starts_with_text l -> starts_with_text (push l r).
Proof.
  intros (f & rest & -> & H). exists f, (rest ++ [r]). split; [reflexivity | exact H].
Qed.

Lemma text_starts_with_text r : type r = "text" -> starts_with_text (push [] r).
Proof. intro H. now exists r, []. Qed.

Lemma ret_starts_with_text l w : starts_with_text l -> starts_with_text (fst (ret l w)).
Proof. trivial. Qed.

Lemma if_starts_with_text (c : bool) (m1 m2 : Host (list ResultRecord)) w :
  starts_with_text (fst (m1 w)) -> starts_with_text (fst (m2 w)) ->
  starts_with_text (fst ((if c then m1 else m2) w)).
Proof. now destruct c. Qed.

Lemma then_starts_with_text {A} (m : Host A) (k : A -> Host (list ResultRecord)) w :
  (forall a w', starts_with_text (fst (k a w'))) -> starts_with_text (fst (then_ m k w)).
Proof. intro H. unfold then_. destruct (m w) as [a w']. apply H. Qed.

Lemma then_list_starts_with_text (m : Host (list ResultRecord))
    (k : list ResultRecord -> Host (list ResultRecord)) w :
  starts_with_text (fst (m w)) ->
  (forall l w', starts_with_text l -> starts_with_text (fst (k l w'))) ->
  starts_with_text (fst (then_ m k w)).
Proof. intros Hm Hk. unfold then_. destruct (m w) as [l w']. apply Hk, Hm. Qed.

Lemma zero_one_literal_number v : zero_one_literal v -> is_number_like v = true.
Proof. intros [-> | [-> | [-> | ->]]]; vm_compute; reflexivity. Qed.

(** * The claims of the specification *)

(** C1 (the code departs from the claim). A `json` file whose text the parser
    rejects is read as the empty object, and the analysis returns a result
    instead of throwing; but the empty object passes the guard of
    [analyzeJSON], so the result is the profile of one record without fields:
    the summary is "JSON file with 1 records and 0 fields. ..." with the one
    recommendation of a small data set, and not "Empty or invalid JSON file."
    with its two recommendations. *)
Theorem malformed_json_profiled_as_one_record :
  forall JSON_parse Math_log argument_limit file text,
    getFileType file = "json" ->
    contents file = Some text ->
    JSON_parse text = None ->
    exists r,
      analyzeFile JSON_parse Math_log argument_limit file = Ok r
      /\ analyzeFile (fun _ => Some (JObject [])) Math_log argument_limit file = Ok r
      /\ summary r = "JSON file with 1 records and 0 fields. Contains 0 numeric fields suitable for analysis."
      /\ recommendations r
         = Some ["K-Nearest Neighbors algorithm works well with smaller datasets"]
      /\ summary r <> "Empty or invalid JSON file.".
Proof.
  intros parse log limit file text Ht Hc Hp.
  unfold analyzeFile, readFileContent. rewrite Ht, Hc, Hp.
  cbn [is_text_type String.eqb Ascii.eqb Bool.eqb orb bind].
  eexists. split; [reflexivity |]. split; [reflexivity |].
  split; [reflexivity |]. split; [reflexivity | discriminate].
Qed.

Lemma malformed_json_witness :
  parse_atoms "[1, 2," = None
  /\ exists r,
       analyzeFile parse_atoms log2_floor host_argument_limit broken_json = Ok r
       /\ summary r = "JSON file with 1 records and 0 fields. Contains 0 numeric fields suitable for analysis.".
Proof.
  split; [reflexivity |].
  destruct (malformed_json_profiled_as_one_record parse_atoms log2_floor host_argument_limit
              broken_json
              "[1, 2," eq_refl eq_refl eq_refl) as (r & H1 & _ & H2 & _).
  exists r. split; assumption.
Defined.

(** C2, as stated, fails on a `txt` file: the statistics of "hello world"
    have the keys wordCount, charCount and avgWordsPerLine, and the result has
    no headers and no dataTypes at all. *)
Lemma txt_statistics_are_not_numeric_headers :
  exists r, analyzeFile parse_atoms log2_floor host_argument_limit notes_txt = Ok r
            /\ ~ statistics_only_for_numeric_headers r.
Proof.
  destruct (analyzeFile parse_atoms log2_floor host_argument_limit notes_txt) as [r | e] eqn:E;
    [| vm_compute in E; discriminate].
  exists r. split; [reflexivity |].
  vm_compute in E. injection E as <-.
  intro H. destruct (H _ eq_refl "wordCount" (or_introl eq_refl)) as (hs & dt & Hh & _).
  discriminate.
Qed.

(** C2 (amended). For every result that [analyzeFile] returns for a file
    type other than `txt`, the keys of [statistics], when it is present, are
    headers whose [dataTypes] value is "number"; whenever the result has
    headers, [statistics] is present (it is the empty mapping, not absent,
    when no header is numeric); for `txt` the result has no headers and no
    dataTypes, and [statistics] holds the three text measures wordCount,
    charCount and avgWordsPerLine. *)
Theorem statistics_keys_by_file_type :
  forall JSON_parse Math_log argument_limit file r,
    analyzeFile JSON_parse Math_log argument_limit file = Ok r ->
    (getFileType file <> "txt" -> statistics_only_for_numeric_headers r)
    /\ (forall hs, headers r = Some hs -> exists stats, statistics r = Some stats)
    /\ (getFileType file = "txt" ->
        headers r = None /\ dataTypes r = None
        /\ exists words chars average,
            statistics r = Some [("wordCount", StatNumber words);
                                 ("charCount", StatNumber chars);
                                 ("avgWordsPerLine", StatNumber average)]).
Proof.
  intros parse log limit file r. unfold analyzeFile.
  destruct (readFileContent parse file (getFileType file)) as [content | e]; [| discriminate].
  cbn [bind].
  destruct (String.eqb (getFileType file) "csv") eqn:Ecsv.
  { apply String.eqb_eq in Ecsv.
    destruct (as_text content) as [text |]; [| discriminate]. cbn [bind].
    destruct (analyzeCSV limit text) as [p |] eqn:Ep; [| discriminate]. cbn [bind].
    intro H. injection H as <-. unfold statistics_only_for_numeric_headers.
    cbn [merge statistics headers dataTypes override].
    split; [| split].
    - intros _ stats.
      destruct (p_statistics p) as [st |] eqn:Est; cbn [override]; [| discriminate].
      intros Hs k Hk. injection Hs as <-.
      destruct (analyzeCSV_statistics limit text p st k Ep Est Hk)
        as (hs & dt & -> & -> & H).
      now exists hs, dt.
    - revert Ep. unfold analyzeCSV. destruct (lines_of text).
      { intro H. injection H as <-. discriminate. }
      match goal with
      | |- bind ?m _ = _ -> _ => destruct m as [st | e]
      end; [| discriminate].
      cbn [bind]. intro H. injection H as <-.
      cbn [p_headers p_statistics override]. intros hs _. eexists; reflexivity.
    - rewrite Ecsv. discriminate. }
  destruct (String.eqb (getFileType file) "json") eqn:Ejson.
  { apply String.eqb_eq in Ejson.
    destruct (analyzeJSON limit content) as [p |] eqn:Ep; [| discriminate]. cbn [bind].
    intro H. injection H as <-. unfold statistics_only_for_numeric_headers.
    cbn [merge statistics headers dataTypes override].
    split; [| split].
    - intros _ stats.
      destruct (p_statistics p) as [st |] eqn:Est; cbn [override]; [| discriminate].
      intros Hs k Hk. injection Hs as <-.
      destruct (analyzeJSON_statistics limit content p st k Ep Est Hk)
        as (hs & dt & -> & -> & H).
      now exists hs, dt.
    - intros hs Hh. destruct (p_headers p) as [hs' |] eqn:Eh; [| discriminate].
      destruct (analyzeJSON_statistics_present limit content p hs' Ep Eh) as (stats & ->).
      eexists; reflexivity.
    - rewrite Ejson. discriminate. }
  destruct (String.eqb (getFileType file) "txt") eqn:Etxt.
  { apply String.eqb_eq in Etxt.
    destruct (as_text content) as [text |]; [| discriminate]. cbn [bind].
    unfold analyzeTXT.
    match goal with
    | |- bind (bind ?m _) _ = _ -> _ => destruct m as [cc | e]
    end; [| discriminate].
    cbn [bind]. intro H. injection H as <-.
    unfold statistics_only_for_numeric_headers.
    cbn [merge statistics headers dataTypes override p_statistics p_headers p_dataTypes].
    split; [| split].
    - intro H. now elim H.
    - discriminate.
    - intros _. split; [reflexivity |]. split; [reflexivity |].
      eexists; eexists; eexists; reflexivity. }
  assert (Hnot : getFileType file <> "txt") by (now apply String.eqb_neq).
  destruct (String.eqb (getFileType file) "xlsx");
    intro H; injection H as <-; unfold statistics_only_for_numeric_headers;
    cbn [statistics headers];
    (split; [| split]; [intros _ stats Hs; discriminate | discriminate | intro E; now elim Hnot]).
Qed.

Lemma statistics_keys_witness :
  exists r, analyzeFile parse_atoms log2_floor host_argument_limit table_csv = Ok r
            /\ getFileType table_csv <> "txt"
            /\ statistics_only_for_numeric_headers r
            /\ option_map Rec.keys (statistics r) = Some ["n"].
Proof.
  destruct (analyzeFile parse_atoms log2_floor host_argument_limit table_csv) as [r | e] eqn:E;
    [| vm_compute in E; discriminate].
  exists r. split; [reflexivity |]. split; [discriminate |].
  split.
  - apply (statistics_keys_by_file_type parse_atoms log2_floor host_argument_limit table_csv r E). discriminate.
  - vm_compute in E. injection E as <-. reflexivity.
Defined.

(** C3. [detectDataType] drops the undefined, null and empty-string values
    and returns "empty" exactly when nothing remains; otherwise it returns the
    first of number, date, boolean whose test every remaining value passes,
    and "string" when none does; so a column whose remaining values are
    literal 0 and 1 is classified "number". *)
Theorem detectDataType_precedence :
  forall values,
    detectDataType values = infer_type_spec values
    /\ (detectDataType values = "empty" <-> filter non_empty_value values = [])
    /\ (filter non_empty_value values <> [] ->
        Forall (fun v => non_empty_value v = true -> zero_one_literal v) values ->
        detectDataType values = "number").
Proof.
  intro values. unfold detectDataType, infer_type_spec.
  destruct (filter non_empty_value values) as [| v rest] eqn:E.
  - repeat split; try reflexivity; intros; congruence.
  - cbn [List.length Nat.eqb first_match classifiers].
    split; [reflexivity |]. split.
    + split; [| discriminate].
      destruct (forallb is_number_like (v :: rest)),
               (forallb is_date_like (v :: rest)),
               (forallb is_boolean_like (v :: rest)); discriminate.
    + intros _ H.
      assert (A : forallb is_number_like (v :: rest) = true).
      { rewrite <- E. apply forallb_forall. intros x Hx.
        apply filter_In in Hx as [Hx Hne].
        apply zero_one_literal_number.
        rewrite Forall_forall in H. now apply H. }
      now rewrite A.
Qed.

Lemma detectDataType_precedence_witness :
  filter non_empty_value [JString "0"; JUndefined; JNumber 1; JString "1"] <> []
  /\ detectDataType [JString "0"; JUndefined; JNumber 1; JString "1"] = "number".
Proof.
  split; [discriminate |].
  apply (detectDataType_precedence [JString "0"; JUndefined; JNumber 1; JString "1"]).
  - discriminate.
  - repeat constructor; unfold zero_one_literal; auto; discriminate.
Defined.

(** C4. [generateRecommendations] is the function of the dataTypes map and
    the row count that the rule table of section 4.7 describes: each rule, in
    the order of the table, gives one string or none; and for
    {a:number, b:number, c:number, d:number, e:string} with 50 rows the
    output is the Random Forest, PCA, K-Nearest Neighbors, graph and pie-chart
    strings, in that order. *)
Theorem generateRecommendations_rule_table :
  (forall dataTypes rowCount,
      generateRecommendations dataTypes rowCount = recommend_spec dataTypes rowCount)
  /\ generateRecommendations example_types 50 =
     ["Random Forest algorithm is recommended for mixed numeric and categorical data";
      "Principal Component Analysis (PCA) can help reduce dimensionality";
      "K-Nearest Neighbors algorithm works well with smaller datasets";
      "Graph visualization is recommended for multi-dimensional data";
      "Pie charts are effective for categorical data distribution"].
Proof.
  split; [| vm_compute; reflexivity].
  intros dataTypes rowCount.
  unfold generateRecommendations, recommend_spec.
  set (c := counts_of dataTypes rowCount).
  replace (count_if (fun type => String.eqb type "number") (Rec.values dataTypes))
    with (numeric c) by (apply count_if_ext; intro; apply String.eqb_sym).
  replace (count_if (fun type => String.eqb type "string" || String.eqb type "boolean")
             (Rec.values dataTypes))
    with (categorical c)
    by (apply count_if_ext; intro t;
        now rewrite (String.eqb_sym t "string"), (String.eqb_sym t "boolean")).
  replace (count_if (fun type => String.eqb type "date") (Rec.values dataTypes))
    with (dates c) by (apply count_if_ext; intro; apply String.eqb_sym).
  change rowCount with (rows c).
  generalize c; clear; intros [n k d r].
  cbn [rules flat_map numeric categorical dates rows when zero_or_one app].
  destruct (0 <? n)%nat, (0 <? k)%nat, (3 <? n)%nat, (n <? k)%nat, (0 <? d)%nat,
    (1000 <? r)%Z, (r <? 100)%Z; reflexivity.
Qed.

(** C5. For the empty sequence [calculateStatistics] returns the record
    without keys. For a non-empty sequence of finite numbers that the engine
    can pass as the arguments of one call ([Math.min(...values)]) it returns
    min, max, mean, median, stdDev and count, where min and max are elements
    of the sequence below and above every element, mean is the sum divided by
    the count, median is the midpoint of the sequence sorted in ascending
    order (a permutation of the input), stdDev is the square root of the sum
    of the squared deviations divided by the count, and count is the length;
    the arithmetic is that of binary64. stdDev of [5,5,5] is 0, the median of
    [1,2,3,4] is 2.5 and the mean of [1,2,3] is 2, on an engine that passes
    four arguments. *)
Theorem calculateStatistics_spec :
  forall argument_limit,
    calculateStatistics argument_limit [] = Ok []
    /\ (forall values, values <> [] -> finite_values values ->
        (Z.of_nat (List.length values) <= argument_limit)%Z ->
        exists least greatest sorted,
          calculateStatistics argument_limit values
          = Ok [("min", least); ("max", greatest); ("mean", arithmetic_mean values);
                ("median", midpoint sorted); ("stdDev", population_std_dev values);
                ("count", JSNumber.of_nat (List.length values))]
          /\ In least values /\ Forall (float_le least) values
          /\ In greatest values /\ Forall (fun x => float_le x greatest) values
          /\ Permutation sorted values /\ StronglySorted float_le sorted)
    /\ ((4 <= argument_limit)%Z ->
        (exists stats, calculateStatistics argument_limit [5; 5; 5]%float = Ok stats
                       /\ Rec.lookup "stdDev" stats = Some 0%float)
        /\ (exists stats, calculateStatistics argument_limit [1; 2; 3; 4]%float = Ok stats
                          /\ Rec.lookup "median" stats = Some 2.5%float)
        /\ (exists stats, calculateStatistics argument_limit [1; 2; 3]%float = Ok stats
                          /\ Rec.lookup "mean" stats = Some 2%float)).
Proof.
  intro limit. split; [reflexivity |]. split.
  - intros values Hne Hf Hl.
    exists (JSNumber.min values), (JSNumber.max values), (sort PrimFloat.sub values).
    destruct (min_is_least values Hne Hf) as [M1 M2].
    destruct (max_is_greatest values Hne Hf) as [X1 X2].
    repeat split; auto using sort_permutation, sort_sorted.
    destruct values as [| x l]; [congruence |].
    unfold calculateStatistics, spread_call, midpoint, population_std_dev,
      arithmetic_mean, Math_pow_2.
    cbv zeta. rewrite even_mod_2.
    apply Z.leb_le in Hl. rewrite Hl. reflexivity.
  - intro Hl.
    assert (H3 : (Z.of_nat 3 <=? limit)%Z = true) by (apply Z.leb_le; lia).
    assert (H4 : (Z.of_nat 4 <=? limit)%Z = true) by (apply Z.leb_le; lia).
    repeat split; eexists; unfold calculateStatistics, spread_call;
      cbn [List.length]; rewrite ?H3, ?H4; cbn [bind];
      (split; [reflexivity | vm_compute; reflexivity]).
Qed.

Lemma calculateStatistics_witness :
  finite_values [3; 1; 2]%float
  /\ (Z.of_nat (List.length [3; 1; 2]%float) <= host_argument_limit)%Z
  /\ exists least greatest sorted,
       calculateStatistics host_argument_limit [3; 1; 2]%float
       = Ok [("min", least); ("max", greatest); ("mean", 2%float);
             ("median", midpoint sorted); ("stdDev", population_std_dev [3; 1; 2]%float);
             ("count", 3%float)]
       /\ Forall (float_le least) [3; 1; 2]%float
       /\ Forall (fun x => float_le x greatest) [3; 1; 2]%float
       /\ StronglySorted float_le sorted.
Proof.
  assert (F : finite_values [3; 1; 2]%float) by (repeat constructor).
  assert (L : (Z.of_nat (List.length [3; 1; 2]%float) <= host_argument_limit)%Z)
    by (vm_compute; discriminate).
  split; [exact F |]. split; [exact L |].
  destruct (proj1 (proj2 (calculateStatistics_spec host_argument_limit)) [3; 1; 2]%float
              ltac:(discriminate) F L)
    as (least & greatest & sorted & E & _ & Lo & _ & G & _ & S).
  exists least, greatest, sorted. repeat split; assumption.
Defined.

(** C6. For a CSV text that is empty or whose lines are all blank after
    trimming, [analyzeCSV] returns exactly the summary "Empty CSV file
    detected." with rowCount 0 and columnCount 0: no headers, dataTypes,
    sampleData, statistics or recommendations; and the result of [analyzeFile]
    for a `csv` file with such a text has that summary and these counts, no
    headers, dataTypes, sampleData or statistics, and the recommendation list
    is the empty one it starts from. *)
Theorem analyzeCSV_empty :
  forall argument_limit content,
    Forall (fun line => JSString.trim line = "") (JSString.split JSString.newline content) ->
    analyzeCSV argument_limit content =
      Ok {| p_summary := Some "Empty CSV file detected.";
            p_rowCount := Some 0%Z;
            p_columnCount := Some 0%Z;
            p_headers := None; p_dataTypes := None; p_sampleData := None;
            p_statistics := None; p_recommendations := None |}
    /\ forall JSON_parse Math_log file,
        getFileType file = "csv" -> contents file = Some content ->
        analyzeFile JSON_parse Math_log argument_limit file =
          Ok {| summary := "Empty CSV file detected.";
                rowCount := Some 0%Z; columnCount := Some 0%Z;
                headers := None; dataTypes := None; sampleData := None;
                statistics := None;
                fileType := "csv";
                fileSize := formatFileSize Math_log (size file);
                recommendations := Some [] |}.
Proof.
  intros limit content H.
  assert (E : analyzeCSV limit content =
      Ok {| p_summary := Some "Empty CSV file detected.";
            p_rowCount := Some 0%Z;
            p_columnCount := Some 0%Z;
            p_headers := None; p_dataTypes := None; p_sampleData := None;
            p_statistics := None; p_recommendations := None |}).
  { unfold analyzeCSV.
    replace (lines_of content) with (@nil string); [reflexivity |].
    symmetry. apply filter_none. eapply Forall_impl; [| exact H].
    intros line Hl. unfold non_blank. now rewrite Hl. }
  split; [exact E |].
  intros parse log file Ht Hc. unfold analyzeFile, readFileContent.
  rewrite Ht, Hc. cbn [is_text_type String.eqb Ascii.eqb Bool.eqb orb bind as_text].
  rewrite E. reflexivity.
Qed.

Lemma analyzeCSV_empty_witness :
  Forall (fun line => JSString.trim line = "") (JSString.split JSString.newline blank_text)
  /\ exists p,
       analyzeCSV host_argument_limit blank_text = Ok p
       /\ p_summary p = Some "Empty CSV file detected."
       /\ p_rowCount p = Some 0%Z
       /\ p_headers p = None.
Proof.
  assert (B : Forall (fun line => JSString.trim line = "")
                (JSString.split JSString.newline blank_text))
    by (repeat constructor).
  split; [exact B |].
  eexists. split; [exact (proj1 (analyzeCSV_empty host_argument_limit blank_text B)) |].
  repeat split; reflexivity.
Defined.

Lemma test_from_suffix r suffix :
  (forall start, RegExp.test_from r start suffix = true) ->
  forall prefix start, RegExp.test_from r start (prefix +++ suffix) = true.
Proof.
  intros H prefix. induction prefix as [| c prefix IH]; intro start; cbn [String.append].
  - apply H.
  - cbn [RegExp.test_from]. rewrite IH. apply orb_true_r.
Qed.

(** C7 (the code departs from the claim). The date pattern is not matched
    against the whole string: its first alternative is anchored at the start
    only and its second at the end only. Whatever follows a year-first date,
    and whatever precedes a day-first date, the value passes the date test,
    and a column of such values is classified "date". *)
Theorem datePattern_accepts_padded_dates :
  (forall tail, is_date_like (JString ("2024-01-15" +++ tail)) = true)
  /\ (forall head, is_date_like (JString (head +++ "01/15/2024")) = true)
  /\ detectDataType [JString "2024-01-15xyz"; JString "abc 1/2/99"] = "date".
Proof.
  split; [| split].
  - intro tail. reflexivity.
  - intro head. unfold is_date_like, RegExp.test. cbn [Any.ToString].
    apply test_from_suffix. intros []; vm_compute; reflexivity.
  - vm_compute. reflexivity.
Qed.

(** C8. For a CSV text made of a header line and N data lines, none of them
    blank after trimming, every result that [analyzeCSV] returns has rowCount
    N and columnCount the number of comma-separated tokens of the header line
    (its commas plus one), and so has every result of [analyzeFile] for a
    `csv` file with this text; a result is returned whenever the engine can
    pass N arguments in one call, which [calculateStatistics] needs for a
    numeric column. *)
Theorem analyzeCSV_row_and_column_counts :
  forall argument_limit header rows,
    Forall no_newline (header :: rows) ->
    Forall (fun line => JSString.trim line <> "") (header :: rows) ->
    (forall p,
       analyzeCSV argument_limit (csv_text header rows) = Ok p ->
       p_rowCount p = Some (Z.of_nat (List.length rows))
       /\ p_columnCount p = Some (Z.of_nat (S (JSString.count_char "," header))))
    /\ (forall JSON_parse Math_log file r,
          getFileType file = "csv" -> contents file = Some (csv_text header rows) ->
          analyzeFile JSON_parse Math_log argument_limit file = Ok r ->
          rowCount r = Some (Z.of_nat (List.length rows))
          /\ columnCount r = Some (Z.of_nat (S (JSString.count_char "," header))))
    /\ ((Z.of_nat (List.length rows) <= argument_limit)%Z ->
        (exists p, analyzeCSV argument_limit (csv_text header rows) = Ok p)
        /\ forall JSON_parse Math_log file,
             getFileType file = "csv" -> contents file = Some (csv_text header rows) ->
             exists r, analyzeFile JSON_parse Math_log argument_limit file = Ok r).
Proof.
  intros limit header rows Hn Hb.
  assert (L : lines_of (csv_text header rows) = header :: rows).
  { apply lines_of_csv_text; [exact Hn |].
    eapply Forall_impl; [| exact Hb]. intros line Hl. unfold non_blank.
    apply negb_true_iff. now apply String.eqb_neq. }
  assert (C : forall p,
             analyzeCSV limit (csv_text header rows) = Ok p ->
             p_rowCount p = Some (Z.of_nat (List.length rows))
             /\ p_columnCount p = Some (Z.of_nat (S (JSString.count_char "," header)))).
  { intros p Hp. exact (analyzeCSV_counts limit _ _ _ p L Hp). }
  split; [exact C |]. split.
  - intros parse log file r Ht Hc. unfold analyzeFile, readFileContent.
    rewrite Ht, Hc. cbn [is_text_type String.eqb Ascii.eqb Bool.eqb orb bind as_text].
    destruct (analyzeCSV limit (csv_text header rows)) as [p |] eqn:Ep; [| discriminate].
    cbn [bind]. intro H. injection H as <-.
    cbn [merge rowCount columnCount]. destruct (C p eq_refl) as [-> ->].
    split; reflexivity.
  - intro Hl.
    destruct (analyzeCSV_returns limit (csv_text header rows) header rows L Hl) as [p Ep].
    split; [now exists p |].
    intros parse log file Ht Hc. unfold analyzeFile, readFileContent.
    rewrite Ht, Hc. cbn [is_text_type String.eqb Ascii.eqb Bool.eqb orb bind as_text].
    rewrite Ep. cbn [bind]. eexists; reflexivity.
Qed.

Lemma analyzeCSV_counts_witness :
  (Z.of_nat (List.length ["Oslo,3"; "Rome,5"]) <= host_argument_limit)%Z
  /\ exists p,
       analyzeCSV host_argument_limit (csv_text "city,n" ["Oslo,3"; "Rome,5"]) = Ok p
       /\ p_rowCount p = Some 2%Z
       /\ p_columnCount p = Some 2%Z.
Proof.
  assert (Hl : (Z.of_nat (List.length ["Oslo,3"; "Rome,5"]) <= host_argument_limit)%Z)
    by (vm_compute; discriminate).
  split; [exact Hl |].
  assert (Hn : Forall no_newline ["city,n"; "Oslo,3"; "Rome,5"]) by (repeat constructor).
  assert (Hb : Forall (fun line => JSString.trim line <> "") ["city,n"; "Oslo,3"; "Rome,5"])
    by (repeat constructor; discriminate).
  destruct (analyzeCSV_row_and_column_counts host_argument_limit "city,n"
              ["Oslo,3"; "Rome,5"] Hn Hb) as (C & _ & R).
  destruct (proj1 (R Hl)) as [p Ep].
  exists p. split; [exact Ep |]. exact (C p Ep).
Defined.

(** X1. For a name with a '.', the extension is the text after the last '.',
    in lower case. *)
Lemma getFileType_after_last_dot file stem ext :
  name file = stem +++ String "." ext ->
  JSString.contains_char "." ext = false ->
  getFileType file = JSString.toLowerCase ext.
Proof.
  intros Hn He. unfold getFileType. rewrite Hn, split_app, (split_without_sep _ _ He).
  rewrite pop_last. cbn [option_map].
  destruct (String.eqb (JSString.toLowerCase ext) "") eqn:E; [| reflexivity].
  apply String.eqb_eq in E. now rewrite E.
Qed.

(** C9 (the code departs from the claim). For a name without '.', the
    extension that [getFileType] returns is the whole name in lower case, not
    the empty string: it is empty only for the empty name. *)
Theorem getFileType_without_dot :
  forall file,
    JSString.contains_char "." (name file) = false ->
    getFileType file = JSString.toLowerCase (name file).
Proof.
  intros file H. unfold getFileType. rewrite (split_without_sep _ _ H).
  cbn [pop rev app option_map].
  destruct (String.eqb (JSString.toLowerCase (name file)) "") eqn:E; [| reflexivity].
  apply String.eqb_eq in E. now rewrite E.
Qed.

Lemma getFileType_without_dot_witness :
  JSString.contains_char "." (name readme_file) = false
  /\ getFileType readme_file = "readme".
Proof.
  split; [reflexivity |].
  rewrite (getFileType_without_dot readme_file eq_refl). reflexivity.
Defined.

(** C10. [generateResults] returns the empty list when [fileAnalysis] is
    null; for every other [fileAnalysis] and every output configuration it
    returns a list whose first element is the result of type "text". *)
Theorem generateResults_text_first :
  forall Date_now Date_toISOString Math_random algorithmId outputConfig w,
    fst (generateResults Date_now Date_toISOString Math_random None algorithmId
           outputConfig w) = []
    /\ forall fileAnalysis,
        starts_with_text
          (fst (generateResults Date_now Date_toISOString Math_random (Some fileAnalysis)
                  algorithmId outputConfig w)).
Proof.
  intros clock iso rnd alg cfg w. split; [reflexivity |].
  intro fa. unfold generateResults.
  repeat first
    [ assumption
    | apply then_list_starts_with_text; [apply if_starts_with_text | intros]
    | apply then_starts_with_text; intros
    | apply ret_starts_with_text
    | apply text_starts_with_text; reflexivity
    | apply push_starts_with_text ].
Qed.

(** * Further properties of the analyzers *)

Lemma firstn_length_bound {A} n (l : list A) :
  (List.length (firstn n l) <= n)%nat /\ (List.length (firstn n l) <= List.length l)%nat.
Proof. rewrite length_firstn. lia. Qed.

Lemma analyzeCSV_sample argument_limit content p rows :
  analyzeCSV argument_limit content = Ok p ->
  p_sampleData p = Some rows ->
  (List.length rows <= 5)%nat
  /\ exists n, p_rowCount p = Some n /\ (Z.of_nat (List.length rows) <= n)%Z.
Proof.
  unfold analyzeCSV. destruct (lines_of content) as [| header data].
  { intro H. injection H as <-. discriminate. }
  destruct (firstn_length_bound 5 data) as [H5 Hd].
  assert (Hz : (Z.of_nat (List.length (firstn 5 data))
                <= Z.of_nat (List.length (header :: data)) - 1)%Z)
    by (cbn [List.length]; lia).
  match goal with
  | |- bind ?m _ = _ -> _ => destruct m as [st | e]
  end; [| discriminate].
  cbn [bind]. intro H. injection H as <-.
  cbn [p_sampleData p_rowCount]. intro H. injection H as <-.
  rewrite length_map.
  split; [exact H5 |]. eexists. split; [reflexivity | exact Hz].
Qed.

Lemma analyzeJSON_sample argument_limit content p rows :
  analyzeJSON argument_limit content = Ok p -> p_sampleData p = Some rows ->
  (List.length rows <= 5)%nat
  /\ exists n, p_rowCount p = Some n /\ (Z.of_nat (List.length rows) <= n)%Z.
Proof.
  unfold analyzeJSON.
  destruct (negb (Any.truthy content) || negb (Any.is_object content)).
  { intro H. injection H as <-. discriminate. }
  match goal with
  | |- bind ?m _ = _ -> _ => destruct m as [[[[[rc cc] hs] sd] dt] | e] eqn:Eshape
  end; [| discriminate].
  cbn [bind].
  match goal with
  | |- bind ?m _ = _ -> _ => destruct m as [st | e]
  end; [| discriminate].
  cbn [bind]. intro H. injection H as <-. cbn [p_sampleData p_rowCount].
  intro H. injection H as <-.
  assert (B : (List.length sd <= 5)%nat /\ (Z.of_nat (List.length sd) <= rc)%Z).
  { clear - Eshape. destruct content as [| | b | x | s | items | fields].
    1-5: destruct (Any.is_object _);
      [ repeat match type of Eshape with
               | bind ?m _ = _ => destruct m; cbn [bind] in Eshape; [| discriminate]
               end | ];
      injection Eshape as <- _ _ <- _; cbn [List.length]; lia.
    - destruct (firstn_length_bound 5 items) as [H5 Hd].
      assert (Hz : (Z.of_nat (List.length (firstn 5 items))
                    <= Z.of_nat (List.length items))%Z) by lia.
      destruct items as [| first rest].
      + injection Eshape as <- _ _ <- _. split; [exact H5 | exact Hz].
      + destruct (Any.is_object first).
        * repeat match type of Eshape with
                 | bind ?m _ = _ => destruct m; cbn [bind] in Eshape; [| discriminate]
                 end.
          injection Eshape as <- _ _ <- _. split; [exact H5 | exact Hz].
        * injection Eshape as <- _ _ <- _. split; [exact H5 | exact Hz].
    - cbn [Any.is_object] in Eshape.
      repeat match type of Eshape with
             | bind ?m _ = _ => destruct m; cbn [bind] in Eshape; [| discriminate]
             end.
      injection Eshape as <- _ _ <- _. cbn [List.length]. lia. }
  destruct B as [B1 B2]. split; [exact B1 |]. now exists rc.
Qed.

(** X2. The sample of section 3: at most five rows, and never more than
    [rowCount]. *)
Theorem sampleData_at_most_five :
  forall JSON_parse Math_log argument_limit file r rows,
    analyzeFile JSON_parse Math_log argument_limit file = Ok r ->
    sampleData r = Some rows ->
    (List.length rows <= 5)%nat
    /\ exists n, rowCount r = Some n /\ (Z.of_nat (List.length rows) <= n)%Z.
Proof.
  intros parse log limit file r rows. unfold analyzeFile.
  destruct (readFileContent parse file (getFileType file)) as [content | e]; [| discriminate].
  cbn [bind].
  destruct (String.eqb (getFileType file) "csv").
  { destruct (as_text content) as [text |]; [| discriminate]. cbn [bind].
    destruct (analyzeCSV limit text) as [p |] eqn:Ep; [| discriminate]. cbn [bind].
    intro H. injection H as <-. cbn [merge sampleData rowCount].
    destruct (p_sampleData p) as [sd |] eqn:Es; cbn [override]; [| discriminate].
    intro H. injection H as <-.
    destruct (analyzeCSV_sample limit text p sd Ep Es) as (H5 & n & -> & Hn).
    split; [exact H5 |]. now exists n. }
  destruct (String.eqb (getFileType file) "json").
  { destruct (analyzeJSON limit content) as [p |] eqn:Ep; [| discriminate]. cbn [bind].
    intro H. injection H as <-. cbn [merge sampleData rowCount].
    destruct (p_sampleData p) as [sd |] eqn:Es; cbn [override]; [| discriminate].
    intro H. injection H as <-.
    destruct (analyzeJSON_sample limit content p sd Ep Es) as (H5 & n & -> & Hn).
    split; [exact H5 |]. now exists n. }
  destruct (String.eqb (getFileType file) "txt").
  { destruct (as_text content) as [text |]; [| discriminate]. cbn [bind].
    unfold analyzeTXT.
    match goal with
    | |- bind (bind ?m _) _ = _ -> _ => destruct m as [cc | e]
    end; [| discriminate].
    cbn [bind]. intro H. injection H as <-. discriminate. }
  destruct (String.eqb (getFileType file) "xlsx"); intro H; injection H as <-; discriminate.
Qed.

Lemma sampleData_witness :
  exists r rows,
    analyzeFile parse_atoms log2_floor host_argument_limit seven_rows_csv = Ok r
    /\ sampleData r = Some rows
    /\ List.length rows = 5%nat
    /\ rowCount r = Some 7%Z.
Proof.
  destruct (analyzeFile parse_atoms log2_floor host_argument_limit seven_rows_csv) as [r | e] eqn:E;
    [| vm_compute in E; discriminate].
  destruct (sampleData r) as [rows |] eqn:Es;
    [| vm_compute in E; injection E as <-; discriminate].
  exists r, rows.
  pose proof (sampleData_at_most_five parse_atoms log2_floor host_argument_limit seven_rows_csv r rows E Es)
    as [H5 _].
  vm_compute in E. injection E as <-. injection Es as <-.
  repeat split; reflexivity.
Defined.

(** X3. A `txt` file without a non-blank line: the tab-delimited test holds for
    want of lines, and reading the first line throws; [analyzeFile] rejects. *)
Theorem analyzeTXT_without_lines_throws :
  forall content,
    Forall (fun line => JSString.trim line = "") (JSString.split JSString.newline content) ->
    analyzeTXT content = Throw TypeError
    /\ forall JSON_parse Math_log argument_limit file,
        getFileType file = "txt" -> contents file = Some content ->
        analyzeFile JSON_parse Math_log argument_limit file = Throw TypeError.
Proof.
  intros content H.
  assert (E : analyzeTXT content = Throw TypeError).
  { unfold analyzeTXT.
    replace (lines_of content) with (@nil string); [reflexivity |].
    symmetry. apply filter_none. eapply Forall_impl; [| exact H].
    intros line Hl. unfold non_blank. now rewrite Hl. }
  split; [exact E |].
  intros parse log limit file Ht Hc. unfold analyzeFile, readFileContent.
  rewrite Ht, Hc. cbn [is_text_type String.eqb Ascii.eqb Bool.eqb orb bind as_text].
  rewrite E. reflexivity.
Qed.

Lemma analyzeTXT_without_lines_witness :
  Forall (fun line => JSString.trim line = "") (JSString.split JSString.newline blank_text)
  /\ analyzeTXT blank_text = Throw TypeError.
Proof.
  assert (B : Forall (fun line => JSString.trim line = "")
                (JSString.split JSString.newline blank_text))
    by (repeat constructor).
  split; [exact B |].
  exact (proj1 (analyzeTXT_without_lines_throws blank_text B)).
Defined.

(** X4. A JSON array whose first element is [null]: [typeof null] is "object",
    and [Object.keys(null)] throws. *)
Theorem analyzeJSON_null_first_throws :
  forall argument_limit rest,
    analyzeJSON argument_limit (JArray (JNull :: rest)) = Throw TypeError.
Proof. intros limit rest. reflexivity. Qed.

Lemma getFileType_after_last_dot_witness :
  name archive_file = "archive.tar" +++ String "." "GZ"
  /\ getFileType archive_file = "gz".
Proof.
  split; [reflexivity |].
  rewrite (getFileType_after_last_dot archive_file "archive.tar" "GZ" eq_refl eq_refl).
  reflexivity.
Defined.

(** * The argument limit of the engine *)

Lemma calculateStatistics_throws argument_limit values :
  values <> [] -> (argument_limit < Z.of_nat (List.length values))%Z ->
  calculateStatistics argument_limit values = Throw RangeError.
Proof.
  intros Hne H. destruct values as [| x l]; [congruence |].
  unfold calculateStatistics, spread_call. cbv zeta.
  apply Z.leb_gt in H. rewrite H. reflexivity.
Qed.

(** X5. [calculateStatistics] returns for the empty sequence and for every
    sequence that the engine can pass as the arguments of one call; on a
    longer sequence [Math.min(...values)] throws a RangeError, whatever the
    values are. *)
Theorem calculateStatistics_argument_limit :
  forall argument_limit values,
    (values = [] \/ (Z.of_nat (List.length values) <= argument_limit)%Z ->
     exists stats, calculateStatistics argument_limit values = Ok stats)
    /\ (values <> [] -> (argument_limit < Z.of_nat (List.length values))%Z ->
        calculateStatistics argument_limit values = Throw RangeError).
Proof.
  intros limit values. split.
  - intros [-> | H]; [eexists; reflexivity | now apply calculateStatistics_returns].
  - apply calculateStatistics_throws.
Qed.

Lemma calculateStatistics_argument_limit_witness :
  calculateStatistics 2 [1; 2]%float
  = Ok [("min", 1%float); ("max", 2%float); ("mean", 1.5%float); ("median", 1.5%float);
        ("stdDev", 0.5%float); ("count", 2%float)]
  /\ calculateStatistics 2 [1; 2; 3]%float = Throw RangeError.
Proof.
  split; [vm_compute; reflexivity |].
  apply (proj2 (calculateStatistics_argument_limit 2 [1; 2; 3]%float));
    [discriminate | vm_compute; reflexivity].
Defined.

Lemma number_like_not_empty v : is_number_like v = true -> non_empty_value v = true.
Proof.
  destruct v as [| | b | x | s | items | fields]; try reflexivity.
  - vm_compute. discriminate.
  - vm_compute. discriminate.
  - destruct s; [vm_compute; discriminate | reflexivity].
Qed.

Lemma number_like_not_NaN v : is_number_like v = true -> not_NaN (Any.parseFloat v) = true.
Proof. unfold is_number_like, not_NaN. intro H. now apply andb_prop in H as [H _]. Qed.

Lemma detectDataType_numbers values :
  values <> [] -> Forall (fun v => is_number_like v = true) values ->
  detectDataType values = "number".
Proof.
  intros Hne Hf. unfold detectDataType.
  rewrite (filter_all non_empty_value values)
    by (eapply Forall_impl; [| exact Hf]; apply number_like_not_empty).
  destruct values as [| v l]; [congruence |]. cbn [List.length Nat.eqb].
  replace (forallb is_number_like (v :: l)) with true; [reflexivity |].
  symmetry. apply forallb_forall. now apply Forall_forall.
Qed.

Lemma set_first {V} k (v : V) : k <> Rec.proto -> Rec.set k v [] = [(k, v)].
Proof.
  intro H. unfold Rec.set. apply String.eqb_neq in H. rewrite H.
  cbn [Rec.replace]. now destruct (Rec.array_index k).
Qed.

(** X6. A CSV text of one column whose data lines are finite numbers, more
    of them than the engine passes as arguments, is not profiled:
    [analyzeCSV] throws a RangeError out of [calculateStatistics], and
    [analyzeFile] rejects with it. *)
Theorem analyzeCSV_beyond_argument_limit :
  forall argument_limit header rows,
    Forall no_newline (header :: rows) ->
    Forall (fun line => JSString.trim line <> "") (header :: rows) ->
    JSString.contains_char "," header = false ->
    JSString.trim header <> "__proto__" ->
    Forall (fun row => is_number_like (cell row 0) = true) rows ->
    (0 <= argument_limit < Z.of_nat (List.length rows))%Z ->
    analyzeCSV argument_limit (csv_text header rows) = Throw RangeError
    /\ forall JSON_parse Math_log file,
         getFileType file = "csv" -> contents file = Some (csv_text header rows) ->
         analyzeFile JSON_parse Math_log argument_limit file = Throw RangeError.
Proof.
  intros limit header rows Hn Hb Hc Hp Hf Hl.
  assert (L : lines_of (csv_text header rows) = header :: rows).
  { apply lines_of_csv_text; [exact Hn |].
    eapply Forall_impl; [| exact Hb]. intros line Hline. unfold non_blank.
    apply negb_true_iff. now apply String.eqb_neq. }
  assert (Hrows : rows <> []) by (intros ->; cbn [List.length] in Hl; lia).
  assert (E : analyzeCSV limit (csv_text header rows) = Throw RangeError).
  { unfold analyzeCSV. rewrite L. rewrite (split_without_sep "," header Hc).
    cbn [map indexed List.length seq combine fold_left fst snd].
    rewrite detectDataType_numbers;
      [| destruct rows; [congruence | discriminate]
       | apply Forall_map; exact Hf].
    rewrite (set_first _ _ Hp). unfold Rec.get.
    replace (String.eqb (JSString.trim header) Rec.proto) with false
      by (symmetry; now apply String.eqb_neq).
    cbn [Rec.lookup]. rewrite String.eqb_refl. cbn [opt_is String.eqb Ascii.eqb Bool.eqb bind].
    rewrite (filter_all not_NaN)
      by (apply Forall_map; eapply Forall_impl; [| exact Hf];
          intros row Hrow; now apply number_like_not_NaN).
    rewrite calculateStatistics_throws;
      [reflexivity | destruct rows; [congruence | discriminate] | rewrite length_map; lia]. }
  split; [exact E |].
  intros parse log file Ht Hcont. unfold analyzeFile, readFileContent.
  rewrite Ht, Hcont. cbn [is_text_type String.eqb Ascii.eqb Bool.eqb orb bind as_text].
  rewrite E. reflexivity.
Qed.

Lemma analyzeCSV_beyond_argument_limit_witness :
  (0 <= 2 < Z.of_nat (List.length ["1"; "2"; "3"]))%Z
  /\ analyzeCSV 2 (csv_text "n" ["1"; "2"; "3"]) = Throw RangeError
  /\ exists p, analyzeCSV 3 (csv_text "n" ["1"; "2"; "3"]) = Ok p
               /\ p_rowCount p = Some 3%Z.
Proof.
  assert (Hl : (0 <= 2 < Z.of_nat (List.length ["1"; "2"; "3"]))%Z)
    by (vm_compute; split; [discriminate | reflexivity]).
  split; [exact Hl |]. split.
  - apply (analyzeCSV_beyond_argument_limit 2 "n" ["1"; "2"; "3"]);
      [ repeat constructor | repeat constructor; discriminate | reflexivity
      | discriminate | repeat constructor | exact Hl ].
  - eexists. split; vm_compute; reflexivity.
Defined.
(** * Further properties of the program *)

(** ** Recommendations *)

Lemma count_if_zero {A} (f : A -> bool) l :
  count_if f l = 0%nat <-> forall x, In x l -> f x = false.
Proof.
  unfold count_if. induction l as [| a l IH]; simpl.
  - split; [intros _ x [] | reflexivity].
  - destruct (f a) eqn:E; simpl.
    + split; [discriminate |]. intro H. rewrite (H a) in E by now left. discriminate.
    + rewrite IH. split.
      * intros H x [<- | Hx]; auto.
      * intros H x Hx. apply H. now right.
Qed.

Lemma ltb_0_false n : (0 <? n)%nat = false <-> n = 0%nat.
Proof. rewrite Nat.ltb_ge. lia. Qed.

(** X7. [generateRecommendations] recommends nothing exactly when no column
    is typed number, string, boolean or date and the row count lies between
    100 and 1000. *)
Theorem generateRecommendations_empty_iff :
  forall dataTypes rowCount,
    generateRecommendations dataTypes rowCount = []
    <-> (forall type, In type (Rec.values dataTypes) ->
           type <> "number" /\ type <> "string" /\ type <> "boolean" /\ type <> "date")
        /\ (100 <= rowCount <= 1000)%Z.
Proof.
  intros dt rows. unfold generateRecommendations.
  set (n := count_if (fun type => String.eqb type "number") (Rec.values dt)).
  set (c := count_if (fun type => String.eqb type "string" || String.eqb type "boolean")
              (Rec.values dt)).
  set (d := count_if (fun type => String.eqb type "date") (Rec.values dt)).
  assert (Hcounts : (n = 0 /\ c = 0 /\ d = 0)%nat
                    <-> forall type, In type (Rec.values dt) ->
                          type <> "number" /\ type <> "string" /\ type <> "boolean"
                          /\ type <> "date").
  { unfold n, c, d. rewrite !count_if_zero. split.
    - intros (Hn & Hc & Hd) type Hin.
      specialize (Hn type Hin). specialize (Hc type Hin). specialize (Hd type Hin).
      apply orb_false_iff in Hc as [Hs Hb].
      rewrite String.eqb_neq in Hn, Hs, Hb, Hd. tauto.
    - intro H. repeat split; intros type Hin; destruct (H type Hin) as (H1 & H2 & H3 & H4);
        rewrite ?orb_false_iff, !String.eqb_neq; tauto. }
  rewrite <- Hcounts. clear Hcounts. clearbody n c d.
  split.
  - intro H.
    repeat match type of H with
           | _ ++ _ = [] => apply app_eq_nil in H as [? H]
           end.
    destruct (1000 <? rows)%Z eqn:E1; [discriminate |].
    destruct (rows <? 100)%Z eqn:E2; [discriminate |].
    destruct (3 <? n)%nat eqn:E3; [discriminate |].
    destruct (0 <? n)%nat eqn:E4; [discriminate |].
    destruct (0 <? c)%nat eqn:E5; [discriminate |].
    destruct (0 <? d)%nat eqn:E6; [discriminate |].
    apply ltb_0_false in E4, E5, E6. apply Z.ltb_ge in E1, E2. lia.
  - intros [(-> & -> & ->) Hr].
    replace (1000 <? rows)%Z with false by (symmetry; apply Z.ltb_ge; lia).
    replace (rows <? 100)%Z with false by (symmetry; apply Z.ltb_ge; lia).
    reflexivity.
Qed.

Lemma includes_In l s : includes l s = true <-> In s l.
Proof.
  unfold includes. rewrite existsb_exists. split.
  - intros (x & Hx & E). apply String.eqb_eq in E. now subst.
  - intro H. exists s. split; [exact H | apply String.eqb_refl].
Qed.

Lemma distinct_NoDup l : distinct l = true -> NoDup l.
Proof.
  induction l as [| x l IH]; simpl; [constructor |].
  intro H. apply andb_prop in H as [H1 H2]. constructor; [| now apply IH].
  intro Hin. apply includes_In in Hin. now rewrite Hin in H1.
Qed.

Lemma recommendations_checked (b1 b2 b3 b4 b5 b6 b7 b8 : bool) :
  let given :=
    (if b1
     then ["Random Forest algorithm is recommended for mixed numeric and categorical data"]
     else [])
    ++ (if b2
        then ["Principal Component Analysis (PCA) can help reduce dimensionality"]
        else [])
    ++ (if b3
        then ["Decision Tree algorithm works well with categorical data"]
        else [])
    ++ (if b4
        then ["Time Series analysis is recommended for temporal data"]
        else [])
    ++ (if b5
        then ["XGBoost algorithm performs well on large datasets"]
        else if b6
        then ["K-Nearest Neighbors algorithm works well with smaller datasets"]
        else [])
    ++ (if b2
        then ["Graph visualization is recommended for multi-dimensional data"]
        else if b7
        then ["Bar charts or line graphs are recommended for numeric data visualization"]
        else [])
    ++ (if b8
        then ["Pie charts are effective for categorical data distribution"]
        else []) in
  distinct given
  && (List.length given <=? 7)%nat
  && negb (includes given "XGBoost algorithm performs well on large datasets"
           && includes given
                "K-Nearest Neighbors algorithm works well with smaller datasets")
  && negb (includes given "Graph visualization is recommended for multi-dimensional data"
           && includes given
                "Bar charts or line graphs are recommended for numeric data visualization")
  = true.
Proof. destruct b1, b2, b3, b4, b5, b6, b7, b8; vm_compute; reflexivity. Qed.

(** X8. No recommendation is given twice, there are at most seven, and the
    alternatives exclude each other: XGBoost (large data) and K-Nearest
    Neighbors (small data), graph visualization and bar charts. *)
Theorem generateRecommendations_consistent :
  forall dataTypes rowCount,
    let given := generateRecommendations dataTypes rowCount in
    NoDup given
    /\ (List.length given <= 7)%nat
    /\ ~ (In "XGBoost algorithm performs well on large datasets" given
          /\ In "K-Nearest Neighbors algorithm works well with smaller datasets" given)
    /\ ~ (In "Graph visualization is recommended for multi-dimensional data" given
          /\ In "Bar charts or line graphs are recommended for numeric data visualization"
               given).
Proof.
  intros dt rows given. subst given. unfold generateRecommendations. cbv zeta.
  set (n := count_if _ _). set (c := count_if _ _). set (d := count_if _ _).
  pose proof (recommendations_checked ((0 <? n)%nat && (0 <? c)%nat) (3 <? n)%nat
                (n <? c)%nat (0 <? d)%nat (1000 <? rows)%Z (rows <? 100)%Z
                (0 <? n)%nat (0 <? c)%nat) as H.
  cbv zeta in H.
  set (given := _ ++ _) in *. clearbody given.
  apply andb_prop in H as [H H4]. apply andb_prop in H as [H H3].
  apply andb_prop in H as [H1 H2].
  split; [now apply distinct_NoDup |].
  split; [now apply Nat.leb_le |].
  rewrite <- !includes_In.
  split; intros [Ha Hb]; rewrite Ha, Hb in *; discriminate.
Qed.

(** ** Type inference *)

Lemma forallb_permutation {A} (f : A -> bool) l l' :
  Permutation l l' -> forallb f l = forallb f l'.
Proof.
  induction 1 as [| x l l' _ IH | x y l | l l' l'' _ IH1 _ IH2]; simpl.
  - reflexivity.
  - now rewrite IH.
  - now rewrite !andb_assoc, (andb_comm (f y)).
  - now rewrite IH1.
Qed.

(** X9. The inferred type of a column of cells that are not objects depends
    only on its non-empty cells, and not on their order: two such columns
    whose non-empty cells are the same up to order have the same type. *)
Theorem detectDataType_ignores_order_and_blanks :
  forall values values',
    Forall scalar values -> Forall scalar values' ->
    Permutation (filter non_empty_value values) (filter non_empty_value values') ->
    detectDataType values = detectDataType values'.
Proof.
  intros vs ws _ _ H. unfold detectDataType.
  rewrite (Permutation_length H).
  now rewrite !(forallb_permutation _ _ _ H).
Qed.

Lemma detectDataType_order_witness :
  Forall scalar [JString "2"; JString ""; JString "10"; JUndefined]
  /\ Forall scalar [JString "10"; JUndefined; JString "2"]
  /\ Permutation
       (filter non_empty_value [JString "2"; JString ""; JString "10"; JUndefined])
       (filter non_empty_value [JString "10"; JUndefined; JString "2"])
  /\ detectDataType [JString "2"; JString ""; JString "10"; JUndefined] = "number"
  /\ detectDataType [JString "10"; JUndefined; JString "2"] = "number".
Proof.
  assert (S1 : Forall scalar [JString "2"; JString ""; JString "10"; JUndefined])
    by (repeat constructor).
  assert (S2 : Forall scalar [JString "10"; JUndefined; JString "2"])
    by (repeat constructor).
  assert (P : Permutation
                (filter non_empty_value [JString "2"; JString ""; JString "10"; JUndefined])
                (filter non_empty_value [JString "10"; JUndefined; JString "2"]))
    by (simpl; apply perm_swap).
  split; [exact S1 |]. split; [exact S2 |]. split; [exact P |].
  rewrite <- (detectDataType_ignores_order_and_blanks _ _ S1 S2 P).
  split; vm_compute; reflexivity.
Defined.

(** ** The median *)

Lemma sorted_around {A} (R : A -> A -> Prop) l1 m l2 :
  StronglySorted R (l1 ++ m :: l2) ->
  Forall (fun x => R x m) l1 /\ Forall (R m) l2.
Proof.
  induction l1 as [| a l1 IH]; simpl; intro H.
  - inversion H; subst. now split.
  - inversion H as [| ? ? Hs Ha]; subst. destruct (IH Hs) as [H1 H2].
    split; [| exact H2]. constructor; [| exact H1].
    rewrite Forall_forall in Ha. apply Ha. apply in_or_app. right. now left.
Qed.

Lemma middle_split {A} (l : list A) d :
  Nat.odd (List.length l) = true ->
  l = firstn (List.length l / 2) l ++ nth (List.length l / 2) l d
        :: skipn (S (List.length l / 2)) l
  /\ List.length (firstn (List.length l / 2) l)
     = List.length (skipn (S (List.length l / 2)) l).
Proof.
  intro Hodd. set (k := (List.length l / 2)%nat).
  assert (Hk : List.length l = (2 * k + 1)%nat).
  { pose proof (Nat.div_mod_eq (List.length l) 2) as E.
    rewrite <- Nat.bit0_mod, Nat.bit0_odd, Hodd in E. exact E. }
  split.
  - rewrite <- (firstn_skipn k l) at 1. f_equal.
    assert (Hlt : (k < List.length l)%nat) by lia.
    clearbody k. clear Hodd Hk. revert k Hlt.
    induction l as [| a l IH]; intros k Hlt; simpl in *; [lia |].
    destruct k as [| k]; [reflexivity |]. apply IH. lia.
  - rewrite length_firstn, length_skipn. lia.
Qed.

(** X10. For an odd number of finite values, within the argument limit, the
    median is one of them, with as many values at or below it as at or above
    it: the values are, up to order, those below, the median, and those
    above. *)
Theorem median_of_an_odd_count :
  forall argument_limit values,
    finite_values values -> Nat.odd (List.length values) = true ->
    (Z.of_nat (List.length values) <= argument_limit)%Z ->
    exists stats below median above,
      calculateStatistics argument_limit values = Ok stats
      /\ Rec.lookup "median" stats = Some median
      /\ Permutation (below ++ median :: above) values
      /\ List.length below = List.length above
      /\ Forall (fun x => float_le x median) below
      /\ Forall (float_le median) above.
Proof.
  intros limit values Hf Hodd Hl.
  pose proof (sort_permutation PrimFloat.sub values) as Hp.
  pose proof (sort_sorted values Hf) as Hs.
  set (sorted := sort PrimFloat.sub values) in *.
  assert (Hlen : List.length sorted = List.length values)
    by (now apply Permutation_length).
  assert (Hodd' : Nat.odd (List.length sorted) = true) by (now rewrite Hlen).
  destruct (middle_split sorted JSNumber.NaN Hodd') as [Hsplit Hhalves].
  set (k := (List.length sorted / 2)%nat) in *.
  assert (E : exists stats,
             calculateStatistics limit values = Ok stats
             /\ Rec.lookup "median" stats = Some (item sorted k)).
  { destruct values as [| x l]; [discriminate |].
    unfold calculateStatistics, spread_call. fold sorted. cbv zeta.
    apply Z.leb_le in Hl. rewrite Hl. cbn [bind].
    eexists. split; [reflexivity |]. cbn [Rec.lookup String.eqb Ascii.eqb Bool.eqb].
    fold k. rewrite even_mod_2, <- Nat.negb_odd, Hodd'. reflexivity. }
  destruct E as (stats & E1 & E2).
  exists stats, (firstn k sorted), (item sorted k), (skipn (S k) sorted).
  split; [exact E1 |]. split; [exact E2 |].
  unfold item. rewrite <- Hsplit.
  split; [exact Hp |]. split; [exact Hhalves |].
  rewrite Hsplit in Hs. exact (sorted_around _ _ _ _ Hs).
Qed.

Lemma median_of_an_odd_count_witness :
  finite_values [3; 1; 2]%float
  /\ exists stats below median above,
       calculateStatistics host_argument_limit [3; 1; 2]%float = Ok stats
       /\ Rec.lookup "median" stats = Some median
       /\ Permutation (below ++ median :: above) [3; 1; 2]%float
       /\ List.length below = List.length above.
Proof.
  assert (F : finite_values [3; 1; 2]%float) by (repeat constructor).
  split; [exact F |].
  destruct (median_of_an_odd_count host_argument_limit [3; 1; 2]%float F eq_refl
              ltac:(vm_compute; discriminate))
    as (stats & below & median & above & H0 & H1 & H2 & H3 & _).
  now exists stats, below, median, above.
Defined.

(** ** Statistics of a CSV file *)

Lemma keys_replace_some {V} k (v : V) r :
  In k (Rec.keys r) -> exists r', Rec.replace k v r = Some r'.
Proof.
  induction r as [| [k' v'] r IH]; simpl; [intros [] |].
  destruct (String.eqb k k') eqn:E; [eexists; reflexivity |].
  intros [H | H]; [subst; now rewrite String.eqb_refl in E |].
  destruct (IH H) as [r' ->]. eexists; reflexivity.
Qed.

Lemma keys_insert_index_in {V} i k (v : V) r x :
  x = k \/ In x (Rec.keys r) -> In x (Rec.keys (Rec.insert_index i k v r)).
Proof.
  induction r as [| [k' v'] r IH]; simpl.
  - intuition.
  - destruct (Rec.array_index k') as [j |]; [destruct (j <? i)%Z |]; simpl; intuition.
Qed.

(** An assignment keeps the keys and, unless the key is [__proto__], adds
    its own. *)
Lemma keys_set_in {V} k (v : V) r x :
  (x = k /\ k <> Rec.proto) \/ In x (Rec.keys r) -> In x (Rec.keys (Rec.set k v r)).
Proof.
  unfold Rec.set. destruct (String.eqb k Rec.proto) eqn:Ep.
  - apply String.eqb_eq in Ep. intros [[_ H] | H]; [contradiction | exact H].
  - intro H. assert (H' : x = k \/ In x (Rec.keys r)) by tauto. clear H.
    destruct (Rec.replace k v r) as [r' |] eqn:E.
    + rewrite (keys_replace _ _ _ _ E). destruct H' as [-> | H']; [| exact H'].
      clear Ep. revert r' E. induction r as [| [k' v'] r IH]; simpl; [discriminate |].
      intros r'. destruct (String.eqb k k') eqn:Ek.
      * apply String.eqb_eq in Ek. now left.
      * destruct (Rec.replace k v r); [| discriminate]. intros _. right. now eapply IH.
    + destruct (Rec.array_index k).
      * now apply keys_insert_index_in.
      * unfold Rec.keys. rewrite map_app, in_app_iff. simpl. intuition.
Qed.

Lemma get_some_not_proto {V} k (r : Rec.t V) v : Rec.get k r = Some v -> k <> Rec.proto.
Proof.
  unfold Rec.get. destruct (String.eqb k Rec.proto) eqn:E; [discriminate |].
  intros _. now apply String.eqb_neq.
Qed.

Lemma csv_statistics_keys_in argument_limit (dt : Rec.t string)
    (values : nat * string -> list float) L st0 stats k :
  fold_left
    (fun acc ih =>
       statistics <- acc ;;
       if opt_is (Rec.get (snd ih) dt) "number" then
         record <- calculateStatistics argument_limit (values ih) ;;
         Ok (Rec.set (snd ih) (StatRecord record) statistics)
       else Ok statistics) L (Ok st0) = Ok stats ->
  In k (Rec.keys st0) \/ (In k (map snd L) /\ Rec.get k dt = Some "number") ->
  In k (Rec.keys stats).
Proof.
  revert st0. induction L as [| ih L IH]; intros st0; cbn [fold_left map].
  - intros H [Hk | [[] _]]. injection H as <-. exact Hk.
  - cbn [bind]. intros H Hk.
    destruct (opt_is (Rec.get (snd ih) dt) "number") eqn:En.
    + destruct (calculateStatistics argument_limit (values ih)) as [record | e].
      * cbn [bind] in H. apply (IH _ H).
        destruct Hk as [Hk | [[Hk | Hk] H2]].
        -- left. apply keys_set_in. now right.
        -- left. subst k. apply keys_set_in. left. split; [reflexivity |].
           eapply get_some_not_proto, H2.
        -- right. now split.
      * cbn [bind] in H. exfalso. clear - H.
        induction L as [| ih' L IH']; cbn [fold_left bind] in H; [discriminate | auto].
    + apply (IH _ H). destruct Hk as [Hk | [[Hk | Hk] H2]].
      * now left.
      * subst k. rewrite H2 in En. cbn in En. discriminate.
      * right. now split.
Qed.

Lemma indexed_snd_map {A} (l : list A) : map snd (indexed l) = l.
Proof.
  unfold indexed. generalize 0%nat. induction l as [| a l IH]; intro n; simpl;
    [reflexivity |]. now rewrite IH.
Qed.

(** X11. In every profile of a CSV text that has headers, the statistics are
    kept for exactly the headers whose inferred type is "number". *)
Theorem analyzeCSV_statistics_keys :
  forall argument_limit content p hs dt stats,
    analyzeCSV argument_limit content = Ok p ->
    p_headers p = Some hs -> p_dataTypes p = Some dt -> p_statistics p = Some stats ->
    forall k, In k (Rec.keys stats) <-> In k hs /\ Rec.get k dt = Some "number".
Proof.
  intros limit content p hs dt stats Hp Hh Hd Hs k. split.
  - intro Hk. destruct (analyzeCSV_statistics limit content p stats k Hp Hs Hk)
      as (hs' & dt' & Hh' & Hd' & H).
    rewrite Hh in Hh'. rewrite Hd in Hd'. injection Hh' as <-. injection Hd' as <-.
    exact H.
  - revert Hp. unfold analyzeCSV.
    destruct (lines_of content) as [| header data].
    { intro H. injection H as <-. discriminate. }
    match goal with
    | |- bind ?m _ = _ -> _ => destruct m as [st | e] eqn:E
    end; [| discriminate].
    cbn [bind]. intro H. injection H as <-.
    cbn [p_headers p_dataTypes p_statistics] in *.
    injection Hh as <-. injection Hd as <-. injection Hs as <-.
    intros [H1 H2].
    apply (csv_statistics_keys_in limit _
             (fun ih => filter not_NaN
                          (map (fun line => Any.parseFloat (cell line (fst ih))) data))
             _ _ _ k E).
    right. split; [| exact H2]. now rewrite indexed_snd_map.
Qed.

Lemma analyzeCSV_statistics_keys_witness :
  exists p hs dt stats,
    analyzeCSV host_argument_limit (csv_text "city,n" ["Oslo,3"; "Rome,5"]) = Ok p
    /\ p_headers p = Some hs /\ p_dataTypes p = Some dt /\ p_statistics p = Some stats
    /\ (In "n" (Rec.keys stats) <-> In "n" hs /\ Rec.get "n" dt = Some "number")
    /\ Rec.keys stats = ["n"].
Proof.
  destruct (analyzeCSV host_argument_limit (csv_text "city,n" ["Oslo,3"; "Rome,5"]))
    as [p | e] eqn:E; [| vm_compute in E; discriminate].
  destruct (p_headers p) as [hs |] eqn:Eh;
    [| vm_compute in E; injection E as <-; discriminate].
  destruct (p_dataTypes p) as [dt |] eqn:Ed;
    [| vm_compute in E; injection E as <-; discriminate].
  destruct (p_statistics p) as [stats |] eqn:Es;
    [| vm_compute in E; injection E as <-; discriminate].
  exists p, hs, dt, stats.
  split; [reflexivity |]. split; [exact Eh |]. split; [exact Ed |]. split; [exact Es |].
  split.
  - exact (analyzeCSV_statistics_keys host_argument_limit _ p hs dt stats E Eh Ed Es "n").
  - vm_compute in E. injection E as <-. injection Es as <-. reflexivity.
Defined.

(** ** Text files *)

Lemma forallb_same_tabs first rest :
  forallb (fun line => (0 <? tabCount line)%nat
                       && Nat.eqb (tabCount line) (tabCount first)) (first :: rest) = true
  <-> (0 < tabCount first)%nat /\ Forall (fun line => tabCount line = tabCount first) rest.
Proof.
  cbn [forallb]. rewrite Nat.eqb_refl, andb_true_r, andb_true_iff, Nat.ltb_lt.
  rewrite forallb_forall, Forall_forall. split; intros [H1 H2]; (split; [exact H1 |]).
  - intros line Hl. specialize (H2 line Hl). apply andb_prop in H2 as [_ H2].
    now apply Nat.eqb_eq.
  - intros line Hl. rewrite (H2 line Hl), Nat.eqb_refl, andb_true_r.
    now apply Nat.ltb_lt.
Qed.

(** X12. A text with a non-blank line is always profiled: the row count is
    the number of non-blank lines, and a column count is reported exactly
    when every non-blank line has the same, positive number of tabs; it is
    then that number plus one. *)
Theorem analyzeTXT_with_lines :
  forall content first rest,
    lines_of content = first :: rest ->
    exists p,
      analyzeTXT content = Ok p
      /\ p_rowCount p = Some (Z.of_nat (S (List.length rest)))
      /\ ((0 < tabCount first)%nat
          /\ Forall (fun line => tabCount line = tabCount first) rest ->
          p_columnCount p = Some (Z.of_nat (tabCount first) + 1)%Z)
      /\ (~ ((0 < tabCount first)%nat
             /\ Forall (fun line => tabCount line = tabCount first) rest) ->
          p_columnCount p = None).
Proof.
  intros content first rest Hl. unfold analyzeTXT. rewrite Hl. cbn [hd].
  pose proof (forallb_same_tabs first rest) as Htab.
  destruct (forallb _ (first :: rest)); cbn [bind]; eexists;
    (split; [reflexivity |]); cbn [p_rowCount p_columnCount List.length];
    (split; [reflexivity |]).
  - split.
    + intros _. rewrite split_length. unfold tabCount. f_equal. lia.
    + intro H. elim H. now apply Htab.
  - split.
    + intro H. apply Htab in H. discriminate.
    + reflexivity.
Qed.

Lemma analyzeTXT_with_lines_witness :
  lines_of ("a" +++ String JSString.tab "b" +++ JSString.nl
            +++ "c" +++ String JSString.tab "d")
  = ["a" +++ String JSString.tab "b"; "c" +++ String JSString.tab "d"]
  /\ exists p,
       analyzeTXT ("a" +++ String JSString.tab "b" +++ JSString.nl
                   +++ "c" +++ String JSString.tab "d") = Ok p
       /\ p_rowCount p = Some 2%Z
       /\ p_columnCount p = Some 2%Z.
Proof.
  assert (L : lines_of ("a" +++ String JSString.tab "b" +++ JSString.nl
                        +++ "c" +++ String JSString.tab "d")
              = ["a" +++ String JSString.tab "b"; "c" +++ String JSString.tab "d"])
    by reflexivity.
  split; [exact L |].
  destruct (analyzeTXT_with_lines _ _ _ L) as (p & E & Hr & Hc & _).
  exists p. split; [exact E |]. split; [exact Hr |].
  apply Hc. split; [vm_compute; lia | repeat constructor].
Defined.


(** ** What every profile carries *)

Lemma analyzeCSV_summary argument_limit content p :
  analyzeCSV argument_limit content = Ok p ->
  exists s, p_summary p = Some s /\ s <> ""
            /\ override (p_recommendations p) (Some (@nil string)) <> None.
Proof.
  unfold analyzeCSV. destruct (lines_of content).
  - intro H. injection H as <-. cbn [p_summary p_recommendations override].
    eexists. split; [reflexivity |]. split; discriminate.
  - match goal with
    | |- bind ?m _ = _ -> _ => destruct m as [st | e]
    end; [| discriminate].
    cbn [bind]. intro H. injection H as <-. cbn [p_summary p_recommendations override].
    eexists. split; [reflexivity |]. split; discriminate.
Qed.

Lemma analyzeJSON_summary argument_limit content p :
  analyzeJSON argument_limit content = Ok p ->
  exists s recs, p_summary p = Some s /\ s <> "" /\ p_recommendations p = Some recs.
Proof.
  unfold analyzeJSON.
  destruct (negb (Any.truthy content) || negb (Any.is_object content)).
  - intro H. injection H as <-. cbn [p_summary p_recommendations].
    eexists; eexists. split; [reflexivity |]. split; [discriminate | reflexivity].
  - match goal with
    | |- bind ?m _ = _ -> _ => destruct m as [[[[[rc cc] hs] sd] dt] | e]
    end; [| discriminate].
    cbn [bind].
    match goal with
    | |- bind ?m _ = _ -> _ => destruct m as [st | e]
    end; [| discriminate].
    cbn [bind]. intro H. injection H as <-. cbn [p_summary p_recommendations].
    eexists; eexists. split; [reflexivity |]. split; [discriminate | reflexivity].
Qed.

Lemma analyzeTXT_summary content p :
  analyzeTXT content = Ok p ->
  exists s recs, p_summary p = Some s /\ s <> "" /\ p_recommendations p = Some recs.
Proof.
  unfold analyzeTXT.
  match goal with
  | |- bind ?m _ = _ -> _ => destruct m as [cc | e]
  end; [| discriminate].
  cbn [bind]. intro H. injection H as <-. cbn [p_summary p_recommendations].
  eexists; eexists. split; [reflexivity |].
  split; [| reflexivity]. destruct (forallb _ _); discriminate.
Qed.

(** X13. Whatever the analyzers return, the profile of a file keeps the
    type read from its name and the size formatted from its byte count, has a
    summary that is not empty, and has a list of recommendations. *)
Theorem analyzeFile_profile_invariants :
  forall JSON_parse Math_log argument_limit file r,
    analyzeFile JSON_parse Math_log argument_limit file = Ok r ->
    fileType r = getFileType file
    /\ fileSize r = formatFileSize Math_log (size file)
    /\ summary r <> ""
    /\ exists recs, recommendations r = Some recs.
Proof.
  intros parse log limit file r. unfold analyzeFile.
  destruct (readFileContent parse file (getFileType file)) as [content | e]; [| discriminate].
  cbn [bind].
  destruct (String.eqb (getFileType file) "csv").
  { destruct (as_text content) as [text |]; [| discriminate]. cbn [bind].
    destruct (analyzeCSV limit text) as [p |] eqn:Ep; [| discriminate]. cbn [bind].
    intro H. injection H as <-. cbn [merge fileType fileSize summary recommendations].
    destruct (analyzeCSV_summary limit text p Ep) as (s & -> & Hs & Hr).
    cbn [override]. repeat split; [exact Hs |].
    destruct (override (p_recommendations p) (Some [])) as [l |];
      [now exists l | now elim Hr]. }
  destruct (String.eqb (getFileType file) "json").
  { destruct (analyzeJSON limit content) as [p |] eqn:Ep; [| discriminate]. cbn [bind].
    intro H. injection H as <-. cbn [merge fileType fileSize summary recommendations].
    destruct (analyzeJSON_summary limit content p Ep) as (s & recs & -> & Hs & ->).
    cbn [override]. repeat split; [exact Hs | now exists recs]. }
  destruct (String.eqb (getFileType file) "txt").
  { destruct (as_text content) as [text |]; [| discriminate]. cbn [bind].
    destruct (analyzeTXT text) as [p |] eqn:Ep; [| discriminate]. cbn [bind].
    intro H. injection H as <-. cbn [merge fileType fileSize summary recommendations].
    destruct (analyzeTXT_summary text p Ep) as (s & recs & -> & Hs & ->).
    cbn [override]. repeat split; [exact Hs | now exists recs]. }
  destruct (String.eqb (getFileType file) "xlsx"); intro H; injection H as <-;
    cbn [fileType fileSize summary recommendations];
    (repeat split; [discriminate | eexists; reflexivity]).
Qed.

Lemma analyzeFile_profile_witness :
  exists r,
    analyzeFile parse_atoms log2_floor host_argument_limit table_csv = Ok r
    /\ fileType r = "csv" /\ fileSize r = "20 Bytes".
Proof.
  destruct (analyzeFile parse_atoms log2_floor host_argument_limit table_csv) as [r | e] eqn:E;
    [| vm_compute in E; discriminate].
  exists r. split; [reflexivity |].
  destruct (analyzeFile_profile_invariants _ _ _ _ _ E) as (H1 & H2 & _).
  rewrite H1, H2. split; vm_compute; reflexivity.
Defined.

(** ** The graph of a text file *)

(** X14. The graph drawn from the profile of a `txt` file has the three
    text measures as labels and plots zero for each of them, in the data and
    in every series: the measures are numbers, not records with a mean. *)
Theorem graph_of_a_text_file_is_flat :
  forall JSON_parse Math_log argument_limit file r algorithmId outputConfig,
    getFileType file = "txt" ->
    analyzeFile JSON_parse Math_log argument_limit file = Ok r ->
    let graph := generateGraphData r algorithmId outputConfig in
    g_labels graph = ["wordCount"; "charCount"; "avgWordsPerLine"]
    /\ g_data graph = [0; 0; 0]%float
    /\ g_series graph = Some [("Mean", [0; 0; 0]%float); ("Max", [0; 0; 0]%float);
                              ("Min", [0; 0; 0]%float)].
Proof.
  intros parse log limit file r alg cfg Ht. unfold analyzeFile. rewrite Ht.
  destruct (readFileContent parse file "txt") as [content | e]; [| discriminate].
  cbn [bind String.eqb Ascii.eqb Bool.eqb].
  destruct (as_text content) as [text |]; [| discriminate]. cbn [bind].
  unfold analyzeTXT.
  match goal with
  | |- bind (bind ?m _) _ = _ -> _ => destruct m as [cc | e]
  end; [| discriminate].
  cbn [bind]. intro H. injection H as <-.
  unfold generateGraphData. cbn [merge statistics override p_statistics].
  repeat split.
Qed.

Lemma graph_of_a_text_file_witness :
  getFileType notes_txt = "txt"
  /\ exists r,
       analyzeFile parse_atoms log2_floor host_argument_limit notes_txt = Ok r
       /\ g_data (generateGraphData r "k-means" {| format := JString "graph";
                                                   options := JObject [] |})
          = [0; 0; 0]%float.
Proof.
  split; [reflexivity |].
  destruct (analyzeFile parse_atoms log2_floor host_argument_limit notes_txt) as [r | e] eqn:E;
    [| vm_compute in E; discriminate].
  exists r. split; [reflexivity |].
  exact (proj1 (proj2 (graph_of_a_text_file_is_flat parse_atoms log2_floor
                         host_argument_limit notes_txt r
                         "k-means" {| format := JString "graph"; options := JObject [] |}
                         eq_refl E))).
Defined.

(** ** The data output *)

Section DataOutput.

Variable Date_now : nat -> Z.
Variable Date_toISOString : Z -> string.
Variable Math_random : nat -> float.

Lemma process_item_keeps_fields algorithmId item w :
  incl (Rec.keys (Any.spread item))
       (Rec.keys (fst (process_item Math_random algorithmId item w)))
  /\ clock_reads (snd (process_item Math_random algorithmId item w)) = clock_reads w
  /\ random_draws (snd (process_item Math_random algorithmId item w))
     = (random_draws w + if simulated algorithmId then 2 else 0)%nat.
Proof.
  unfold process_item, simulated, includes. cbn [existsb].
  rewrite !(String.eqb_sym algorithmId).
  destruct (String.eqb "linear-regression" algorithmId);
    [| destruct (String.eqb "decision-tree" algorithmId);
       [| destruct (String.eqb "random-forest" algorithmId);
          [| destruct (String.eqb "k-means" algorithmId)]]];
    cbn [orb then_ ret random fst snd clock_reads random_draws];
    (split; [| split; [reflexivity | lia]]);
    intros k Hk; repeat (apply keys_set_in; right); exact Hk.
Qed.

Lemma process_item_unsimulated algorithmId item w :
  simulated algorithmId = false ->
  process_item Math_random algorithmId item w = (Any.spread item, w).
Proof.
  unfold process_item, simulated, includes. cbn [existsb].
  rewrite !(String.eqb_sym algorithmId).
  destruct (String.eqb "linear-regression" algorithmId); [discriminate |].
  destruct (String.eqb "decision-tree" algorithmId); [discriminate |].
  destruct (String.eqb "random-forest" algorithmId); [discriminate |].
  destruct (String.eqb "k-means" algorithmId); [discriminate |].
  reflexivity.
Qed.

Lemma for_each_process_item algorithmId items : forall w,
  Forall2 (fun item row => incl (Rec.keys (Any.spread item)) (Rec.keys row))
    items (fst (for_each (process_item Math_random algorithmId) items w))
  /\ clock_reads (snd (for_each (process_item Math_random algorithmId) items w))
     = clock_reads w
  /\ random_draws (snd (for_each (process_item Math_random algorithmId) items w))
     = (random_draws w
        + if simulated algorithmId then 2 * List.length items else 0)%nat.
Proof.
  induction items as [| item items IH]; intro w; cbn [for_each].
  - cbn [ret fst snd]. split; [constructor |]. split; [reflexivity |].
    destruct (simulated algorithmId); cbn [List.length]; lia.
  - unfold then_.
    pose proof (process_item_keeps_fields algorithmId item w) as (H1 & H2 & H3).
    destruct (process_item Math_random algorithmId item w) as [row w1].
    cbn [fst snd] in *.
    destruct (IH w1) as (I1 & I2 & I3).
    destruct (for_each (process_item Math_random algorithmId) items w1) as [rows w2].
    cbn [ret fst snd] in *. split; [now constructor |].
    split; [congruence |]. rewrite I3, H3.
    destruct (simulated algorithmId); cbn [List.length]; lia.
Qed.

Lemma for_each_unsimulated algorithmId items :
  simulated algorithmId = false ->
  forall w, for_each (process_item Math_random algorithmId) items w
            = (map Any.spread items, w).
Proof.
  intro Hs. induction items as [| item items IH]; intro w; cbn [for_each map];
    [reflexivity |].
  unfold then_. rewrite (process_item_unsimulated _ _ _ Hs), IH. reflexivity.
Qed.

End DataOutput.

(** X15. The data output has one row for each element of the sample of the
    profile, in the same order, and a row keeps every field of its sample
    element; the metadata counts these rows. One call reads the clock once and
    draws two random numbers for each row when the algorithm is one of the
    four that are simulated, and none otherwise. *)
Theorem generateDataOutput_rows :
  forall Date_now Date_toISOString Math_random fileAnalysis algorithmId outputConfig w,
    let sample := match sampleData fileAnalysis with Some l => l | None => [] end in
    let out := fst (generateDataOutput Date_now Date_toISOString Math_random
                      fileAnalysis algorithmId outputConfig w) in
    let w' := snd (generateDataOutput Date_now Date_toISOString Math_random
                     fileAnalysis algorithmId outputConfig w) in
    Forall2 (fun item row => incl (Rec.keys (Any.spread item)) (Rec.keys row))
      sample (data out)
    /\ m_rowCount (metadata out) = List.length sample
    /\ clock_reads w' = S (clock_reads w)
    /\ random_draws w'
       = (random_draws w
          + if simulated algorithmId then 2 * List.length sample else 0)%nat.
Proof.
  intros clock iso rnd fa alg cfg w sample out w'. subst out w'.
  unfold generateDataOutput. fold sample.
  cbv beta delta [then_ now_iso now ret].
  destruct (for_each_process_item rnd alg sample w) as (H1 & H2 & H3).
  destruct (for_each (process_item rnd alg) sample w) as [rows w1].
  cbn [fst snd data metadata m_rowCount clock_reads random_draws] in *.
  split; [exact H1 |]. split; [symmetry; eapply Forall2_length, H1 |].
  split; [now rewrite H2 | exact H3].
Qed.

(** X16. For an algorithm that is not simulated (of those on offer:
    neural-network, xgboost and time-series) the rows of the data output are
    the sample elements unchanged, and no random number is drawn. *)
Theorem generateDataOutput_unsimulated :
  forall Date_now Date_toISOString Math_random fileAnalysis algorithmId outputConfig w,
    simulated algorithmId = false ->
    let sample := match sampleData fileAnalysis with Some l => l | None => [] end in
    data (fst (generateDataOutput Date_now Date_toISOString Math_random
                 fileAnalysis algorithmId outputConfig w))
    = map Any.spread sample
    /\ random_draws (snd (generateDataOutput Date_now Date_toISOString Math_random
                            fileAnalysis algorithmId outputConfig w))
       = random_draws w.
Proof.
  intros clock iso rnd fa alg cfg w Hs sample.
  unfold generateDataOutput. fold sample.
  cbv beta delta [then_ now_iso now ret].
  rewrite (for_each_unsimulated rnd alg sample Hs w).
  cbn [fst snd data random_draws]. split; reflexivity.
Qed.

Lemma generateDataOutput_unsimulated_witness :
  simulated "xgboost" = false
  /\ data (fst (generateDataOutput (fun n => Z.of_nat n) JSString.of_Z (fun _ => 0.5%float)
                  {| summary := "s"; rowCount := Some 1%Z; columnCount := Some 1%Z;
                     headers := Some ["a"]; dataTypes := None;
                     sampleData := Some [JObject [("a", JString "1")]];
                     statistics := None; fileType := "csv"; fileSize := "4 Bytes";
                     recommendations := None |}
                  "xgboost" {| format := JString "data"; options := JObject [] |}
                  {| clock_reads := 0; random_draws := 0 |}))
     = [[("a", JString "1")]].
Proof.
  split; [reflexivity |].
  exact (proj1 (generateDataOutput_unsimulated (fun n => Z.of_nat n) JSString.of_Z
                  (fun _ => 0.5%float)
                  {| summary := "s"; rowCount := Some 1%Z; columnCount := Some 1%Z;
                     headers := Some ["a"]; dataTypes := None;
                     sampleData := Some [JObject [("a", JString "1")]];
                     statistics := None; fileType := "csv"; fileSize := "4 Bytes";
                     recommendations := None |}
                  "xgboost" {| format := JString "data"; options := JObject [] |}
                  {| clock_reads := 0; random_draws := 0 |} eq_refl)).
Defined.

(** ** The list of results *)

Section ResultList.

Variable Date_now : nat -> Z.
Variable Date_toISOString : Z -> string.
Variable Math_random : nat -> float.

Lemma generateResults_shape fileAnalysis algorithmId outputConfig w :
  let results := fst (generateResults Date_now Date_toISOString Math_random
                        (Some fileAnalysis) algorithmId outputConfig w) in
  map type results = "text" :: requested_types outputConfig
  /\ Forall (fun r => timestamp r = Date_toISOString (Date_now (clock_reads w))) results.
Proof.
  unfold generateResults, requested_types, format_of.
  cbv beta delta [then_ now_iso now ret push]. cbv zeta.
  destruct (is_string (or_else (format outputConfig) (JString "text")) "graph"
            || Any.truthy (option_of outputConfig "includeGraphs"));
    destruct (is_string (or_else (format outputConfig) (JString "text")) "data"
              || Any.truthy (option_of outputConfig "includeData"));
    destruct (is_string (or_else (format outputConfig) (JString "text")) "audio");
    destruct (is_string (or_else (format outputConfig) (JString "text")) "video");
    cbv beta iota;
    try match goal with
        | |- context [generateDataOutput ?a ?b ?c ?d ?e ?f ?g] =>
            destruct (generateDataOutput a b c d e f g) as [output w']
        end;
    cbn [fst snd app map type timestamp clock_reads];
    (split; [reflexivity | repeat constructor]).
Qed.

End ResultList.

Lemma is_string_eq v s : is_string v s = true <-> v = JString s.
Proof.
  destruct v; cbn [is_string]; try (split; [discriminate | congruence]).
  rewrite String.eqb_eq. split; congruence.
Qed.

Lemma requested_types_checked (g d a v : bool) :
  let types := "text" :: (if g then ["graph"] else []) ++ (if d then ["data"] else [])
               ++ (if a then ["audio"] else []) ++ (if v then ["video"] else []) in
  a && v = false ->
  distinct types && (List.length types <=? 4)%nat
  && negb (includes types "audio" && includes types "video")
  && implb g (includes types "graph") && implb d (includes types "data")
  && implb a (includes types "audio") && implb v (includes types "video")
  && includes types "text" = true.
Proof.
  cbv zeta. destruct g, d, a, v; intro H; try discriminate H; vm_compute; reflexivity.
Qed.

(** X17. The results of one call carry one timestamp, the text of the first
    reading of the clock, whatever their number. *)
Theorem generateResults_one_timestamp :
  forall Date_now Date_toISOString Math_random fileAnalysis algorithmId outputConfig w,
    Forall (fun r => timestamp r = Date_toISOString (Date_now (clock_reads w)))
      (fst (generateResults Date_now Date_toISOString Math_random fileAnalysis
              algorithmId outputConfig w)).
Proof.
  intros clock iso rnd [fa |] alg cfg w; [| constructor].
  exact (proj2 (generateResults_shape clock iso rnd fa alg cfg w)).
Qed.

(** X18. For a file analysis that is not null the results have distinct
    types and are at most four; the format asked for is always among them;
    an audio and a video result never come together. *)
Theorem generateResults_types :
  forall Date_now Date_toISOString Math_random fileAnalysis algorithmId outputConfig w,
    let types :=
      map type (fst (generateResults Date_now Date_toISOString Math_random
                       (Some fileAnalysis) algorithmId outputConfig w)) in
    NoDup types
    /\ (List.length types <= 4)%nat
    /\ (forall v, In v ["text"; "graph"; "data"; "audio"; "video"] ->
        format outputConfig = JString v -> In v types)
    /\ ~ (In "audio" types /\ In "video" types).
Proof.
  intros clock iso rnd fa alg cfg w types. subst types.
  rewrite (proj1 (generateResults_shape clock iso rnd fa alg cfg w)).
  unfold requested_types.
  pose proof (requested_types_checked
                (is_string (format_of cfg) "graph"
                 || Any.truthy (option_of cfg "includeGraphs"))
                (is_string (format_of cfg) "data"
                 || Any.truthy (option_of cfg "includeData"))
                (is_string (format_of cfg) "audio")
                (is_string (format_of cfg) "video")) as H.
  cbv zeta in H.
  assert (Hav : is_string (format_of cfg) "audio" && is_string (format_of cfg) "video"
                = false).
  { destruct (is_string (format_of cfg) "audio") eqn:Ea; [| reflexivity].
    apply is_string_eq in Ea. rewrite Ea. reflexivity. }
  specialize (H Hav).
  set (types := "text" :: _) in *. clearbody types.
  apply andb_prop in H as [H Ht]. apply andb_prop in H as [H Hv].
  apply andb_prop in H as [H Ha]. apply andb_prop in H as [H Hd].
  apply andb_prop in H as [H Hg]. apply andb_prop in H as [H Hn].
  apply andb_prop in H as [H Hl].
  split; [now apply distinct_NoDup |].
  split; [now apply Nat.leb_le |].
  split.
  - intros v Hin Hf. apply includes_In.
    assert (Hf' : format_of cfg = JString v).
    { unfold format_of. rewrite Hf.
      destruct Hin as [<- | [<- | [<- | [<- | [<- | []]]]]]; reflexivity. }
    clear Hf. rename Hf' into Hf. apply is_string_eq in Hf.
    destruct Hin as [<- | [<- | [<- | [<- | [<- | []]]]]];
      try rewrite Hf in *; cbn [orb implb] in *; assumption.
  - rewrite <- !includes_In. intros [Ha' Hv']. rewrite Ha', Hv' in Hn. discriminate.
Qed.

(** ** The output configuration panel *)

Lemma lookup_replace {V} k (v : V) r r' k' :
  Rec.replace k v r = Some r' ->
  Rec.lookup k' r' = if String.eqb k' k then Some v else Rec.lookup k' r.
Proof.
  revert r'. induction r as [| [k0 v0] r IH]; intros r'; cbn [Rec.replace];
    [discriminate |].
  destruct (String.eqb k k0) eqn:E.
  - apply String.eqb_eq in E. subst k0. intro H. injection H as <-.
    cbn [Rec.lookup]. now destruct (String.eqb k' k).
  - destruct (Rec.replace k v r) as [r1 |]; cbn [option_map]; [| discriminate].
    intro H. injection H as <-. cbn [Rec.lookup].
    destruct (String.eqb k' k0) eqn:E0; [| now apply IH].
    apply String.eqb_eq in E0. subst k0.
    rewrite String.eqb_sym, E. reflexivity.
Qed.

Lemma replace_none {V} k (v : V) r : Rec.replace k v r = None -> Rec.lookup k r = None.
Proof.
  induction r as [| [k0 v0] r IH]; cbn [Rec.replace Rec.lookup]; [reflexivity |].
  destruct (String.eqb k k0); [discriminate |].
  destruct (Rec.replace k v r); [discriminate | auto].
Qed.

Lemma lookup_insert_index {V} i k (v : V) r k' :
  Rec.lookup k r = None ->
  Rec.lookup k' (Rec.insert_index i k v r)
  = if String.eqb k' k then Some v else Rec.lookup k' r.
Proof.
  induction r as [| [k0 v0] r IH]; cbn [Rec.insert_index Rec.lookup]; [reflexivity |].
  destruct (String.eqb k k0) eqn:E; [discriminate |]. intro Hn.
  assert (G : Rec.lookup k' ((k, v) :: (k0, v0) :: r)
              = if String.eqb k' k then Some v
                else if String.eqb k' k0 then Some v0 else Rec.lookup k' r)
    by reflexivity.
  destruct (Rec.array_index k0) as [j |]; [destruct (j <? i)%Z |]; try exact G.
  cbn [Rec.lookup]. rewrite (IH Hn).
  destruct (String.eqb k' k0) eqn:E0; [| reflexivity].
  apply String.eqb_eq in E0. subst k0. rewrite String.eqb_sym, E. reflexivity.
Qed.

Lemma lookup_app_last {V} k (v : V) r k' :
  Rec.lookup k r = None ->
  Rec.lookup k' (r ++ [(k, v)]) = if String.eqb k' k then Some v else Rec.lookup k' r.
Proof.
  induction r as [| [k0 v0] r IH]; cbn [app Rec.lookup]; [reflexivity |].
  destruct (String.eqb k k0) eqn:E; [discriminate |]. intro Hn.
  rewrite (IH Hn). destruct (String.eqb k' k0) eqn:E0; [| reflexivity].
  apply String.eqb_eq in E0. subst k0. rewrite String.eqb_sym, E. reflexivity.
Qed.

(** Reading a property after it was defined. *)
Lemma lookup_define {V} k (v : V) r k' :
  Rec.lookup k' (define k v r) = if String.eqb k' k then Some v else Rec.lookup k' r.
Proof.
  unfold define. destruct (Rec.replace k v r) as [r' |] eqn:E.
  - now apply lookup_replace.
  - apply replace_none in E. destruct (Rec.array_index k).
    + now apply lookup_insert_index.
    + now apply lookup_app_last.
Qed.

(** X19. An option set on the panel is read back by the generator, and the
    other options are left as they were. *)
Theorem handleOptionChange_read_back :
  forall optionKey value prev fields key,
    options prev = JObject fields ->
    option_of (handleOptionChange optionKey value prev) key
    = if String.eqb key optionKey then value else option_of prev key.
Proof.
  intros k v prev fields k' Ho. unfold option_of, handleOptionChange.
  cbn [options]. rewrite Ho. cbn [Any.spread Any.get]. rewrite lookup_define.
  now destruct (String.eqb k' k).
Qed.

Lemma handleOptionChange_read_back_witness :
  option_of
    (handleOptionChange "dataFormat" (JString "csv")
       {| format := JString "data"; options := JObject [("textFormat", JString "summary")] |})
    "dataFormat" = JString "csv"
  /\ option_of
       (handleOptionChange "dataFormat" (JString "csv")
          {| format := JString "data";
             options := JObject [("textFormat", JString "summary")] |})
       "textFormat" = JString "summary".
Proof.
  split.
  - exact (handleOptionChange_read_back "dataFormat" (JString "csv")
             {| format := JString "data";
                options := JObject [("textFormat", JString "summary")] |}
             [("textFormat", JString "summary")] "dataFormat" eq_refl).
  - exact (handleOptionChange_read_back "dataFormat" (JString "csv")
             {| format := JString "data";
                options := JObject [("textFormat", JString "summary")] |}
             [("textFormat", JString "summary")] "textFormat" eq_refl).
Defined.

Lemma handle_event_panel_state configuration event :
  panel_event event -> panel_state configuration ->
  panel_state (handle_event configuration event).
Proof.
  intros He [Hf (fields & Ho & Hk)]. destruct event as [value | optionKey value];
    cbn [handle_event panel_event] in *.
  - split; [now exists value |]. now exists fields.
  - split; [exact Hf |]. unfold handleOptionChange. cbn [options]. rewrite Ho.
    cbn [Any.spread]. eexists. split; [reflexivity |].
    intros key. rewrite lookup_define.
    destruct (String.eqb key optionKey) eqn:E; [| apply Hk].
    apply String.eqb_eq in E. now subst.
Qed.

Lemma submitted_panel_state events :
  Forall panel_event events -> panel_state (submitted events).
Proof.
  unfold submitted.
  assert (G : forall configuration, panel_state configuration ->
              Forall panel_event events ->
              panel_state (fold_left handle_event events configuration)).
  { induction events as [| event events IH]; intros configuration Hs He;
      cbn [fold_left]; [exact Hs |].
    inversion He; subst. apply IH; [now apply handle_event_panel_state | assumption]. }
  apply G. split.
  - exists "text". split; [now left | reflexivity].
  - exists []. split; [reflexivity |]. intros key H. now elim H.
Qed.

Lemma panel_types_checked value :
  In value outputOptions ->
  (if is_string (JString value) "graph" || false then ["graph"] else [])
  ++ (if is_string (JString value) "data" || false then ["data"] else [])
  ++ (if is_string (JString value) "audio" then ["audio"] else [])
  ++ (if is_string (JString value) "video" then ["video"] else [])
  = if String.eqb value "text" then [] else [value].
Proof. intros [<- | [<- | [<- | [<- | [<- | []]]]]]; reflexivity. Qed.

(** X20. Whatever the user does on the configuration panel before
    submitting, the generator returns the text result, followed by exactly
    one result of the selected format when that is not "text": the panel has
    no control for the options [includeGraphs] and [includeData]. *)
Theorem panel_configuration_results :
  forall Date_now Date_toISOString Math_random fileAnalysis algorithmId events w,
    Forall panel_event events ->
    exists value,
      In value outputOptions
      /\ format (submitted events) = JString value
      /\ map type (fst (generateResults Date_now Date_toISOString Math_random
                          (Some fileAnalysis) algorithmId (submitted events) w))
         = if String.eqb value "text" then ["text"] else ["text"; value].
Proof.
  intros clock iso rnd fa alg events w He.
  destruct (submitted_panel_state events He) as [(value & Hv & Hf) (fields & Ho & Hk)].
  exists value. split; [exact Hv |]. split; [exact Hf |].
  rewrite (proj1 (generateResults_shape clock iso rnd fa alg (submitted events) w)).
  unfold requested_types, format_of, option_of. rewrite Hf, Ho. cbn [Any.get].
  assert (Hnone : forall key, ~ In key panel_option_keys -> Rec.lookup key fields = None).
  { intros key Hn. destruct (Rec.lookup key fields) eqn:E; [| reflexivity].
    elim Hn. apply Hk. rewrite E. discriminate. }
  assert (Hnot : forall key, includes panel_option_keys key = false ->
                 ~ In key panel_option_keys).
  { intros key E Hin. apply includes_In in Hin. congruence. }
  rewrite (Hnone "includeGraphs"), (Hnone "includeData") by (apply Hnot; reflexivity).
  cbn [Any.or_undefined Any.truthy].
  assert (Ht : or_else (JString value) (JString "text") = JString value)
    by (destruct Hv as [<- | [<- | [<- | [<- | [<- | []]]]]]; reflexivity).
  rewrite Ht, (panel_types_checked value Hv).
  now destruct (String.eqb value "text").
Qed.

Lemma panel_configuration_witness :
  Forall panel_event [OptionChange "textFormat" (JString "summary"); TabChange "graph";
                      OptionChange "includePieCharts" (JBool true)]
  /\ map type
       (fst (generateResults (fun n => Z.of_nat n) JSString.of_Z (fun _ => 0%float)
               (Some {| summary := "s"; rowCount := None; columnCount := None;
                        headers := None; dataTypes := None; sampleData := None;
                        statistics := None; fileType := "csv"; fileSize := "1 KB";
                        recommendations := None |})
               "k-means"
               (submitted [OptionChange "textFormat" (JString "summary");
                           TabChange "graph";
                           OptionChange "includePieCharts" (JBool true)])
               {| clock_reads := 0; random_draws := 0 |}))
     = ["text"; "graph"].
Proof.
  assert (P : Forall panel_event
                [OptionChange "textFormat" (JString "summary"); TabChange "graph";
                 OptionChange "includePieCharts" (JBool true)]).
  { repeat constructor; cbn; tauto. }
  split; [exact P |].
  destruct (panel_configuration_results (fun n => Z.of_nat n) JSString.of_Z
              (fun _ => 0%float)
              {| summary := "s"; rowCount := None; columnCount := None;
                 headers := None; dataTypes := None; sampleData := None;
                 statistics := None; fileType := "csv"; fileSize := "1 KB";
                 recommendations := None |}
              "k-means" _ {| clock_reads := 0; random_draws := 0 |} P)
    as (value & _ & Hf & ->).
  injection Hf as <-. reflexivity.
Defined.

(** ** The algorithms on offer *)

(** X21. The algorithms of the selection panel are the ones the generator
    names, under the same names; the data output simulates four of the
    seven. *)
Theorem offered_algorithms_are_named :
  Forall (fun a => getAlgorithmName (handleAlgorithmSelect a) = a_name a) defaultAlgorithms
  /\ map a_id defaultAlgorithms = Rec.keys algorithms
  /\ map a_id (filter (fun a => negb (simulated (a_id a))) defaultAlgorithms)
     = ["neural-network"; "xgboost"; "time-series"].
Proof. split; [repeat constructor | split; reflexivity]. Qed.

(** ** Whole numbers in binary64 *)

Section WholeNumbers.

Local Open Scope Z_scope.

Lemma digits2_pos_unique p d :
  2 ^ (d - 1) <= Zpos p < 2 ^ d -> 0 < d -> Zpos (digits2_pos p) = d.
Proof.
  intros [H1 H2] Hd. pose proof (digits2_pos_bounds p) as [B1 B2].
  set (d' := Zpos (digits2_pos p)) in *.
  assert (Hd' : 0 < d') by (unfold d'; lia).
  destruct (Z.lt_trichotomy d' d) as [Hlt | [Heq | Hgt]]; [| exact Heq |].
  - assert (2 ^ d' <= 2 ^ (d - 1)) by (apply Z.pow_le_mono_r; lia). lia.
  - assert (2 ^ d <= 2 ^ (d' - 1)) by (apply Z.pow_le_mono_r; lia). lia.
Qed.

Lemma shl_align_exponent m e e' : e' <= e -> snd (shl_align m e e') = e'.
Proof.
  intro H. unfold shl_align. destruct (e' - e) eqn:E; cbn [snd]; lia.
Qed.

(** A canonical mantissa of 53 digits is left as it is. *)
Lemma binary_round_aux_canonical s m e :
  Zpos (digits2_pos m) = 53 -> -1074 <= e <= 971 ->
  binary_round_aux prec emax s (Zpos m) e loc_Exact = S754_finite s m e.
Proof.
  intros Hd He. unfold binary_round_aux, shr_fexp.
  cbn [Zdigits2 shr_record_of_loc]. rewrite Hd.
  assert (Hf : fexp prec emax (53 + e) - e = 0)
    by (unfold fexp, SpecFloat.emin, prec, emax; lia).
  rewrite Hf. cbn [shr shr_m loc_of_shr_record round_nearest_even Zdigits2].
  rewrite Hd, Hf. cbn [shr shr_m].
  replace (e <=? emax - prec) with true; [reflexivity |].
  symmetry. apply Z.leb_le. unfold emax, prec. lia.
Qed.

(** The binary64 number of a positive integer below 2^53 is the integer. *)
Lemma binary_round_exact p :
  Zpos p < 2 ^ 53 ->
  exists m e,
    binary_round prec emax false p 0 = S754_finite false m e
    /\ bounded prec emax m e = true
    /\ e <= 0 /\ Zpos m = Zpos p * 2 ^ (- e).
Proof.
  intro Hp. pose proof (digits2_pos_bounds p) as [B1 B2].
  set (d := Zpos (digits2_pos p)) in *.
  assert (Hd0 : 0 < d) by (unfold d; lia).
  assert (Hd : d <= 53).
  { destruct (Z.le_gt_cases d 53) as [H | H]; [exact H |].
    assert (2 ^ 53 <= 2 ^ (d - 1)) by (apply Z.pow_le_mono_r; lia). lia. }
  unfold binary_round. fold d.
  assert (Hf : fexp prec emax (d + 0) = d - 53)
    by (unfold fexp, SpecFloat.emin, prec, emax; lia).
  rewrite Hf.
  pose proof (shl_align_value p 0 (d - 53) ltac:(lia)) as Hv.
  pose proof (shl_align_exponent p 0 (d - 53) ltac:(lia)) as Hx.
  destruct (shl_align p 0 (d - 53)) as [mz ez]. cbn [fst snd] in *. subst ez.
  replace (0 - (d - 53)) with (53 - d) in Hv by lia.
  assert (Hdz : Zpos (digits2_pos mz) = 53).
  { apply digits2_pos_unique; [| lia]. rewrite Hv.
    replace (2 ^ (53 - 1)) with (2 ^ (d - 1) * 2 ^ (53 - d))
      by (rewrite <- Z.pow_add_r by lia; f_equal; lia).
    replace (2 ^ 53) with (2 ^ d * 2 ^ (53 - d))
      by (rewrite <- Z.pow_add_r by lia; f_equal; lia).
    assert (0 < 2 ^ (53 - d)) by (apply Z.pow_pos_nonneg; lia).
    split; [apply Z.mul_le_mono_nonneg_r | apply Z.mul_lt_mono_pos_r]; lia. }
  exists mz, (d - 53). split; [apply binary_round_aux_canonical; [exact Hdz | lia] |].
  split.
  - unfold bounded, canonical_mantissa. rewrite Hdz.
    apply andb_true_intro. split; [apply Z.eqb_eq | apply Z.leb_le];
      unfold fexp, SpecFloat.emin, prec, emax; lia.
  - split; [lia |]. rewrite Hv. f_equal. f_equal. lia.
Qed.


(** A whole number of the safe range, as a spec float. *)
Lemma of_Z_exact z :
  0 <= z < 2 ^ 53 ->
  Prim2SF (JSNumber.of_Z z) = binary_normalize prec emax z 0 false
  /\ (z = 0 /\ binary_normalize prec emax z 0 false = S754_zero false
      \/ exists m e,
           binary_normalize prec emax z 0 false = S754_finite false m e
           /\ bounded prec emax m e = true /\ e <= 0 /\ Zpos m = z * 2 ^ (- e)).
Proof.
  intros [H0 H1]. unfold JSNumber.of_Z.
  destruct z as [| p | p].
  - split. reflexivity. left. split; reflexivity.
  - destruct (binary_round_exact p H1) as (m & e & E & Hb & He & Hm).
    change (binary_normalize prec emax (Z.pos p) 0 false)
      with (binary_round prec emax false p 0). rewrite E.
    split. apply Prim2SF_SF2Prim. exact Hb.
    right. exists m, e. repeat split; assumption.
  - exfalso. clear - H0. lia.
Qed.

Lemma SFcompare_of_Z a b :
  0 <= a < 2 ^ 53 -> 0 <= b < 2 ^ 53 ->
  SFcompare (Prim2SF (JSNumber.of_Z a)) (Prim2SF (JSNumber.of_Z b)) = Some (a ?= b).
Proof.
  intros Ha Hb.
  destruct (of_Z_exact a Ha) as [-> [[-> ->] | (ma & ea & -> & Ba & Ea & Ma)]];
    destruct (of_Z_exact b Hb) as [-> [[-> ->] | (mb & eb & -> & Bb & Eb & Mb)]].
  - reflexivity.
  - destruct b as [| pb | pb]; [rewrite Z.mul_0_l in Mb; discriminate | reflexivity |].
    exfalso. clear - Hb. lia.
  - destruct a as [| pa | pa]; [rewrite Z.mul_0_l in Ma; discriminate | reflexivity |].
    exfalso. clear - Ha. lia.
  - rewrite (compare_finite false mb eb false ma ea Bb Ba). f_equal.
    cbn [cond_Zopp]. rewrite Ma, Mb.
    set (mn := Z.min eb ea).
    assert (Hmn : mn <= ea /\ mn <= eb /\ mn <= 0) by (unfold mn; lia).
    clearbody mn. clear - Ea Eb Hmn.
    replace (a * 2 ^ (- ea) * 2 ^ (ea - mn)) with (a * 2 ^ (- mn))
      by (rewrite <- Z.mul_assoc, <- Z.pow_add_r by lia; f_equal; f_equal; lia).
    replace (b * 2 ^ (- eb) * 2 ^ (eb - mn)) with (b * 2 ^ (- mn))
      by (rewrite <- Z.mul_assoc, <- Z.pow_add_r by lia; f_equal; f_equal; lia).
    assert (Hp : 0 < 2 ^ (- mn)) by (apply Z.pow_pos_nonneg; lia).
    destruct (Z.compare_spec a b) as [-> | Hlt | Hgt].
    + apply Z.compare_refl.
    + apply Z.compare_lt_iff. now apply Z.mul_lt_mono_pos_r.
    + apply Z.compare_gt_iff. now apply Z.mul_lt_mono_pos_r.
Qed.

(** On whole numbers of the safe range, [<] on numbers is [<] on integers. *)
Lemma of_Z_ltb a b :
  0 <= a < 2 ^ 53 -> 0 <= b < 2 ^ 53 ->
  PrimFloat.ltb (JSNumber.of_Z a) (JSNumber.of_Z b) = (a <? b).
Proof.
  intros Ha Hb. rewrite FloatAxioms.ltb_spec. unfold SFltb.
  rewrite (SFcompare_of_Z a b Ha Hb). unfold Z.ltb. now destruct (a ?= b).
Qed.

End WholeNumbers.

(** ** The upload area *)

Lemma pop_split c s : exists last, pop (JSString.split c s) = Some last.
Proof.
  pose proof (split_nonempty c s) as H. unfold pop.
  destruct (rev (JSString.split c s)) as [| x l] eqn:E; [| now exists x].
  apply (f_equal (@rev string)) in E. rewrite rev_involutive in E. now elim H.
Qed.

(** The upload area and the analyzer read the same extension. *)
Lemma fileExtension_getFileType file : fileExtension file = "." +++ getFileType file.
Proof.
  unfold fileExtension, getFileType.
  destruct (pop_split "." (name file)) as [last ->]. cbn [option_map].
  destruct (String.eqb (JSString.toLowerCase last) "") eqn:E; [| reflexivity].
  apply String.eqb_eq in E. now rewrite E.
Qed.

Lemma default_limit_in_bytes :
  (maxFileSize_default * 1024 * 1024)%float = JSNumber.of_Z 52428800.
Proof. vm_compute. reflexivity. Qed.

Lemma accepted_by_default type :
  includes acceptedFileTypes_default ("." +++ type)
  = includes ["csv"; "xlsx"; "json"; "txt"] type.
Proof. reflexivity. Qed.

(** X22. With its default props the upload area accepts a file exactly when
    the type that [analyzeFile] reads from its name is csv, xlsx, json or txt
    and its size is at most 50 * 1024 * 1024 bytes; the type is tested first,
    and each refusal has its own message. *)
Theorem validateFile_by_default :
  forall file,
    (0 <= size file < 2 ^ 53)%Z ->
    validateFile acceptedFileTypes_default maxFileSize_default file
    = if negb (includes ["csv"; "xlsx"; "json"; "txt"] (getFileType file))
      then Some "Invalid file type. Accepted types: .csv, .xlsx, .json, .txt"
      else if (52428800 <? size file)%Z
      then Some "File too large. Maximum size: 50MB"
      else None.
Proof.
  intros file Hs. unfold validateFile.
  rewrite fileExtension_getFileType, accepted_by_default, default_limit_in_bytes.
  rewrite (of_Z_ltb 52428800 (size file) ltac:(split; [discriminate | reflexivity]) Hs).
  change (0 <? List.length acceptedFileTypes_default)%nat with true. cbn [andb].
  destruct (includes ["csv"; "xlsx"; "json"; "txt"] (getFileType file)); cbn [negb];
    [| reflexivity].
  destruct (52428800 <? size file)%Z; [| reflexivity].
  f_equal.
Qed.

Lemma validateFile_by_default_witness :
  (0 <= size {| name := "csv"; size := 20; contents := Some "a,b" |} < 2 ^ 53)%Z
  /\ validateFile acceptedFileTypes_default maxFileSize_default
       {| name := "csv"; size := 20; contents := Some "a,b" |} = None
  /\ validateFile acceptedFileTypes_default maxFileSize_default readme_file
     = Some "Invalid file type. Accepted types: .csv, .xlsx, .json, .txt".
Proof.
  assert (H : (0 <= size {| name := "csv"; size := 20; contents := Some "a,b" |}
               < 2 ^ 53)%Z)
    by (split; [discriminate | reflexivity]).
  split; [exact H |]. split.
  - rewrite (validateFile_by_default _ H). reflexivity.
  - rewrite validateFile_by_default by (split; [discriminate | reflexivity]).
    reflexivity.
Defined.

(** A refusal carries a message. *)
Lemma validateFile_is_error acceptedFileTypes maxFileSize file :
  is_error (validateFile acceptedFileTypes maxFileSize file)
  = match validateFile acceptedFileTypes maxFileSize file with
    | None => false
    | Some _ => true
    end.
Proof.
  unfold validateFile.
  destruct ((0 <? List.length acceptedFileTypes)%nat
            && negb (includes acceptedFileTypes (fileExtension file))); [reflexivity |].
  destruct (PrimFloat.ltb _ _); reflexivity.
Qed.

Lemma sort_files_spec acceptedFileTypes maxFileSize selected :
  fst (sort_files acceptedFileTypes maxFileSize selected)
  = filter (fun file => match validateFile acceptedFileTypes maxFileSize file with
                        | None => true
                        | Some _ => false
                        end) selected
  /\ forall key,
       In key (Rec.keys (snd (sort_files acceptedFileTypes maxFileSize selected))) ->
       exists file, In file selected /\ name file = key
                    /\ validateFile acceptedFileTypes maxFileSize file <> None.
Proof.
  unfold sort_files.
  set (ok := fun file => match validateFile acceptedFileTypes maxFileSize file with
                         | None => true
                         | Some _ => false
                         end).
  set (step := fun (acc : list File * Rec.t string) file => _).
  assert (G : forall acc,
             fst (fold_left step selected acc) = fst acc ++ filter ok selected
             /\ forall key,
                  In key (Rec.keys (snd (fold_left step selected acc))) ->
                  In key (Rec.keys (snd acc))
                  \/ exists file, In file selected /\ name file = key
                                  /\ validateFile acceptedFileTypes maxFileSize file <> None).
  { induction selected as [| file rest IH]; intro acc; cbn [fold_left filter].
    - rewrite app_nil_r. split; [reflexivity | now left].
    - unfold ok at 1.
      destruct (validateFile acceptedFileTypes maxFileSize file) as [message |] eqn:E.
      + assert (Hstep : step acc file = (fst acc, Rec.set (name file) message (snd acc)))
          by (unfold step; now rewrite validateFile_is_error, E).
        rewrite Hstep. destruct (IH (fst acc, Rec.set (name file) message (snd acc)))
          as [I1 I2]. cbn [fst snd] in *.
        split; [exact I1 |]. intros key Hk.
        destruct (I2 key Hk) as [H | (f & Hf & Hn & Hv)].
        * apply keys_set in H as [-> | H]; [| now left].
          right. exists file. split; [now left |]. split; [reflexivity |]. congruence.
        * right. exists f. split; [now right | now split].
      + assert (Hstep : step acc file = (fst acc ++ [file], snd acc))
          by (unfold step; now rewrite validateFile_is_error, E).
        rewrite Hstep. destruct (IH (fst acc ++ [file], snd acc)) as [I1 I2].
        cbn [fst snd] in *.
        split; [now rewrite I1, <- app_assoc |]. intros key Hk.
        destruct (I2 key Hk) as [H | (f & Hf & Hn & Hv)]; [now left |].
        right. exists f. split; [now right | now split]. }
  destruct (G ([], [])) as [G1 G2]. split; [exact G1 |].
  intros key Hk. destruct (G2 key Hk) as [[] | H]. exact H.
Qed.

(** X23. A selection adds to the files exactly its files that pass the
    validation, in their order, and hands these to [onFilesUploaded] when
    there is one; the files selected before are kept. The errors shown are
    replaced only when a file of the selection is recorded as refused, and
    then every error is under the name of a refused file of the selection;
    a selection without such a file leaves the earlier errors in place. *)
Theorem handleFileChange_sorts_the_selection :
  forall acceptedFileTypes maxFileSize selected state,
    let valid :=
      filter (fun file => match validateFile acceptedFileTypes maxFileSize file with
                          | None => true
                          | Some _ => false
                          end) selected in
    let change := handleFileChange acceptedFileTypes maxFileSize (Some selected) state in
    files (area change) = files state ++ valid
    /\ uploaded change = match valid with [] => None | _ :: _ => Some valid end
    /\ (toasted change = false -> fileErrors (area change) = fileErrors state)
    /\ (toasted change = true ->
        forall key, In key (Rec.keys (fileErrors (area change))) ->
        exists file, In file selected /\ name file = key
                     /\ validateFile acceptedFileTypes maxFileSize file <> None).
Proof.
  intros accepted maxSize selected state valid change. subst change.
  unfold handleFileChange.
  destruct (sort_files_spec accepted maxSize selected) as [S1 S2]. fold valid in S1.
  destruct (sort_files accepted maxSize selected) as [newFiles newErrors].
  cbn [fst snd] in *. subst newFiles.
  set (failed := (0 <? List.length (Rec.keys newErrors))%nat).
  destruct valid as [| file rest]; cbn [List.length Nat.ltb Nat.leb];
    cbn [area files fileErrors toasted uploaded];
    (split; [now rewrite ?app_nil_r |]); (split; [reflexivity |]);
    destruct failed;
    (split; [intro H; try discriminate H; reflexivity
            | intro H; try discriminate H; exact S2]).
Qed.
